(** * New Defense: the simulation core of [App.tsx]

    A shallow embedding of the game's state and of the functions that
    mutate it ([initGame], [handleCanvasClick], [update],
    [updatePlayerFormation], [spawnPlanes], [spawnRocket], [startGame],
    [nextLevel]), followed by the properties of the tick, of the fire
    command and of the lifecycle commands.

    Numbers.  A TypeScript [number] that only ever holds an integer
    (ids, ammo, health of cities and towers, score, level, the
    formation timer and index) is a [Z].  Every other [number] is an
    exact rational [Q]: the model has no rounding, no NaN and no
    infinity.  [Math.cos], [Math.sin], [Math.atan2] and [Math.sqrt] have
    no rational counterpart and are taken from a [MathLib] record;
    [Math.random] and [Date.now] are read from a record of the draws of
    one tick. *)

From Stdlib Require Import ZArith QArith Qminmax Qround Qabs.
From Stdlib Require Import List String Bool Lia Lqa.
Import ListNotations.

Set Implicit Arguments.

Local Open Scope Q_scope.

(** ** Platform primitives *)

Record MathLib := {
  cos : Q -> Q;
  sin : Q -> Q;
  atan2 : Q -> Q -> Q;
  sqrt : Q -> Q;
  PI : Q
}.

(** [a < b] on numbers. *)
Definition Qltb (a b : Q) : bool := negb (Qle_bool b a).

(** [Math.pow(a, 2)]. *)
Definition pow2 (a : Q) : Q := a ^ 2.

(** ** Arrays

    [arr.splice(i, 1)], the in-place write of a mutated element, and
    [arr.forEach]. *)

Fixpoint splice1 {A : Type} (i : nat) (l : list A) : list A :=
  match l, i with
  | [], _ => []
  | _ :: t, O => t
  | h :: t, S i' => h :: splice1 i' t
  end.

Fixpoint writeAt {A : Type} (i : nat) (a : A) (l : list A) : list A :=
  match l, i with
  | [], _ => []
  | _ :: t, O => a :: t
  | h :: t, S i' => h :: writeAt i' a t
  end.

(** [forEach] fixes the number of indices to visit when it starts,
    visits index [k] only if the array still has an element there, and
    reads that element from the array as it is at that moment.  A
    callback that splices the element it was called on therefore makes
    the loop step over the element that slides into its place. *)
Section ForEach.

Context {St A : Type}.
Variable arr : St -> list A.
Variable body : A -> nat -> St -> St.

Fixpoint forEachFrom (len k : nat) (s : St) : St :=
  match len with
  | O => s
  | S len' =>
      match nth_error (arr s) k with
      | Some a => forEachFrom len' (S k) (body a k s)
      | None => forEachFrom len' (S k) s
      end
  end.

Definition forEach (s : St) : St := forEachFrom (List.length (arr s)) 0 s.

End ForEach.

(** ** types.ts *)

Inductive GameStatus := START | PLAYING | WON | LOST | LEVEL_UP.

Definition GameStatus_eqb (a b : GameStatus) : bool :=
  match a, b with
  | START, START | PLAYING, PLAYING | WON, WON
  | LOST, LOST | LEVEL_UP, LEVEL_UP => true
  | _, _ => false
  end.

Module Point.
Record t := mk { x : Q; y : Q }.
End Point.

Module Rocket.
Record t := mk {
  id : string;
  start : Point.t;
  current : Point.t;
  target : Point.t;
  speed : Q;
  angle : Q
}.

Definition set_current (v : Point.t) (r : t) : t :=
  mk (id r) (start r) v (target r) (speed r) (angle r).
End Rocket.

Module Missile.
Record t := mk {
  id : string;
  start : Point.t;
  current : Point.t;
  target : Point.t;
  speed : Q;
  angle : Q;
  towerId : Z
}.

Definition set_current (v : Point.t) (m : t) : t :=
  mk (id m) (start m) v (target m) (speed m) (angle m) (towerId m).
End Missile.

Module Explosion.
Record t := mk {
  id : string;
  x : Q;
  y : Q;
  radius : Q;
  maxRadius : Q;
  growing : bool
}.

Definition set_radius (v : Q) (e : t) : t :=
  mk (id e) (x e) (y e) v (maxRadius e) (growing e).

Definition set_growing (v : bool) (e : t) : t :=
  mk (id e) (x e) (y e) (radius e) (maxRadius e) v.
End Explosion.

Module City.
Record t := mk {
  id : Z;
  x : Q;
  y : Q;
  width : Q;
  height : Q;
  health : Z;
  maxHealth : Z;
  destroyed : bool
}.

Definition set_health (v : Z) (c : t) : t :=
  mk (id c) (x c) (y c) (width c) (height c) v (maxHealth c) (destroyed c).

Definition set_destroyed (v : bool) (c : t) : t :=
  mk (id c) (x c) (y c) (width c) (height c) (health c) (maxHealth c) v.
End City.

Module Tower.
Record t := mk {
  id : Z;
  x : Q;
  y : Q;
  targetX : Q;
  targetY : Q;
  ammo : Z;
  maxAmmo : Z;
  health : Z;
  maxHealth : Z;
  destroyed : bool
}.

Definition set_x (v : Q) (w : t) : t :=
  mk (id w) v (y w) (targetX w) (targetY w) (ammo w) (maxAmmo w)
    (health w) (maxHealth w) (destroyed w).

Definition set_y (v : Q) (w : t) : t :=
  mk (id w) (x w) v (targetX w) (targetY w) (ammo w) (maxAmmo w)
    (health w) (maxHealth w) (destroyed w).

Definition set_targetX (v : Q) (w : t) : t :=
  mk (id w) (x w) (y w) v (targetY w) (ammo w) (maxAmmo w)
    (health w) (maxHealth w) (destroyed w).

Definition set_targetY (v : Q) (w : t) : t :=
  mk (id w) (x w) (y w) (targetX w) v (ammo w) (maxAmmo w)
    (health w) (maxHealth w) (destroyed w).

Definition set_ammo (v : Z) (w : t) : t :=
  mk (id w) (x w) (y w) (targetX w) (targetY w) v (maxAmmo w)
    (health w) (maxHealth w) (destroyed w).

Definition set_health (v : Z) (w : t) : t :=
  mk (id w) (x w) (y w) (targetX w) (targetY w) (ammo w) (maxAmmo w)
    v (maxHealth w) (destroyed w).

Definition set_destroyed (v : bool) (w : t) : t :=
  mk (id w) (x w) (y w) (targetX w) (targetY w) (ammo w) (maxAmmo w)
    (health w) (maxHealth w) v.
End Tower.

Module Meteor.
Record t := mk {
  id : string;
  x : Q;
  y : Q;
  size : Q;
  speedX : Q;
  speedY : Q;
  angle : Q
}.

Definition set_x (v : Q) (m : t) : t :=
  mk (id m) v (y m) (size m) (speedX m) (speedY m) (angle m).

Definition set_y (v : Q) (m : t) : t :=
  mk (id m) (x m) v (size m) (speedX m) (speedY m) (angle m).
End Meteor.

Module Plane.
Record t := mk {
  id : string;
  x : Q;
  y : Q;
  targetY : Q;
  health : Q;
  maxHealth : Q;
  speed : Q;
  direction : Q;
  destroyed : bool;
  lastFired : Q
}.

Definition set_x (v : Q) (p : t) : t :=
  mk (id p) v (y p) (targetY p) (health p) (maxHealth p) (speed p)
    (direction p) (destroyed p) (lastFired p).

Definition set_y (v : Q) (p : t) : t :=
  mk (id p) (x p) v (targetY p) (health p) (maxHealth p) (speed p)
    (direction p) (destroyed p) (lastFired p).

Definition set_health (v : Q) (p : t) : t :=
  mk (id p) (x p) (y p) (targetY p) v (maxHealth p) (speed p)
    (direction p) (destroyed p) (lastFired p).

Definition set_destroyed (v : bool) (p : t) : t :=
  mk (id p) (x p) (y p) (targetY p) (health p) (maxHealth p) (speed p)
    (direction p) v (lastFired p).

Definition set_lastFired (v : Q) (p : t) : t :=
  mk (id p) (x p) (y p) (targetY p) (health p) (maxHealth p) (speed p)
    (direction p) (destroyed p) v.
End Plane.

(** ** constants.ts *)

Definition GAME_WIDTH : Q := 800.
Definition GAME_HEIGHT : Q := 600.

Module TowerPosition.
Record t := mk { id : Z; x : Q; y : Q; maxAmmo : Z }.
End TowerPosition.

Module CityPosition.
Record t := mk { id : Z; x : Q; y : Q }.
End CityPosition.

Definition TOWER_POSITIONS : list TowerPosition.t := [
  TowerPosition.mk 0 40 560 300;
  TowerPosition.mk 1 220 560 300;
  TowerPosition.mk 2 400 560 300;
  TowerPosition.mk 3 580 560 300;
  TowerPosition.mk 4 760 560 300
].

Definition CITY_POSITIONS : list CityPosition.t := [
  CityPosition.mk 0 110 570;
  CityPosition.mk 1 160 570;
  CityPosition.mk 2 300 570;
  CityPosition.mk 3 500 570;
  CityPosition.mk 4 650 570;
  CityPosition.mk 5 700 570
].

Definition EXPLOSION_MAX_RADIUS : Q := 70.
Definition EXPLOSION_SPEED : Q := 1.5.
Definition MISSILE_SPEED : Q := 8.
Definition ROCKET_SPEED_MIN : Q := 0.5.
Definition ROCKET_SPEED_MAX : Q := 1.5.
Definition SPAWN_RATE : Q := 0.015.
Definition SCORE_PER_ROCKET : Z := 20.
Definition WIN_SCORE : Z := 5000.

(** ** The component's state: the React state and the refs of [App] *)

Record State := mkState {
  status : GameStatus;
  score : Z;
  level : Z;
  rockets : list Rocket.t;
  missiles : list Missile.t;
  explosions : list Explosion.t;
  cities : list City.t;
  towers : list Tower.t;
  meteors : list Meteor.t;
  planes : list Plane.t;
  formationTimer : Z;
  currentFormation : Z;
  scoreRef : Z
}.

Definition set_status (v : GameStatus) (s : State) : State :=
  mkState v (score s) (level s) (rockets s) (missiles s) (explosions s)
    (cities s) (towers s) (meteors s) (planes s) (formationTimer s)
    (currentFormation s) (scoreRef s).

Definition set_score (v : Z) (s : State) : State :=
  mkState (status s) v (level s) (rockets s) (missiles s) (explosions s)
    (cities s) (towers s) (meteors s) (planes s) (formationTimer s)
    (currentFormation s) (scoreRef s).

Definition set_level (v : Z) (s : State) : State :=
  mkState (status s) (score s) v (rockets s) (missiles s) (explosions s)
    (cities s) (towers s) (meteors s) (planes s) (formationTimer s)
    (currentFormation s) (scoreRef s).

Definition set_rockets (v : list Rocket.t) (s : State) : State :=
  mkState (status s) (score s) (level s) v (missiles s) (explosions s)
    (cities s) (towers s) (meteors s) (planes s) (formationTimer s)
    (currentFormation s) (scoreRef s).

Definition set_missiles (v : list Missile.t) (s : State) : State :=
  mkState (status s) (score s) (level s) (rockets s) v (explosions s)
    (cities s) (towers s) (meteors s) (planes s) (formationTimer s)
    (currentFormation s) (scoreRef s).

Definition set_explosions (v : list Explosion.t) (s : State) : State :=
  mkState (status s) (score s) (level s) (rockets s) (missiles s) v
    (cities s) (towers s) (meteors s) (planes s) (formationTimer s)
    (currentFormation s) (scoreRef s).

Definition set_cities (v : list City.t) (s : State) : State :=
  mkState (status s) (score s) (level s) (rockets s) (missiles s)
    (explosions s) v (towers s) (meteors s) (planes s) (formationTimer s)
    (currentFormation s) (scoreRef s).

Definition set_towers (v : list Tower.t) (s : State) : State :=
  mkState (status s) (score s) (level s) (rockets s) (missiles s)
    (explosions s) (cities s) v (meteors s) (planes s) (formationTimer s)
    (currentFormation s) (scoreRef s).

Definition set_meteors (v : list Meteor.t) (s : State) : State :=
  mkState (status s) (score s) (level s) (rockets s) (missiles s)
    (explosions s) (cities s) (towers s) v (planes s) (formationTimer s)
    (currentFormation s) (scoreRef s).

Definition set_planes (v : list Plane.t) (s : State) : State :=
  mkState (status s) (score s) (level s) (rockets s) (missiles s)
    (explosions s) (cities s) (towers s) (meteors s) v (formationTimer s)
    (currentFormation s) (scoreRef s).

Definition set_formationTimer (v : Z) (s : State) : State :=
  mkState (status s) (score s) (level s) (rockets s) (missiles s)
    (explosions s) (cities s) (towers s) (meteors s) (planes s) v
    (currentFormation s) (scoreRef s).

Definition set_currentFormation (v : Z) (s : State) : State :=
  mkState (status s) (score s) (level s) (rockets s) (missiles s)
    (explosions s) (cities s) (towers s) (meteors s) (planes s)
    (formationTimer s) v (scoreRef s).

Definition set_scoreRef (v : Z) (s : State) : State :=
  mkState (status s) (score s) (level s) (rockets s) (missiles s)
    (explosions s) (cities s) (towers s) (meteors s) (planes s)
    (formationTimer s) (currentFormation s) v.

(** A call either returns or throws a [TypeError] (a property read on
    [undefined]); in both cases the mutations made so far stay. *)
Inductive outcome :=
| Done (s : State)
| TypeError (s : State).

Definition stateOf (o : outcome) : State :=
  match o with Done s | TypeError s => s end.

Definition andThen (o : outcome) (k : State -> outcome) : outcome :=
  match o with
  | Done s => k s
  | TypeError s => TypeError s
  end.

(** ** What one tick reads from outside: [Date.now()] and the values of
    the calls of [Math.random()], one field per call site (indexed by
    the loop index where the call sits in a loop).  An entity id is
    [Math.random().toString(36).substr(2, 9)]; its field holds the
    resulting string. *)

Record Draws := {
  now : Q;
  rocketBlastId : nat -> string;
  missileBlastId : nat -> string;
  meteorRoll : Q;
  meteorSize : Q;
  meteorSide : Q;
  meteorStartY : Q;
  meteorTargetY : Q;
  meteorSpeed : Q;
  meteorId : string;
  planeRoll : Q;
  planeFormation : Q;
  planeDirection : Q;
  planeAltitude : Q;
  planeSpeed : Q;
  planeId : nat -> string;
  rocketRoll : Q;
  rocketPlanePick : Q;
  rocketTargetPick : Q;
  rocketJitter : Q;
  rocketSpeed : Q;
  rocketId : string
}.

(** ** What a click reads from outside: the canvas behind [canvasRef]
    (if mounted), with its [width], [height] and bounding rectangle, the
    pointer event, and the id drawn for the missile. *)

Module DOMRect.
Record t := mk { left : Q; top : Q; width : Q; height : Q }.
End DOMRect.

Module Canvas.
Record t := mk { width : Q; height : Q; getBoundingClientRect : DOMRect.t }.
End Canvas.

Inductive PointerEvent :=
| MouseEvent (clientX clientY : Q)
| TouchEvent (touches : list (Q * Q)).

Record Click := {
  canvasRef : option Canvas.t;
  event : PointerEvent;
  missileId : string
}.

(** [arr[i]] for a computed index: [undefined] outside the array. *)
Definition item {A : Type} (l : list A) (i : Z) : option A :=
  if (i <? 0)%Z then None else nth_error l (Z.to_nat i).

(** A loop index as a number. *)
Definition ofNat (n : nat) : Q := inject_Z (Z.of_nat n).

Section Game.

Variable M : MathLib.

(** *** distToSegment *)

Definition distToSegment (p v w : Point.t) : Q :=
  let l2 := pow2 (Point.x v - Point.x w) + pow2 (Point.y v - Point.y w) in
  if Qeq_bool l2 0 then
    sqrt M (pow2 (Point.x p - Point.x v) + pow2 (Point.y p - Point.y v))
  else
    let t := ((Point.x p - Point.x v) * (Point.x w - Point.x v)
              + (Point.y p - Point.y v) * (Point.y w - Point.y v)) / l2 in
    let t := Qmax 0 (Qmin 1 t) in
    sqrt M (pow2 (Point.x p - (Point.x v + t * (Point.x w - Point.x v)))
            + pow2 (Point.y p - (Point.y v + t * (Point.y w - Point.y v)))).

(** *** initGame, startGame, nextLevel *)

Definition initGame (resetLevel preserveAmmo : bool) (s : State) : State :=
  let s := set_rockets [] s in
  let s := set_missiles [] s in
  let s := set_explosions [] s in
  let s := set_cities
    (map (fun p => City.mk (CityPosition.id p) (CityPosition.x p)
                     (CityPosition.y p) 40 20 2 2 false)
       CITY_POSITIONS) s in
  let currentTowers := towers s in
  let s := set_towers
    (map (fun p =>
        let existingTower :=
          find (fun t => (Tower.id t =? TowerPosition.id p)%Z) currentTowers in
        Tower.mk (TowerPosition.id p) (TowerPosition.x p) (TowerPosition.y p)
          (TowerPosition.x p) (TowerPosition.y p)
          (match existingTower with
           | Some t => if preserveAmmo then Tower.ammo t
                       else TowerPosition.maxAmmo p
           | None => TowerPosition.maxAmmo p
           end)
          (TowerPosition.maxAmmo p) 5 5 false)
       TOWER_POSITIONS) s in
  let s := set_meteors [] s in
  let s := set_planes [] s in
  let s := set_formationTimer 0 s in
  let s := set_currentFormation 0 s in
  let s := set_score 0 s in
  let s := set_scoreRef 0 s in
  if resetLevel then set_level 1 s else s.

Definition startGame (s : State) : State :=
  set_status PLAYING (initGame true false s).

Definition nextLevel (s : State) : State :=
  let s := set_level (level s + 1) s in
  let s := initGame false true s in
  set_status PLAYING s.

(** *** handleCanvasClick *)

(** The loop over the towers that keeps [bestTower] and [minDist]:
    [best] is [None] while [bestTower] is [null] and [minDist] is
    [Infinity], and otherwise holds the index of [bestTower] in the
    array, the tower and [minDist]. *)
Definition canFire (tower : Tower.t) : bool :=
  negb (Tower.destroyed tower) && (0 <? Tower.ammo tower)%Z.

Fixpoint closestTower (x : Q) (i : nat) (ts : list Tower.t)
    (best : option (nat * Tower.t * Q)) : option (nat * Tower.t * Q) :=
  match ts with
  | [] => best
  | tower :: rest =>
      let best :=
        if canFire tower then
          let dist := Qabs (Tower.x tower - x) in
          match best with
          | None => Some (i, tower, dist)
          | Some (_, _, minDist) =>
              if Qltb dist minDist then Some (i, tower, dist) else best
          end
        else best in
      closestTower x (S i) rest best
  end.

(** The part of [handleCanvasClick] that follows the computation of the
    world point [(x, y)]. *)
Definition fire (x y : Q) (id : string) (s : State) : State :=
  match closestTower x 0 (towers s) None with
  | Some (i, bestTower, _) =>
      let tower := Tower.set_ammo (Tower.ammo bestTower - 1) bestTower in
      let s := set_towers (writeAt i tower (towers s)) s in
      let angle :=
        atan2 M (y - Tower.y tower) (x - Tower.x tower) in
      let s := set_missiles
        (missiles s ++
         [Missile.mk id
            (Point.mk (Tower.x tower) (Tower.y tower))
            (Point.mk (Tower.x tower) (Tower.y tower))
            (Point.mk x y) MISSILE_SPEED angle (Tower.id tower)]) s in
      set_score (scoreRef s) s
  | None => s
  end.

(** [clientX] and [clientY] of the event: of its first touch if it has
    [touches]; [None] if [e.touches[0]] is [undefined]. *)
Definition clientPoint (e : PointerEvent) : option (Q * Q) :=
  match e with
  | TouchEvent touches => nth_error touches 0
  | MouseEvent clientX clientY => Some (clientX, clientY)
  end.

Definition toWorld (canvas : Canvas.t) (client : Q * Q) : Q * Q :=
  let rect := Canvas.getBoundingClientRect canvas in
  let scaleX := Canvas.width canvas / DOMRect.width rect in
  let scaleY := Canvas.height canvas / DOMRect.height rect in
  let x := (fst client - DOMRect.left rect) * scaleX in
  let y := (snd client - DOMRect.top rect) * scaleY in
  (x, y).

(** A canvas that is laid out has a bounding rectangle of non-zero width
    and height.  (For a zero one the scale of [toWorld] is not a finite
    number in the source, which [Q] does not represent; the properties
    that depend on the world point assume [laidOut].) *)
Definition laidOut (canvas : Canvas.t) : Prop :=
  ~ DOMRect.width (Canvas.getBoundingClientRect canvas) == 0
  /\ ~ DOMRect.height (Canvas.getBoundingClientRect canvas) == 0.

Definition handleCanvasClick (e : Click) (s : State) : outcome :=
  if negb (GameStatus_eqb (status s) PLAYING) then Done s else
  match canvasRef e with
  | None => Done s
  | Some canvas =>
      match clientPoint (event e) with
      | None => TypeError s
      | Some client =>
          let '(x, y) := toWorld canvas client in
          Done (fire x y (missileId e) s)
      end
  end.

(** *** update: rockets *)

Definition newExplosion (id : string) (x y : Q) : Explosion.t :=
  Explosion.mk id x y 0 EXPLOSION_MAX_RADIUS true.

Definition moveRocket (rocket : Rocket.t) : Rocket.t :=
  let c := Rocket.current rocket in
  Rocket.set_current
    (Point.mk
       (Point.x c + cos M (Rocket.angle rocket) * Rocket.speed rocket)
       (Point.y c + sin M (Rocket.angle rocket) * Rocket.speed rocket))
    rocket.

Definition hitCity (p : Point.t) (city : City.t) : City.t :=
  if negb (City.destroyed city)
     && Qltb (Qabs (City.x city - Point.x p)) 30
     && Qltb (Qabs (City.y city - Point.y p)) 20
  then
    let city := City.set_health (City.health city - 1) city in
    if (City.health city <=? 0)%Z then City.set_destroyed true city
    else city
  else city.

Definition hitTower (p : Point.t) (tower : Tower.t) : Tower.t :=
  if negb (Tower.destroyed tower)
     && Qltb (Qabs (Tower.x tower - Point.x p)) 30
     && Qltb (Qabs (Tower.y tower - Point.y p)) 20
  then
    let tower := Tower.set_health (Tower.health tower - 1) tower in
    if (Tower.health tower <=? 0)%Z then Tower.set_destroyed true tower
    else tower
  else tower.

Definition rocketBody (d : Draws) (rocket : Rocket.t) (index : nat)
    (s : State) : State :=
  let rocket := moveRocket rocket in
  let s := set_rockets (writeAt index rocket (rockets s)) s in
  let c := Rocket.current rocket in
  if Qle_bool (Point.y (Rocket.target rocket)) (Point.y c) then
    let s := set_explosions
      (explosions s
       ++ [newExplosion (rocketBlastId d index) (Point.x c) (Point.y c)]) s in
    let s := set_cities (map (hitCity c) (cities s)) s in
    let s := set_towers (map (hitTower c) (towers s)) s in
    set_rockets (splice1 index (rockets s)) s
  else s.

Definition updateRockets (d : Draws) (s : State) : State :=
  forEach rockets (rocketBody d) s.

(** *** update: missiles *)

Definition addScore (points : Z) (s : State) : State :=
  let s := set_scoreRef (scoreRef s + points) s in
  set_score (scoreRef s) s.

Definition moveMissile (missile : Missile.t) : Missile.t :=
  let c := Missile.current missile in
  Missile.set_current
    (Point.mk
       (Point.x c + cos M (Missile.angle missile) * Missile.speed missile)
       (Point.y c + sin M (Missile.angle missile) * Missile.speed missile))
    missile.

Definition laserRocket (missile : Missile.t) (rocket : Rocket.t)
    (rIndex : nat) (s : State) : State :=
  let dist := distToSegment (Rocket.current rocket)
                (Missile.start missile) (Missile.current missile) in
  if Qltb dist 8 then
    let s := set_rockets (splice1 rIndex (rockets s)) s in
    addScore SCORE_PER_ROCKET s
  else s.

(** Damage to a plane that is in reach, by [amount] per tick. *)
Definition damagePlane (amount : Q) (plane : Plane.t) (pIndex : nat)
    (s : State) : State :=
  let plane := Plane.set_health (Plane.health plane - amount) plane in
  if Qle_bool (Plane.health plane) 0 then
    let plane := Plane.set_destroyed true plane in
    let s := set_planes (writeAt pIndex plane (planes s)) s in
    addScore 10 s
  else set_planes (writeAt pIndex plane (planes s)) s.

Definition laserPlane (missile : Missile.t) (plane : Plane.t)
    (pIndex : nat) (s : State) : State :=
  if negb (Plane.destroyed plane) then
    let dist := distToSegment (Point.mk (Plane.x plane) (Plane.y plane))
                  (Missile.start missile) (Missile.current missile) in
    if Qltb dist 12 then damagePlane 0.03 plane pIndex s else s
  else s.

Definition missileBody (d : Draws) (missile : Missile.t) (index : nat)
    (s : State) : State :=
  let missile := moveMissile missile in
  let s := set_missiles (writeAt index missile (missiles s)) s in
  let s := forEach rockets (laserRocket missile) s in
  let s := forEach planes (laserPlane missile) s in
  let t := Missile.target missile in
  let c := Missile.current missile in
  let distToTarget :=
    sqrt M (pow2 (Point.x t - Point.x c) + pow2 (Point.y t - Point.y c)) in
  if Qltb distToTarget (Missile.speed missile) then
    let s := set_explosions
      (explosions s
       ++ [newExplosion (missileBlastId d index) (Point.x t) (Point.y t)]) s in
    set_missiles (splice1 index (missiles s)) s
  else s.

Definition updateMissiles (d : Draws) (s : State) : State :=
  forEach missiles (missileBody d) s.

(** *** update: explosions *)

Definition blastRocket (exp : Explosion.t) (rocket : Rocket.t)
    (rIndex : nat) (s : State) : State :=
  let c := Rocket.current rocket in
  let dist := sqrt M (pow2 (Point.x c - Explosion.x exp)
                      + pow2 (Point.y c - Explosion.y exp)) in
  if Qltb dist (Explosion.radius exp) then
    let s := set_rockets (splice1 rIndex (rockets s)) s in
    addScore SCORE_PER_ROCKET s
  else s.

Definition blastPlane (exp : Explosion.t) (plane : Plane.t)
    (pIndex : nat) (s : State) : State :=
  if negb (Plane.destroyed plane) then
    let dist := sqrt M (pow2 (Plane.x plane - Explosion.x exp)
                        + pow2 (Plane.y plane - Explosion.y exp)) in
    if Qltb dist (Explosion.radius exp) then damagePlane 0.05 plane pIndex s
    else s
  else s.

(** The first statement of the callback: the explosion as mutated, and
    the array after the write or the splice. *)
Definition pulse (exp : Explosion.t) (index : nat)
    (exps : list Explosion.t) : Explosion.t * list Explosion.t :=
  if Explosion.growing exp then
    let exp :=
      Explosion.set_radius (Explosion.radius exp + EXPLOSION_SPEED) exp in
    let exp :=
      if Qle_bool (Explosion.maxRadius exp) (Explosion.radius exp)
      then Explosion.set_growing false exp else exp in
    (exp, writeAt index exp exps)
  else
    let exp :=
      Explosion.set_radius (Explosion.radius exp - EXPLOSION_SPEED) exp in
    let exps := writeAt index exp exps in
    if Qle_bool (Explosion.radius exp) 0 then (exp, splice1 index exps)
    else (exp, exps).

Definition explosionBody (exp : Explosion.t) (index : nat)
    (s : State) : State :=
  let '(exp, exps) := pulse exp index (explosions s) in
  let s := set_explosions exps s in
  let s := forEach rockets (blastRocket exp) s in
  forEach planes (blastPlane exp) s.

Definition updateExplosions (s : State) : State :=
  forEach explosions explosionBody s.

(** *** update: win, loss, level up *)

Definition checkProgress (s : State) : State :=
  let levelTarget := (level s * 500)%Z in
  let s :=
    if (levelTarget <=? scoreRef s)%Z then
      if (10 <=? level s)%Z then set_status WON s
      else set_status LEVEL_UP s
    else s in
  if forallb Tower.destroyed (towers s) then set_status LOST s else s.

(** *** updatePlayerFormation *)

Definition formationTarget (formation : Z) (i : nat)
    (basePos : TowerPosition.t) : Q * Q :=
  let tx := TowerPosition.x basePos in
  let ty := TowerPosition.y basePos - 20 in
  let ty :=
    if (formation =? 1)%Z then
      let mid := inject_Z (Qfloor (ofNat (List.length TOWER_POSITIONS) / 2)) in
      let dist := Qabs (ofNat i - mid) in
      TowerPosition.y basePos - 30 - dist * 40
    else if (formation =? 2)%Z then
      let mid := (ofNat (List.length TOWER_POSITIONS) - 1) / 2 in
      let offset := pow2 (ofNat i - mid) * 8 in
      TowerPosition.y basePos - 80 + offset
    else ty in
  (tx, ty).

Definition stepTower (formation : Z) (i : nat) (basePos : TowerPosition.t)
    (tower : Tower.t) : Tower.t :=
  let '(tx, ty) := formationTarget formation i basePos in
  let tower := Tower.set_targetX tx tower in
  let tower := Tower.set_targetY ty tower in
  let tower :=
    Tower.set_x
      (Tower.x tower + (Tower.targetX tower - Tower.x tower) * 0.03) tower in
  Tower.set_y
    (Tower.y tower + (Tower.targetY tower - Tower.y tower) * 0.03) tower.

(** The loop over the towers.  [TOWER_POSITIONS[i]] is [undefined] past
    the table, and reading [basePos.x] then throws: the loop stops with
    the towers before [i] moved; the [bool] is [false] in that case. *)
Fixpoint formationLoop (formation : Z) (i : nat) (ts : list Tower.t)
    : list Tower.t * bool :=
  match ts with
  | [] => ([], true)
  | tower :: rest =>
      if Tower.destroyed tower then
        let '(rest, ok) := formationLoop formation (S i) rest in
        (tower :: rest, ok)
      else
        match nth_error TOWER_POSITIONS i with
        | None => (tower :: rest, false)
        | Some basePos =>
            let tower := stepTower formation i basePos tower in
            let '(rest, ok) := formationLoop formation (S i) rest in
            (tower :: rest, ok)
        end
  end.

Definition updatePlayerFormation (s : State) : outcome :=
  let s := set_formationTimer (formationTimer s + 1) s in
  let s :=
    if (400 <? formationTimer s)%Z then
      let s := set_formationTimer 0 s in
      set_currentFormation (Z.rem (currentFormation s + 1) 3) s
    else s in
  let formation := currentFormation s in
  let '(ts, ok) := formationLoop formation 0 (towers s) in
  let s := set_towers ts s in
  if ok then Done s else TypeError s.

(** *** update: background meteors *)

Definition spawnMeteor (d : Draws) (s : State) : State :=
  if Qltb (meteorRoll d) 0.005 then
    let size := 20 + meteorSize d * 40 in
    let startX :=
      if Qltb (meteorSide d) 0.5 then - size else GAME_WIDTH + size in
    let startY := meteorStartY d * (GAME_HEIGHT / 2) in
    let targetX := if Qltb startX 0 then GAME_WIDTH + size else - size in
    let targetY := startY + (meteorTargetY d * 200 - 100) in
    let angle := atan2 M (targetY - startY) (targetX - startX) in
    let speed := 0.5 + meteorSpeed d * 1.5 in
    set_meteors
      (meteors s ++
       [Meteor.mk (meteorId d) startX startY size
          (cos M angle * speed) (sin M angle * speed) angle]) s
  else s.

Definition meteorBody (m : Meteor.t) (index : nat) (s : State) : State :=
  let m := Meteor.set_x (Meteor.x m + Meteor.speedX m) m in
  let m := Meteor.set_y (Meteor.y m + Meteor.speedY m) m in
  let s := set_meteors (writeAt index m (meteors s)) s in
  if Qltb (Meteor.x m) (-200) || Qltb (GAME_WIDTH + 200) (Meteor.x m)
     || Qltb (Meteor.y m) (-200) || Qltb (GAME_HEIGHT + 200) (Meteor.y m)
  then set_meteors (splice1 index (meteors s)) s
  else s.

(** *** update: planes *)

Definition planeBody (p : Plane.t) (index : nat) (s : State) : State :=
  if negb (Plane.destroyed p) then
    let p := Plane.set_x (Plane.x p + Plane.direction p * Plane.speed p) p in
    let p :=
      Plane.set_y (Plane.targetY p + sin M (Plane.x p * 0.02) * 20) p in
    let s := set_planes (writeAt index p (planes s)) s in
    if Qltb (Plane.x p) (-100) || Qltb (GAME_WIDTH + 100) (Plane.x p)
    then set_planes (splice1 index (planes s)) s
    else s
  else
    let p := Plane.set_y (Plane.y p + 3) p in
    let p := Plane.set_x (Plane.x p + Plane.direction p * 0.5) p in
    let s := set_planes (writeAt index p (planes s)) s in
    if Qltb GAME_HEIGHT (Plane.y p)
    then set_planes (splice1 index (planes s)) s
    else s.

(** *** spawnPlanes *)

Definition active (p : Plane.t) : bool := negb (Plane.destroyed p).

Definition spawnPlanes (d : Draws) (s : State) : State :=
  let maxPlanes := (5 + Qfloor (inject_Z (level s) / 2))%Z in
  if (maxPlanes <=? Z.of_nat (List.length (filter active (planes s))))%Z
  then s else
  let levelSpawnRate := 0.02 * (1 + (inject_Z (level s) - 1) * 0.1) in
  if Qltb levelSpawnRate (planeRoll d) then s else
  let formationType := Qfloor (planeFormation d * 3) in
  let direction : Q := if Qltb (planeDirection d) 0.5 then 1 else -1 in
  let startX := if Qeq_bool direction 1 then -50 else GAME_WIDTH + 50 in
  let baseTargetY := 50 + planeAltitude d * 150 in
  let speed :=
    (1 + planeSpeed d * 1.5) * (1 + (inject_Z (level s) - 1) * 0.1) in
  let planeHealth := 7 + (inject_Z (level s) - 1) in
  let plane (i : nat) (x y : Q) :=
    Plane.mk (planeId d i) x y y planeHealth planeHealth speed direction
      false 0 in
  if (formationType =? 0)%Z then
    set_planes (planes s ++ [plane O startX baseTargetY]) s
  else if (formationType =? 1)%Z then
    set_planes
      (planes s ++
       map (fun i =>
              let offset : Q :=
                match i with O => 0 | S O => -40 | _ => 40 end in
              let xOffset : Q :=
                match i with O => 0 | _ => - direction * 40 end in
              plane i (startX + xOffset) (baseTargetY + offset))
         (seq 0 3)) s
  else
    set_planes
      (planes s ++
       map (fun i =>
              let xOffset := - direction * ofNat i * 60 in
              plane i (startX + xOffset) baseTargetY)
         (seq 0 3)) s.

(** *** spawnRocket *)

(** An array paired with the positions of its elements: a filtered copy
    holds the objects of the store, and the position says which one. *)
Definition indexed {A : Type} (l : list A) : list (nat * A) :=
  combine (seq 0 (List.length l)) l.

Definition spawnRocket (d : Draws) (s : State) : outcome :=
  let levelSpawnRate := SPAWN_RATE * (1 + (inject_Z (level s) - 1) * 0.2) in
  if Qltb levelSpawnRate (rocketRoll d) then Done s else
  let activePlanes :=
    filter (fun ip => active (snd ip)) (indexed (planes s)) in
  if Nat.eqb (List.length activePlanes) 0 then Done s else
  match item activePlanes
          (Qfloor (rocketPlanePick d * ofNat (List.length activePlanes))) with
  | None => TypeError s
  | Some (pIndex, plane) =>
      let fireCooldown :=
        Qmax 300 (1000 - (inject_Z (level s) - 1) * 100) in
      if Qltb (now d - Plane.lastFired plane) fireCooldown then Done s else
      let plane := Plane.set_lastFired (now d) plane in
      let s := set_planes (writeAt pIndex plane (planes s)) s in
      let targets :=
        map (fun c => Point.mk (City.x c) (City.y c))
          (filter (fun c => negb (City.destroyed c)) (cities s))
        ++ map (fun t => Point.mk (Tower.x t) (Tower.y t))
             (filter (fun t => negb (Tower.destroyed t)) (towers s)) in
      if Nat.eqb (List.length targets) 0 then Done s else
      match item targets
              (Qfloor (rocketTargetPick d * ofNat (List.length targets))) with
      | None => TypeError s
      | Some target =>
          let targetX := Point.x target + (rocketJitter d * 20 - 10) in
          let targetY := Point.y target in
          let angle :=
            atan2 M (targetY - Plane.y plane) (targetX - Plane.x plane) in
          let speedMultiplier := 1 + (inject_Z (level s) - 1) * 0.15 in
          let speed :=
            (ROCKET_SPEED_MIN
             + rocketSpeed d * (ROCKET_SPEED_MAX - ROCKET_SPEED_MIN))
            * speedMultiplier in
          Done (set_rockets
                  (rockets s ++
                   [Rocket.mk (rocketId d)
                      (Point.mk (Plane.x plane) (Plane.y plane))
                      (Point.mk (Plane.x plane) (Plane.y plane))
                      (Point.mk targetX targetY) speed angle]) s)
      end
  end.

(** *** update, and the frame callback gameLoop *)

(** The statements of [update] that follow the call of
    [updatePlayerFormation]. *)
Definition updateSky (d : Draws) (s : State) : outcome :=
  let s := spawnMeteor d s in
  let s := forEach meteors meteorBody s in
  let s := forEach planes planeBody s in
  let s := spawnPlanes d s in
  spawnRocket d s.

Definition update (d : Draws) (s : State) : outcome :=
  let s := updateRockets d s in
  let s := updateMissiles d s in
  let s := updateExplosions s in
  let s := checkProgress s in
  andThen (updatePlayerFormation s) (updateSky d).

Definition gameLoop (d : Draws) (s : State) : outcome :=
  if GameStatus_eqb (status s) PLAYING then update d s else Done s.

End Game.

(** ** Inputs of the worked examples

    A numeric stand-in for the platform's [Math] (rational
    approximations kept to nine decimal digits, meant for angles
    between -PI and PI), and the draws of a tick in which nothing
    spawns. *)

(** Nine decimal digits of a number. *)
Definition trim (a : Q) : Q := Qfloor (a * 1000000000) # 1000000000.

Definition approxSin (a : Q) : Q :=
  let a := trim a in
  trim (a - a^3 / 6 + a^5 / 120 - a^7 / 5040 + a^9 / 362880
        - a^11 / 39916800).

Definition approxCos (a : Q) : Q :=
  let a := trim a in
  trim (1 - a^2 / 2 + a^4 / 24 - a^6 / 720 + a^8 / 40320
        - a^10 / 3628800 + a^12 / 479001600).

Definition approxPI : Q := 3.141592654.

Definition approxAtan (t : Q) : Q :=
  let t := trim t in
  trim (if Qle_bool (Qabs t) 1 then t / (1 + 0.28125 * t^2)
        else if Qle_bool 0 t then approxPI / 2 - t / (t^2 + 0.28125)
        else - (approxPI / 2) - t / (t^2 + 0.28125)).

Definition approxAtan2 (y x : Q) : Q :=
  if Qeq_bool x 0 then
    if Qltb 0 y then approxPI / 2
    else if Qltb y 0 then - (approxPI / 2)
    else 0
  else if Qltb 0 x then approxAtan (y / x)
  else if Qle_bool 0 y then approxAtan (y / x) + approxPI
  else approxAtan (y / x) - approxPI.

Definition approxSqrt (a : Q) : Q :=
  Z.sqrt (Qfloor (a * 1000000000000)) # 1000000.

Definition approxMath : MathLib := {|
  cos := approxCos;
  sin := approxSin;
  atan2 := approxAtan2;
  sqrt := approxSqrt;
  PI := approxPI
|}.

Definition quietDraws : Draws := {|
  now := 0;
  rocketBlastId := fun _ => "blast"%string;
  missileBlastId := fun _ => "burst"%string;
  meteorRoll := 0.99;
  meteorSize := 0.5;
  meteorSide := 0.5;
  meteorStartY := 0.5;
  meteorTargetY := 0.5;
  meteorSpeed := 0.5;
  meteorId := "meteor"%string;
  planeRoll := 0.99;
  planeFormation := 0.5;
  planeDirection := 0.5;
  planeAltitude := 0.5;
  planeSpeed := 0.5;
  planeId := fun _ => "plane"%string;
  rocketRoll := 0.99;
  rocketPlanePick := 0.5;
  rocketTargetPick := 0.5;
  rocketJitter := 0.5;
  rocketSpeed := 0.5;
  rocketId := "rocket"%string
|}.

(** The state of a freshly mounted component. *)
Definition mounted : State :=
  mkState START 0 1 [] [] [] [] [] [] [] 0 0 0.

(** A mounted 800 x 600 canvas at the page origin, and a mouse press. *)
Definition stage : Canvas.t :=
  Canvas.mk GAME_WIDTH GAME_HEIGHT (DOMRect.mk 0 0 800 600).

Definition press (x y : Q) : Click :=
  {| canvasRef := Some stage; event := MouseEvent x y;
     missileId := "shot"%string |}.

(** A game in progress whose only standing tower is the leftmost one. *)
Definition lastStand : State :=
  let s := startGame mounted in
  set_towers
    (map (fun t => if (Tower.id t =? 0)%Z then t
                   else Tower.set_destroyed true t) (towers s)) s.

(** ** Views of the state used to state what a step leaves alone *)

(** The ammo of the towers, in store order. *)
Definition ammos (s : State) : list Z := map Tower.ammo (towers s).

(** The destroyed flags of the towers, in store order. *)
Definition wrecks (s : State) : list bool := map Tower.destroyed (towers s).

(** Everything but the rockets, the planes and the meteors. *)
Definition ground (s : State) :=
  (status s, score s, level s, missiles s, explosions s, cities s,
   towers s, formationTimer s, currentFormation s, scoreRef s).

(** What the win/loss/level-up check reads and writes. *)
Definition verdict (s : State) := (status s, scoreRef s, level s, wrecks s).

(** What the inner loops over rockets and planes leave alone. *)
Definition still (s : State) :=
  (status s, level s, missiles s, explosions s, cities s, towers s,
   meteors s, formationTimer s, currentFormation s).

(** What the missile and explosion passes leave alone. *)
Definition base (s : State) :=
  (status s, level s, cities s, towers s, meteors s, formationTimer s,
   currentFormation s).

(** ** Sample states *)

Definition upward : Q := - (approxPI / 2).
Definition downward : Q := approxPI / 2.

(** A missile climbing from (400, 560) and a rocket two units beside its
    path. *)
Definition beam : Missile.t :=
  Missile.mk "shot" (Point.mk 400 560) (Point.mk 400 400) (Point.mk 400 100)
    MISSILE_SPEED upward 2.

Definition straggler : Rocket.t :=
  Rocket.mk "r1" (Point.mk 402 100) (Point.mk 402 450) (Point.mk 402 570)
    1 downward.

(** Level 1 in progress, one kill short of the target score of 500. *)
Definition closeCall : State :=
  let s := startGame mounted in
  set_scoreRef 480 (set_score 480
    (set_missiles [beam] (set_rockets [straggler] s))).

(** A rocket half a unit above the middle tower, its target. *)
Definition bomb : Rocket.t :=
  Rocket.mk "r0" (Point.mk 400 100) (Point.mk 400 559.5) (Point.mk 400 560)
    1 downward.

(** As [closeCall], but the middle tower is the last one standing, with
    one health left, and [bomb] is about to land on it. *)
Definition lostAtThreshold : State :=
  set_rockets [bomb; straggler]
    (set_towers
       (map (fun t => if (Tower.id t =? 2)%Z then Tower.set_health 1 t
                      else Tower.set_destroyed true (Tower.set_health 0 t))
          (towers closeCall)) closeCall).

(** ** Play within a level: frames and clicks, in any order *)

Inductive Command :=
| Tick (d : Draws)
| Fire (e : Click).

Definition step (M : MathLib) (s : State) (c : Command) : State :=
  match c with
  | Tick d => stateOf (gameLoop M d s)
  | Fire e => stateOf (handleCanvasClick M e s)
  end.

Definition run (M : MathLib) (cs : list Command) (s : State) : State :=
  fold_left (step M) cs s.

(** The clicks of a trace land on a laid-out canvas. *)
Definition onStage (c : Command) : Prop :=
  match c with
  | Tick _ => True
  | Fire e => forall canvas, canvasRef e = Some canvas -> laidOut canvas
  end.

(** Frames that do run: [update] once per element of [ds]. *)
Definition frames (M : MathLib) (ds : list Draws) (s : State) : State :=
  fold_left (fun s d => stateOf (update M d s)) ds s.

(** The first statements of [updatePlayerFormation], on the timer and
    the formation index alone. *)
Definition formationClock (tf : Z * Z) : Z * Z :=
  let '(timer, formation) := tf in
  let timer := (timer + 1)%Z in
  if (400 <? timer)%Z then (0%Z, Z.rem (formation + 1) 3) else (timer, formation).

(** The explosion pass seen on the store alone (what it does when there
    is no rocket and no plane to hit). *)
Definition pulseStore (exps : list Explosion.t) : list Explosion.t :=
  forEach (fun l => l) (fun exp index l => snd (pulse exp index l)) exps.

(** Two rockets beside the path of one missile. *)
Definition straggler2 : Rocket.t :=
  Rocket.mk "r2" (Point.mk 398 100) (Point.mk 398 430) (Point.mk 398 570)
    1 downward.

Definition twoOnBeam : State :=
  set_missiles [beam] (set_rockets [straggler; straggler2] (startGame mounted)).

(** An explosion in its last frame followed by one just created. *)
Definition fading : Explosion.t :=
  Explosion.mk "old" 100 100 1.5 EXPLOSION_MAX_RADIUS false.

Definition fresh : Explosion.t := newExplosion "new" 300 300.

Definition twoBlasts : State :=
  set_explosions [fading; fresh] (startGame mounted).

Definition oneBlast : State :=
  set_explosions [fresh] (startGame mounted).

(** A quiet moment of level 1: nothing in the air, the score below the
    target, a tower standing. *)
Definition calm (s : State) : Prop :=
  status s = PLAYING /\ level s = 1%Z /\ (scoreRef s < 500)%Z
  /\ rockets s = [] /\ missiles s = [] /\ planes s = []
  /\ forallb Tower.destroyed (towers s) = false.

(** [n] frames in a row in which nothing spawns. *)
Definition quietFrames (M : MathLib) (n : nat) (s : State) : State :=
  run M (repeat (Tick quietDraws) n) s.

(** The radius and phase expected of an undisturbed explosion [n]
    frames after its creation, checked against the store. *)
Definition onSchedule (n : nat) : bool :=
  match Nat.iter n pulseStore [fresh] with
  | [exp] =>
      if (n <? 47)%nat then
        Qeq_bool (Explosion.radius exp) (1.5 * ofNat n)
        && Explosion.growing exp
      else
        Qeq_bool (Explosion.radius exp) (70.5 - 1.5 * (ofNat n - 47))
        && negb (Explosion.growing exp)
  | _ => false
  end.

(** A rocket that has not yet come down to its target's height. *)
Definition aloft (rocket : Rocket.t) : Prop :=
  Point.y (Rocket.current rocket) < Point.y (Rocket.target rocket).

(** [evaluate t] computes the closed term [t] once and rewrites the goal
    with the result. *)
Ltac evaluate t :=
  let v := eval vm_compute in t in
  let E := fresh "E" in
  assert (E : t = v) by (vm_compute; reflexivity);
  rewrite !E.

(** Case analysis on every test of a goal. *)
Ltac split_ifs :=
  repeat match goal with
  | |- context [if ?c then _ else _] => destruct c
  end.

(** ** The contract of [Math.random]: a number in [0, 1) *)

Definition unit (r : Q) : Prop := 0 <= r /\ r < 1.

(** The draws of [spawnRocket] that index an array or offset the aim. *)
Definition fairPicks (d : Draws) : Prop :=
  unit (rocketPlanePick d) /\ unit (rocketTargetPick d)
  /\ unit (rocketJitter d) /\ unit (rocketSpeed d).

(** The cooldown of a plane at the level of [s]. *)
Definition fireCooldown (s : State) : Q :=
  Qmax 300 (1000 - (inject_Z (level s) - 1) * 100).

(** The non-destroyed cities and towers, as aim points. *)
Definition standing (s : State) : list Point.t :=
  map (fun c => Point.mk (City.x c) (City.y c))
    (filter (fun c => negb (City.destroyed c)) (cities s))
  ++ map (fun t => Point.mk (Tower.x t) (Tower.y t))
       (filter (fun t => negb (Tower.destroyed t)) (towers s)).

(** ** More sample inputs *)

(** Draws with which [spawnRocket] goes as far as it can: the roll
    passes, and the clock is late enough for any cooldown. *)
Definition eagerDraws : Draws := {|
  now := 5000;
  rocketBlastId := fun _ => "blast"%string;
  missileBlastId := fun _ => "burst"%string;
  meteorRoll := 0.99;
  meteorSize := 0.5;
  meteorSide := 0.5;
  meteorStartY := 0.5;
  meteorTargetY := 0.5;
  meteorSpeed := 0.5;
  meteorId := "meteor"%string;
  planeRoll := 0;
  planeFormation := 0.5;
  planeDirection := 0.25;
  planeAltitude := 0.5;
  planeSpeed := 0.5;
  planeId := fun _ => "plane"%string;
  rocketRoll := 0;
  rocketPlanePick := 0.5;
  rocketTargetPick := 0.5;
  rocketJitter := 0.75;
  rocketSpeed := 0.5
  ; rocketId := "rocket"%string
|}.

Definition bomber : Plane.t :=
  Plane.mk "p" 300 120 120 7 7 2 1 false 0.

(** A game in progress with one plane overhead. *)
Definition underAttack : State := set_planes [bomber] (startGame mounted).

(** ** Wear: how a city or a tower may differ from what it was *)

(** Same city, no healthier, and untouched if it was already
    destroyed. *)
Definition cityWear (old new : City.t) : Prop :=
  City.id new = City.id old /\ City.x new = City.x old
  /\ City.y new = City.y old /\ City.width new = City.width old
  /\ City.height new = City.height old
  /\ City.maxHealth new = City.maxHealth old
  /\ (City.health new <= City.health old)%Z
  /\ (City.destroyed old = true -> new = old).

(** Same tower, no healthier, and untouched (position and ammo
    included) if it was already destroyed. *)
Definition towerWear (old new : Tower.t) : Prop :=
  Tower.id new = Tower.id old /\ Tower.maxAmmo new = Tower.maxAmmo old
  /\ Tower.maxHealth new = Tower.maxHealth old
  /\ (Tower.health new <= Tower.health old)%Z
  /\ (Tower.destroyed old = true -> new = old).

(** The destroyed flag says that the health is used up. *)
Definition citySound (c : City.t) : Prop :=
  City.destroyed c = (City.health c <=? 0)%Z.

Definition towerSound (t : Tower.t) : Prop :=
  Tower.destroyed t = (Tower.health t <=? 0)%Z.

(** ** The score ledger: how the score of [s'] may differ from [s0]'s *)

(** The score ref has grown by a non-negative multiple of 10, and the
    displayed score equals the ref if it did in [s0]. *)
Definition scored (s0 s' : State) : Prop :=
  (exists k, (0 <= k)%Z /\ scoreRef s' = (scoreRef s0 + 10 * k)%Z)
  /\ (score s0 = scoreRef s0 -> score s' = scoreRef s').

(** ** Explosions in the store *)

(** An explosion as [update] makes and keeps them: of the configured
    maximal radius; below it while growing; above 0, and less than one
    step above the maximal radius, while shrinking. *)
Definition blastOk (e : Explosion.t) : Prop :=
  Explosion.maxRadius e = EXPLOSION_MAX_RADIUS
  /\ if Explosion.growing e
     then 0 <= Explosion.radius e /\ Explosion.radius e < EXPLOSION_MAX_RADIUS
     else 0 < Explosion.radius e
          /\ Explosion.radius e < EXPLOSION_MAX_RADIUS + EXPLOSION_SPEED.

(** The ammo left in all towers together. *)
Definition totalAmmo (s : State) : Z := fold_right Z.add 0%Z (ammos s).

(** Missiles in flight plus ammo left. *)
Definition arsenal (s : State) : Z :=
  (Z.of_nat (List.length (missiles s)) + totalAmmo s)%Z.

(** A tower in the lane of a slot of [TOWER_POSITIONS]: at the slot's
    [x], between heights 450 and 560. *)
Definition inLane (t : Tower.t) (p : TowerPosition.t) : Prop :=
  Tower.x t == TowerPosition.x p /\ 450 <= Tower.y t /\ Tower.y t <= 560.

(** ** Planes *)

(** The cap on active planes at the level of [s]. *)
Definition maxPlanes (s : State) : Z :=
  (5 + Qfloor (inject_Z (level s) / 2))%Z.

Definition activeCount (s : State) : Z :=
  Z.of_nat (List.length (filter active (planes s))).

(** A plane as [spawnPlanes] makes them at the level of [s]. *)
Definition freshPlane (s : State) (p : Plane.t) : Prop :=
  Plane.health p = 7 + (inject_Z (level s) - 1)
  /\ Plane.maxHealth p = Plane.health p
  /\ Plane.destroyed p = false
  /\ Plane.lastFired p = 0
  /\ Plane.y p = Plane.targetY p
  /\ (Plane.direction p = 1 \/ Plane.direction p = -1).

(** The position of a plane after its move in the planes pass. *)
Definition nextX (p : Plane.t) : Q :=
  Plane.x p + Plane.direction p * Plane.speed p.

(** Draws with which [spawnPlanes] sends a line of three from the
    left. *)
Definition lineDraws : Draws := {|
  now := 0;
  rocketBlastId := fun _ => "blast"%string;
  missileBlastId := fun _ => "burst"%string;
  meteorRoll := 0.99;
  meteorSize := 0.5;
  meteorSide := 0.5;
  meteorStartY := 0.5;
  meteorTargetY := 0.5;
  meteorSpeed := 0.5;
  meteorId := "meteor"%string;
  planeRoll := 0;
  planeFormation := 0.9;
  planeDirection := 0.25;
  planeAltitude := 0.5;
  planeSpeed := 0.5;
  planeId := fun _ => "plane"%string;
  rocketRoll := 0.99;
  rocketPlanePick := 0.5;
  rocketTargetPick := 0.5;
  rocketJitter := 0.5;
  rocketSpeed := 0.5;
  rocketId := "rocket"%string
|}.

(** ** Meteors as scenery *)

(** The state with its meteor store emptied: all that is not scenery. *)
Definition withoutMeteors (s : State) : State := set_meteors [] s.

Definition mapOutcome (g : State -> State) (o : outcome) : outcome :=
  match o with
  | Done s => Done (g s)
  | TypeError s => TypeError (g s)
  end.

Definition returned (o : outcome) : bool :=
  match o with Done _ => true | TypeError _ => false end.

Definition shootingStar : Meteor.t := Meteor.mk "m" 900 100 30 (-1) 0.5 0.

(** Closes a goal [F (set_meteors ms s) = set_meteors ms (F s)] for an
    [F] made of tests and field updates. *)
Ltac blind :=
  intros;
  cbn [status score level rockets missiles explosions cities towers planes
       formationTimer currentFormation scoreRef set_meteors];
  split_ifs; reflexivity.

(** How a tower may differ after one frame: destroyed and where it was,
    or standing and 3% closer to the target it now has, whose height is
    between 450 and 540. *)
Definition glides (old new : Tower.t) : Prop :=
  if Tower.destroyed new
  then Tower.x new = Tower.x old /\ Tower.y new = Tower.y old
  else Tower.x new == Tower.x old + (Tower.targetX new - Tower.x old) * 0.03
       /\ Tower.y new == Tower.y old + (Tower.targetY new - Tower.y old) * 0.03
       /\ 450 <= Tower.targetY new /\ Tower.targetY new <= 540.

(** ** Play across levels: frames and clicks, the restart button
    ([startGame]) and the next-level button ([nextLevel]), in any
    order *)

Inductive Move :=
| Play (c : Command)
| Restart
| LevelUp.

Definition act (M : MathLib) (s : State) (m : Move) : State :=
  match m with
  | Play c => step M s c
  | Restart => startGame s
  | LevelUp => nextLevel s
  end.

Definition session (M : MathLib) (ms : list Move) (s : State) : State :=
  fold_left (act M) ms s.

(** ** The rocket pass, rocket by rocket *)

(** A rocket that has come down to its target's height, or below it. *)
Definition arrived (rocket : Rocket.t) : Prop :=
  Point.y (Rocket.target rocket) <= Point.y (Rocket.current rocket).









(** ** Where planes fly and rockets start *)

(** A plane's cruising height is at most 240, and while it is not
    destroyed it is at most 20 below it. *)
Definition cruising (p : Plane.t) : Prop :=
  Plane.targetY p <= 240
  /\ (Plane.destroyed p = false -> Plane.y p <= 260).

(** Every rocket is above its target and every plane cruises. *)
Definition clearSky (s : State) : Prop :=
  Forall aloft (rockets s) /\ Forall cruising (planes s).

(** Every rocket is above its target, every plane cruises, every tower
    is in its lane and every city is at height 450 or lower down. *)
Definition safe (s : State) : Prop :=
  Forall aloft (rockets s) /\ Forall cruising (planes s)
  /\ Forall2 inLane (towers s) TOWER_POSITIONS
  /\ Forall (fun c => 450 <= City.y c) (cities s).

(** The altitude draw of [spawnPlanes] is a [Math.random()]. *)
Definition fairMove (m : Move) : Prop :=
  match m with
  | Play (Tick d) => unit (planeAltitude d)
  | _ => True
  end.

(** * Properties *)

(** ** Arrays and loops *)

Lemma map_writeAt {A B : Type} (f : A -> B) (i : nat) (a : A) (l : list A) :
  map f (writeAt i a l) = writeAt i (f a) (map f l).
Proof.
  revert i; induction l as [|h t IH]; intros [|i]; simpl; auto.
  now rewrite IH.
Qed.

(** A property kept by every call of the callback is kept by the loop. *)
Lemma forEachFrom_keeps {St A : Type} (arr : St -> list A)
    (body : A -> nat -> St -> St) (P : St -> Prop) :
  (forall a k s, P s -> P (body a k s)) ->
  forall len k s, P s -> P (forEachFrom arr body len k s).
Proof.
  intros Hbody len; induction len as [|len IH]; intros k s Hs; simpl; auto.
  destruct (nth_error (arr s) k); auto.
Qed.

Lemma forEach_keeps {St A : Type} (arr : St -> list A)
    (body : A -> nat -> St -> St) (P : St -> Prop) :
  (forall a k s, P s -> P (body a k s)) ->
  forall s, P s -> P (forEach arr body s).
Proof.
  intros Hbody s Hs. unfold forEach. now apply forEachFrom_keeps.
Qed.

(** A view of the state that no call of the callback changes is not
    changed by the loop. *)
Lemma forEach_frame {St A X : Type} (arr : St -> list A)
    (body : A -> nat -> St -> St) (f : St -> X) :
  (forall a k s, f (body a k s) = f s) ->
  forall s, f (forEach arr body s) = f s.
Proof.
  intros Hbody s.
  apply (forEach_keeps arr body (fun s' => f s' = f s)); auto.
  intros a k s' Hs'. now rewrite Hbody.
Qed.

Lemma forEach_nil {St A : Type} (arr : St -> list A)
    (body : A -> nat -> St -> St) (s : St) :
  arr s = [] -> forEach arr body s = s.
Proof.
  intros H. unfold forEach. now rewrite H.
Qed.

(** ** Lifecycle commands *)

Lemma startGame_constant (s : State) : startGame s = startGame mounted.
Proof.
  unfold startGame, initGame; simpl.
  repeat match goal with
  | |- context [find ?f ?l] => destruct (find f l)
  end; reflexivity.
Qed.

(** C9. [startGame] (the restart command) yields the same state whatever
    the state it is called in, hence the same state when called twice in
    succession: PLAYING with score 0, level 1, no rocket, missile,
    explosion, meteor or plane, the six cities of [CITY_POSITIONS] at
    health 2 of 2, and the five towers of [TOWER_POSITIONS] at health 5
    of 5 with [ammo = maxAmmo], none destroyed. *)
Theorem restart_idempotent (s s' : State) :
  startGame (startGame s) = startGame s
  /\ startGame s = startGame s'
  /\ status (startGame s) = PLAYING
  /\ score (startGame s) = 0%Z /\ scoreRef (startGame s) = 0%Z
  /\ level (startGame s) = 1%Z
  /\ rockets (startGame s) = [] /\ missiles (startGame s) = []
  /\ explosions (startGame s) = [] /\ meteors (startGame s) = []
  /\ planes (startGame s) = []
  /\ map (fun c => (City.id c, City.x c, City.y c)) (cities (startGame s))
     = map (fun p => (CityPosition.id p, CityPosition.x p, CityPosition.y p))
         CITY_POSITIONS
  /\ Forall (fun c => City.health c = 2%Z /\ City.maxHealth c = 2%Z
                      /\ City.destroyed c = false) (cities (startGame s))
  /\ map (fun t => (Tower.id t, Tower.x t, Tower.y t, Tower.maxAmmo t))
       (towers (startGame s))
     = map (fun p => (TowerPosition.id p, TowerPosition.x p,
                      TowerPosition.y p, TowerPosition.maxAmmo p))
         TOWER_POSITIONS
  /\ Forall (fun t => Tower.ammo t = Tower.maxAmmo t
                      /\ Tower.health t = 5%Z /\ Tower.maxHealth t = 5%Z
                      /\ Tower.destroyed t = false) (towers (startGame s)).
Proof.
  rewrite (startGame_constant (startGame s)), (startGame_constant s),
    (startGame_constant s').
  repeat split; try reflexivity;
    vm_compute; repeat constructor.
Qed.

(** ** The fire command *)

(** C10. Outside PLAYING a click changes nothing: the call returns with
    the state it was given, so no ammo is deducted, no missile is
    created and every store is as before. *)
Theorem click_ignored_unless_playing (M : MathLib) (e : Click) (s : State) :
  status s <> PLAYING -> handleCanvasClick M e s = Done s.
Proof.
  intros H. unfold handleCanvasClick.
  destruct (status s); simpl; try reflexivity. now elim H.
Qed.

Lemma click_ignored_unless_playing_witness :
  status (set_status LEVEL_UP (startGame mounted)) <> PLAYING
  /\ handleCanvasClick approxMath (press 40 300)
       (set_status LEVEL_UP (startGame mounted))
     = Done (set_status LEVEL_UP (startGame mounted)).
Proof.
  split.
  - discriminate.
  - apply click_ignored_unless_playing. discriminate.
Defined.

Lemma Qltb_true (a b : Q) : Qltb a b = true -> a < b.
Proof.
  unfold Qltb. intros H. apply Qnot_le_lt. intros Hle.
  apply Qle_bool_iff in Hle. rewrite Hle in H. discriminate.
Qed.

Lemma Qltb_false (a b : Q) : Qltb a b = false -> b <= a.
Proof.
  unfold Qltb. intros H. apply Qle_bool_iff.
  destruct (Qle_bool b a); [reflexivity | discriminate].
Qed.

(** What the search loop returns, from any point of the scan: nothing
    if it held nothing and no remaining tower can fire; otherwise a
    tower no farther than any remaining tower that can fire and than
    the one held, which is either the one held or a remaining tower
    that can fire. *)
Lemma closestTower_scan (x : Q) (ts : list Tower.t) :
  forall (i0 : nat) (best : option (nat * Tower.t * Q)),
  match closestTower x i0 ts best with
  | None => best = None /\ forall t, In t ts -> canFire t = false
  | Some (i, t, d) =>
      (forall t', In t' ts -> canFire t' = true ->
                  d <= Qabs (Tower.x t' - x))
      /\ match best with Some (_, _, m) => d <= m | None => True end
      /\ (best = Some (i, t, d)
          \/ ((i0 <= i)%nat /\ nth_error ts (i - i0) = Some t
              /\ canFire t = true /\ d = Qabs (Tower.x t - x)))
  end.
Proof.
  induction ts as [|tower rest IH]; intros i0 best; cbn [closestTower In].
  - destruct best as [[[i t] d]|].
    + split; [intros ? []|]. split; [apply Qle_refl | now left].
    + split; [reflexivity | intros ? []].
  - destruct (canFire tower) eqn:Hfire.
    + destruct best as [[[bi bt] m]|].
      * destruct (Qltb (Qabs (Tower.x tower - x)) m) eqn:Hlt.
        -- specialize (IH (S i0) (Some (i0, tower, Qabs (Tower.x tower - x)))).
           destruct (closestTower x (S i0) rest _) as [[[i t] d]|].
           ++ destruct IH as (Hall & Hbest & Hwhich).
              split; [|split].
              ** intros t' [<-|Hin] Hf; auto.
              ** apply Qltb_true in Hlt. apply Qlt_le_weak.
                 eapply Qle_lt_trans; eauto.
              ** right. destruct Hwhich as [[= <- <- <-]|(Hi & Hn & Hf & Hd)].
                 --- rewrite Nat.sub_diag. simpl. auto.
                 --- split; [lia|]. replace (i - i0)%nat with (S (i - S i0)) by lia.
                     simpl. auto.
           ++ destruct IH as [IH _]. discriminate.
        -- specialize (IH (S i0) (Some (bi, bt, m))).
           destruct (closestTower x (S i0) rest _) as [[[i t] d]|].
           ++ destruct IH as (Hall & Hbest & Hwhich).
              split; [|split]; auto.
              ** intros t' [<-|Hin] Hf; auto.
                 apply Qltb_false in Hlt. eapply Qle_trans; eauto.
              ** destruct Hwhich as [Heq|(Hi & Hn & Hf & Hd)]; [now left|].
                 right. split; [lia|].
                 replace (i - i0)%nat with (S (i - S i0)) by lia. simpl. auto.
           ++ destruct IH as [IH _]. discriminate.
      * specialize (IH (S i0) (Some (i0, tower, Qabs (Tower.x tower - x)))).
        destruct (closestTower x (S i0) rest _) as [[[i t] d]|].
        -- destruct IH as (Hall & Hbest & Hwhich).
           split; [|split]; auto.
           ++ intros t' [<-|Hin] Hf; auto.
           ++ right. destruct Hwhich as [[= <- <- <-]|(Hi & Hn & Hf & Hd)].
              ** rewrite Nat.sub_diag. simpl. auto.
              ** split; [lia|]. replace (i - i0)%nat with (S (i - S i0)) by lia.
                 simpl. auto.
        -- destruct IH as [IH _]. discriminate.
    + specialize (IH (S i0) best).
      destruct (closestTower x (S i0) rest best) as [[[i t] d]|].
      * destruct IH as (Hall & Hbest & Hwhich).
        split; [|split]; auto.
        -- intros t' [<-|Hin] Hf; auto. congruence.
        -- destruct Hwhich as [Heq|(Hi & Hn & Hf & Hd)]; [now left|].
           right. split; [lia|].
           replace (i - i0)%nat with (S (i - S i0)) by lia. simpl. auto.
      * destruct IH as [-> Hnone]. split; [reflexivity|].
        intros t [<-|Hin]; auto.
Qed.

Lemma nth_error_writeAt_eq {A : Type} (i : nat) (a b : A) (l : list A) :
  nth_error l i = Some b -> nth_error (writeAt i a l) i = Some a.
Proof.
  revert i; induction l as [|h t IH]; intros [|i]; simpl; auto; discriminate.
Qed.

Lemma nth_error_writeAt_neq {A : Type} (i j : nat) (a : A) (l : list A) :
  i <> j -> nth_error (writeAt i a l) j = nth_error l j.
Proof.
  revert i j; induction l as [|h t IH]; intros [|i] [|j] H; simpl; auto.
  now elim H.
Qed.

Lemma closestTower_none (x : Q) (ts : list Tower.t) :
  (forall t, In t ts -> canFire t = false) ->
  closestTower x 0 ts None = None.
Proof.
  intros Hnone. pose proof (closestTower_scan x ts 0 None) as H.
  destruct (closestTower x 0 ts None) as [[[i t] d]|]; [|reflexivity].
  destruct H as (_ & _ & [Heq|(_ & Hn & Hf & _)]); [discriminate|].
  apply nth_error_In in Hn. rewrite (Hnone t Hn) in Hf. discriminate.
Qed.

Lemma closestTower_some (x : Q) (ts : list Tower.t) :
  (exists t, In t ts /\ canFire t = true) ->
  exists i t,
    closestTower x 0 ts None = Some (i, t, Qabs (Tower.x t - x))
    /\ nth_error ts i = Some t /\ canFire t = true
    /\ forall t', In t' ts -> canFire t' = true ->
                  Qabs (Tower.x t - x) <= Qabs (Tower.x t' - x).
Proof.
  intros (t0 & Hin & Hf0). pose proof (closestTower_scan x ts 0 None) as H.
  destruct (closestTower x 0 ts None) as [[[i t] d]|].
  - destruct H as (Hall & _ & [Heq|(_ & Hn & Hf & ->)]); [discriminate|].
    rewrite Nat.sub_0_r in Hn. exists i, t. auto.
  - destruct H as [_ Hnone]. rewrite (Hnone t0 Hin) in Hf0. discriminate.
Qed.

Lemma handleCanvasClick_fires (M : MathLib) (e : Click) (s : State)
    (canvas : Canvas.t) (client : Q * Q) :
  status s = PLAYING -> canvasRef e = Some canvas ->
  clientPoint (event e) = Some client ->
  handleCanvasClick M e s
  = Done (fire M (fst (toWorld canvas client)) (snd (toWorld canvas client))
            (missileId e) s).
Proof.
  intros Hst Hc Hp. unfold handleCanvasClick. rewrite Hst, Hc, Hp.
  cbn [GameStatus_eqb negb]. now destruct (toWorld canvas client).
Qed.

(** C5. A click in PLAYING on a laid-out canvas, at world point
    [(x, y)]: (1) if no tower is non-destroyed with ammo > 0, the state
    is unchanged; (2) otherwise one such tower, at no greater horizontal
    distance from [x] than any other such tower, loses exactly one
    ammo, and exactly one missile is appended, starting at that tower's
    position, with target [(x, y)] and angle
    [atan2 (y - tower.y) (x - tower.x)]; nothing else changes (the
    displayed score is refreshed from the score ref); (3) with the only
    such tower at (40, 560) with ammo 300 and a click at (40, 300), one
    missile is created whose angle is -PI/2 (for a platform [atan2] that
    returns -PI/2 on the negative y axis) and the tower's ammo is 299. *)
Theorem fire_command (M : MathLib) (e : Click) (s : State)
    (canvas : Canvas.t) (client : Q * Q) :
  status s = PLAYING -> canvasRef e = Some canvas -> laidOut canvas ->
  clientPoint (event e) = Some client ->
  let x := fst (toWorld canvas client) in
  let y := snd (toWorld canvas client) in
  ((forall t, In t (towers s) -> canFire t = false) ->
   handleCanvasClick M e s = Done s)
  /\ ((exists t, In t (towers s) /\ canFire t = true) ->
      exists i t,
        nth_error (towers s) i = Some t /\ canFire t = true
        /\ (forall t', In t' (towers s) -> canFire t' = true ->
                       Qabs (Tower.x t - x) <= Qabs (Tower.x t' - x))
        /\ handleCanvasClick M e s
           = Done (set_score (scoreRef s)
                    (set_missiles
                       (missiles s ++
                        [Missile.mk (missileId e)
                           (Point.mk (Tower.x t) (Tower.y t))
                           (Point.mk (Tower.x t) (Tower.y t))
                           (Point.mk x y) MISSILE_SPEED
                           (atan2 M (y - Tower.y t) (x - Tower.x t))
                           (Tower.id t)])
                       (set_towers
                          (writeAt i (Tower.set_ammo (Tower.ammo t - 1) t)
                             (towers s)) s))))
  /\ ((forall b a, b < 0 -> a == 0 -> atan2 M b a == - (PI M / 2)) ->
      x == 40 -> y == 300 ->
      forall i t,
        nth_error (towers s) i = Some t -> canFire t = true ->
        Tower.x t = 40 -> Tower.y t = 560 -> Tower.ammo t = 300%Z ->
        (forall j t', nth_error (towers s) j = Some t' -> j <> i ->
                      canFire t' = false) ->
        exists s' m t',
          handleCanvasClick M e s = Done s'
          /\ missiles s' = missiles s ++ [m]
          /\ Missile.start m = Point.mk 40 560
          /\ Missile.current m = Point.mk 40 560
          /\ Missile.target m = Point.mk x y
          /\ Missile.angle m == - (PI M / 2)
          /\ nth_error (towers s') i = Some t'
          /\ Tower.ammo t' = 299%Z
          /\ (forall j, j <> i ->
                nth_error (towers s') j = nth_error (towers s) j)).
Proof.
  intros Hst Hc _ Hp x y.
  pose proof (handleCanvasClick_fires M e s Hst Hc Hp) as Hclick.
  fold x y in Hclick.
  assert (Hsome : (exists t, In t (towers s) /\ canFire t = true) ->
      exists i t,
        nth_error (towers s) i = Some t /\ canFire t = true
        /\ (forall t', In t' (towers s) -> canFire t' = true ->
                       Qabs (Tower.x t - x) <= Qabs (Tower.x t' - x))
        /\ handleCanvasClick M e s
           = Done (set_score (scoreRef s)
                    (set_missiles
                       (missiles s ++
                        [Missile.mk (missileId e)
                           (Point.mk (Tower.x t) (Tower.y t))
                           (Point.mk (Tower.x t) (Tower.y t))
                           (Point.mk x y) MISSILE_SPEED
                           (atan2 M (y - Tower.y t) (x - Tower.x t))
                           (Tower.id t)])
                       (set_towers
                          (writeAt i (Tower.set_ammo (Tower.ammo t - 1) t)
                             (towers s)) s)))).
  { intros Hex. destruct (closestTower_some x (towers s) Hex)
      as (i & t & Hbest & Hn & Hf & Hmin).
    exists i, t. repeat split; auto.
    rewrite Hclick. unfold fire. rewrite Hbest. reflexivity. }
  split; [|split]; auto.
  - intros Hnone. rewrite Hclick. unfold fire.
    now rewrite (closestTower_none x (towers s) Hnone).
  - intros Hatan Hx Hy i t Hn Hf Htx Hty Hammo Honly.
    destruct Hsome as (i' & t' & Hn' & Hf' & _ & Hrun).
    { exists t. split; auto. eapply nth_error_In; eauto. }
    assert (i' = i) as ->.
    { destruct (Nat.eq_dec i' i) as [|Hne]; auto.
      rewrite (Honly i' t' Hn' Hne) in Hf'. discriminate. }
    assert (t' = t) as -> by congruence.
    eexists; eexists; eexists. split; [exact Hrun|].
    cbn [missiles towers set_score set_missiles set_towers
         Missile.start Missile.current Missile.target Missile.angle].
    rewrite Htx, Hty.
    repeat split; auto.
    + apply Hatan; lra.
    + eapply nth_error_writeAt_eq; eauto.
    + cbn. lia.
    + intros j Hj. apply nth_error_writeAt_neq. auto.
Qed.

Lemma approxAtan2_negative_axis (b a : Q) :
  b < 0 -> a == 0 -> atan2 approxMath b a == - (PI approxMath / 2).
Proof.
  intros Hb Ha. cbn [atan2 PI approxMath]. unfold approxAtan2.
  rewrite (proj2 (Qeq_bool_iff a 0) Ha).
  assert (Qltb 0 b = false) as ->.
  { unfold Qltb. rewrite (proj2 (Qle_bool_iff b 0)); auto.
    now apply Qlt_le_weak. }
  assert (Qltb b 0 = true) as ->.
  { unfold Qltb. destruct (Qle_bool 0 b) eqn:H; auto.
    apply Qle_bool_iff in H. lra. }
  reflexivity.
Qed.

Lemma fire_command_witness :
  exists s' m t',
    handleCanvasClick approxMath (press 40 300) lastStand = Done s'
    /\ missiles s' = missiles lastStand ++ [m]
    /\ Missile.start m = Point.mk 40 560
    /\ Missile.current m = Point.mk 40 560
    /\ Missile.target m
       = Point.mk (fst (toWorld stage (40, 300))) (snd (toWorld stage (40, 300)))
    /\ Missile.angle m == - (PI approxMath / 2)
    /\ nth_error (towers s') 0 = Some t'
    /\ Tower.ammo t' = 299%Z
    /\ (forall j, j <> O ->
          nth_error (towers s') j = nth_error (towers lastStand) j).
Proof.
  assert (Hlaid : laidOut stage) by (split; vm_compute; discriminate).
  destruct (fire_command approxMath (press 40 300) lastStand
              (canvas := stage) (client := (40, 300))
              eq_refl eq_refl Hlaid eq_refl) as (_ & _ & H).
  apply (H approxAtan2_negative_axis) with
    (t := Tower.mk 0 40 560 40 560 300 300 5 5 false);
    try reflexivity.
  intros j t' Hn Hj.
  do 5 (destruct j as [|j];
        [first [now elim Hj
               | vm_compute in Hn; injection Hn as <-; reflexivity]|]).
  vm_compute in Hn. destruct j; discriminate.
Defined.

(** ** What each part of [update] leaves alone *)

Lemma hitTower_ammo (p : Point.t) (t : Tower.t) :
  Tower.ammo (hitTower p t) = Tower.ammo t.
Proof. unfold hitTower. split_ifs; reflexivity. Qed.

Lemma map_hitTower_ammo (p : Point.t) (ts : list Tower.t) :
  map Tower.ammo (map (hitTower p) ts) = map Tower.ammo ts.
Proof.
  rewrite map_map. apply map_ext. intros t. apply hitTower_ammo.
Qed.

Lemma rocketBody_frame (M : MathLib) (d : Draws) (r : Rocket.t) (k : nat)
    (s : State) :
  let s' := rocketBody M d r k s in
  (status s', score s', level s', missiles s', meteors s', planes s',
   formationTimer s', currentFormation s', scoreRef s', ammos s')
  = (status s, score s, level s, missiles s, meteors s, planes s,
     formationTimer s, currentFormation s, scoreRef s, ammos s).
Proof.
  unfold rocketBody. split_ifs; unfold ammos; cbn; [|reflexivity].
  now rewrite map_hitTower_ammo.
Qed.

Lemma updateRockets_frame (M : MathLib) (d : Draws) (s : State) :
  let s' := updateRockets M d s in
  (status s', score s', level s', missiles s', meteors s', planes s',
   formationTimer s', currentFormation s', scoreRef s', ammos s')
  = (status s, score s, level s, missiles s, meteors s, planes s,
     formationTimer s, currentFormation s, scoreRef s, ammos s).
Proof.
  unfold updateRockets.
  apply (forEach_frame rockets (rocketBody M d)
    (fun s => (status s, score s, level s, missiles s, meteors s, planes s,
               formationTimer s, currentFormation s, scoreRef s, ammos s))).
  intros a k s0. apply rocketBody_frame.
Qed.

(** The inner loops over rockets and planes touch the rockets, the
    planes and the score only. *)
Lemma addScore_still (n : Z) (s : State) : still (addScore n s) = still s.
Proof. reflexivity. Qed.

Lemma damagePlane_still (amount : Q) (p : Plane.t) (k : nat) (s : State) :
  still (damagePlane amount p k s) = still s.
Proof. unfold damagePlane. split_ifs; reflexivity. Qed.

Lemma laserRocket_still (M : MathLib) (m : Missile.t) (r : Rocket.t)
    (k : nat) (s : State) :
  still (laserRocket M m r k s) = still s.
Proof. unfold laserRocket. split_ifs; reflexivity. Qed.

Lemma laserPlane_still (M : MathLib) (m : Missile.t) (p : Plane.t)
    (k : nat) (s : State) :
  still (laserPlane M m p k s) = still s.
Proof.
  unfold laserPlane. split_ifs; try reflexivity. apply damagePlane_still.
Qed.

Lemma blastRocket_still (M : MathLib) (e : Explosion.t) (r : Rocket.t)
    (k : nat) (s : State) :
  still (blastRocket M e r k s) = still s.
Proof. unfold blastRocket. split_ifs; reflexivity. Qed.

Lemma blastPlane_still (M : MathLib) (e : Explosion.t) (p : Plane.t)
    (k : nat) (s : State) :
  still (blastPlane M e p k s) = still s.
Proof.
  unfold blastPlane. split_ifs; try reflexivity. apply damagePlane_still.
Qed.

Lemma base_of_still (a b : State) : still a = still b -> base a = base b.
Proof. unfold still, base. congruence. Qed.

Lemma missileBody_base (M : MathLib) (d : Draws) (m : Missile.t) (k : nat)
    (s : State) :
  base (missileBody M d m k s) = base s.
Proof.
  unfold missileBody.
  set (m' := moveMissile M m).
  set (s1 := set_missiles (writeAt k m' (missiles s)) s).
  set (s2 := forEach rockets (laserRocket M m') s1).
  set (s3 := forEach planes (laserPlane M m') s2).
  assert (H : base s3 = base s).
  { transitivity (base s1); [|reflexivity].
    apply base_of_still. unfold s3, s2.
    rewrite (forEach_frame planes (laserPlane M m') still
               (laserPlane_still M m')).
    now rewrite (forEach_frame rockets (laserRocket M m') still
                   (laserRocket_still M m')). }
  split_ifs; [|exact H]. rewrite <- H. reflexivity.
Qed.

Lemma updateMissiles_base (M : MathLib) (d : Draws) (s : State) :
  base (updateMissiles M d s) = base s.
Proof.
  apply (forEach_frame missiles (missileBody M d) base).
  apply missileBody_base.
Qed.

Lemma explosionBody_base (M : MathLib) (e : Explosion.t) (k : nat)
    (s : State) :
  (base (explosionBody M e k s), missiles (explosionBody M e k s))
  = (base s, missiles s).
Proof.
  unfold explosionBody. destruct (pulse e k (explosions s)) as [e' exps].
  set (s1 := set_explosions exps s).
  assert (H : still (forEach planes (blastPlane M e')
                       (forEach rockets (blastRocket M e') s1)) = still s1).
  { rewrite (forEach_frame planes (blastPlane M e') still
               (blastPlane_still M e')).
    now rewrite (forEach_frame rockets (blastRocket M e') still
                   (blastRocket_still M e')). }
  rewrite (base_of_still H). unfold still in H.
  replace (missiles (forEach planes (blastPlane M e')
                       (forEach rockets (blastRocket M e') s1)))
    with (missiles s1) by congruence.
  reflexivity.
Qed.

Lemma updateExplosions_base (M : MathLib) (s : State) :
  (base (updateExplosions M s), missiles (updateExplosions M s))
  = (base s, missiles s).
Proof.
  apply (forEach_frame explosions (explosionBody M)
           (fun s => (base s, missiles s))).
  apply explosionBody_base.
Qed.

(** The meteor and plane passes and the two spawners touch the rockets,
    the planes and the meteors only. *)
Lemma spawnMeteor_ground (M : MathLib) (d : Draws) (s : State) :
  ground (spawnMeteor M d s) = ground s.
Proof. unfold spawnMeteor. split_ifs; reflexivity. Qed.

Lemma meteorBody_ground (m : Meteor.t) (k : nat) (s : State) :
  ground (meteorBody m k s) = ground s.
Proof. unfold meteorBody. split_ifs; reflexivity. Qed.

Lemma planeBody_ground (M : MathLib) (p : Plane.t) (k : nat) (s : State) :
  ground (planeBody M p k s) = ground s.
Proof. unfold planeBody. split_ifs; reflexivity. Qed.

Lemma spawnPlanes_ground (d : Draws) (s : State) :
  ground (spawnPlanes d s) = ground s.
Proof. unfold spawnPlanes. split_ifs; reflexivity. Qed.

Lemma spawnRocket_ground (M : MathLib) (d : Draws) (s : State) :
  ground (stateOf (spawnRocket M d s)) = ground s.
Proof.
  unfold spawnRocket. split_ifs; try reflexivity.
  destruct (item _ _) as [[pIndex plane]|]; [|reflexivity].
  split_ifs; try reflexivity.
  destruct (item _ _); reflexivity.
Qed.

Lemma stepTower_keeps (f : Z) (i : nat) (b : TowerPosition.t) (t : Tower.t) :
  Tower.ammo (stepTower f i b t) = Tower.ammo t
  /\ Tower.destroyed (stepTower f i b t) = Tower.destroyed t.
Proof.
  unfold stepTower. destruct (formationTarget f i b). split; reflexivity.
Qed.

Lemma formationLoop_keeps (f : Z) (ts : list Tower.t) :
  forall i,
    map Tower.ammo (fst (formationLoop f i ts)) = map Tower.ammo ts
    /\ map Tower.destroyed (fst (formationLoop f i ts))
       = map Tower.destroyed ts.
Proof.
  induction ts as [|t rest IH]; intros i; cbn [formationLoop].
  - split; reflexivity.
  - destruct (Tower.destroyed t) eqn:Hd.
    + destruct (IH (S i)) as [Ha Hw].
      destruct (formationLoop f (S i) rest) as [rest' ok].
      cbn [fst map] in *. now rewrite Ha, Hw.
    + destruct (nth_error TOWER_POSITIONS i) as [b|].
      * destruct (IH (S i)) as [Ha Hw].
        destruct (formationLoop f (S i) rest) as [rest' ok].
        cbn [fst map] in *. rewrite Ha, Hw.
        destruct (stepTower_keeps f i b t) as [-> ->]. now rewrite Hd.
      * split; reflexivity.
Qed.

Lemma updatePlayerFormation_frame (s : State) :
  let s' := stateOf (updatePlayerFormation s) in
  (status s', score s', level s', rockets s', missiles s', explosions s',
   cities s', meteors s', planes s', scoreRef s', ammos s', wrecks s')
  = (status s, score s, level s, rockets s, missiles s, explosions s,
     cities s, meteors s, planes s, scoreRef s, ammos s, wrecks s).
Proof.
  unfold updatePlayerFormation, ammos, wrecks.
  set (s1 := set_formationTimer (formationTimer s + 1) s).
  set (s2 := if (400 <? formationTimer s1)%Z
             then set_currentFormation (Z.rem (currentFormation (set_formationTimer 0 s1) + 1) 3)
                    (set_formationTimer 0 s1)
             else s1).
  assert (H2 : (status s2, score s2, level s2, rockets s2, missiles s2,
                explosions s2, cities s2, meteors s2, planes s2,
                scoreRef s2, towers s2)
               = (status s, score s, level s, rockets s, missiles s,
                  explosions s, cities s, meteors s, planes s,
                  scoreRef s, towers s)).
  { unfold s2. split_ifs; reflexivity. }
  destruct (formationLoop_keeps (currentFormation s2) (towers s2) 0)
    as [Ha Hw].
  destruct (formationLoop (currentFormation s2) 0 (towers s2)) as [ts ok].
  cbn [fst] in Ha, Hw.
  assert (Ht : towers s2 = towers s) by congruence.
  rewrite Ht in Ha, Hw.
  destruct ok; cbn; rewrite Ha, Hw; congruence.
Qed.

Lemma updateSky_ground (M : MathLib) (d : Draws) (s : State) :
  ground (stateOf (updateSky M d s)) = ground s.
Proof.
  unfold updateSky.
  rewrite spawnRocket_ground, spawnPlanes_ground.
  rewrite (forEach_frame planes (planeBody M) ground (planeBody_ground M)).
  rewrite (forEach_frame meteors meteorBody ground meteorBody_ground).
  apply spawnMeteor_ground.
Qed.

(** From the win/loss/level-up check to the end of [update]: the
    verdict, the ammo, the missiles, the explosions and the cities stay
    as the check left them. *)
Lemma update_after_check (M : MathLib) (d : Draws) (s : State) :
  let s' := stateOf (andThen (updatePlayerFormation s) (updateSky M d)) in
  (verdict s', ammos s', score s', missiles s', explosions s', cities s')
  = (verdict s, ammos s, score s, missiles s, explosions s, cities s).
Proof.
  pose proof (updatePlayerFormation_frame s) as Hf. cbv zeta in *.
  destruct (updatePlayerFormation s) as [s1|s1]; cbn [andThen stateOf] in *.
  - pose proof (updateSky_ground M d s1) as Hg.
    unfold ground, verdict, ammos, wrecks in *. congruence.
  - unfold verdict. congruence.
Qed.

(** The three passes before the check keep the status, the level and
    the ammo. *)
Lemma update_before_check (M : MathLib) (d : Draws) (s : State) :
  let s' := updateExplosions M (updateMissiles M d (updateRockets M d s)) in
  (status s', level s', ammos s') = (status s, level s, ammos s).
Proof.
  cbv zeta.
  pose proof (updateExplosions_base M
                (updateMissiles M d (updateRockets M d s))) as H3.
  pose proof (updateMissiles_base M d (updateRockets M d s)) as H2.
  pose proof (updateRockets_frame M d s) as H1. cbv zeta in H1.
  unfold base, ammos in *. congruence.
Qed.

Lemma checkProgress_frame (s : State) :
  let s' := checkProgress s in
  (score s', level s', rockets s', missiles s', explosions s', cities s',
   towers s', meteors s', planes s', formationTimer s',
   currentFormation s', scoreRef s')
  = (score s, level s, rockets s, missiles s, explosions s, cities s,
     towers s, meteors s, planes s, formationTimer s, currentFormation s,
     scoreRef s).
Proof. unfold checkProgress. split_ifs; reflexivity. Qed.

Lemma checkProgress_status (s : State) :
  status (checkProgress s)
  = if forallb Tower.destroyed (towers s) then LOST
    else if (level s * 500 <=? scoreRef s)%Z then
           if (10 <=? level s)%Z then WON else LEVEL_UP
         else status s.
Proof.
  unfold checkProgress.
  destruct (level s * 500 <=? scoreRef s)%Z;
    [destruct (10 <=? level s)%Z|];
    cbn [towers set_status]; destruct (forallb Tower.destroyed (towers s));
    reflexivity.
Qed.

Lemma forallb_map {A : Type} (f : A -> bool) (l : list A) :
  forallb f l = forallb (fun b => b) (map f l).
Proof. induction l as [|a l IH]; simpl; congruence. Qed.

(** The status at the end of [update], in terms of the state at the end
    of [update]. *)
Lemma update_status (M : MathLib) (d : Draws) (s : State) :
  let s' := stateOf (update M d s) in
  level s' = level s
  /\ status s'
     = if forallb Tower.destroyed (towers s') then LOST
       else if (level s * 500 <=? scoreRef s')%Z then
              if (10 <=? level s)%Z then WON else LEVEL_UP
            else status s.
Proof.
  cbv zeta. unfold update.
  set (s3 := updateExplosions M (updateMissiles M d (updateRockets M d s))).
  pose proof (update_before_check M d s) as Hb. cbv zeta in Hb. fold s3 in Hb.
  pose proof (checkProgress_frame s3) as Hc. cbv zeta in Hc.
  pose proof (checkProgress_status s3) as Hs.
  pose proof (update_after_check M d (checkProgress s3)) as Ha.
  cbv zeta in Ha.
  set (s' := stateOf (andThen (updatePlayerFormation (checkProgress s3))
                        (updateSky M d))) in *.
  unfold verdict in Ha.
  assert (Hw : wrecks s' = wrecks s3).
  { transitivity (wrecks (checkProgress s3)); [congruence|].
    unfold wrecks. congruence. }
  assert (Hl : level s' = level s) by congruence.
  split; [exact Hl|].
  rewrite (forallb_map Tower.destroyed (towers s')).
  fold (wrecks s'). rewrite Hw. unfold wrecks.
  rewrite <- forallb_map.
  replace (status s') with (status (checkProgress s3)) by congruence.
  replace (scoreRef s') with (scoreRef s3) by congruence.
  rewrite Hs.
  replace (level s3) with (level s) by congruence.
  replace (status s3) with (status s) by congruence.
  reflexivity.
Qed.

(** ** Win, loss and level up *)

Lemma gameLoop_playing (M : MathLib) (d : Draws) (s : State) :
  status s = PLAYING -> gameLoop M d s = update M d s.
Proof. intros H. unfold gameLoop. now rewrite H. Qed.

(** C1 (amended). A tick in PLAYING that ends with at least one tower
    not destroyed ends in LEVEL_UP if the score has reached level x 500
    and the level is below 10, in WON if the score has reached
    level x 500 and the level is at least 10, and stays in PLAYING while
    the score is below level x 500.  In particular, at level 1 a score
    of exactly 500 gives LEVEL_UP and at level 10 a score of exactly
    5000 gives WON. *)
Theorem progress_at_threshold (M : MathLib) (d : Draws) (s : State) :
  let s' := stateOf (gameLoop M d s) in
  status s = PLAYING ->
  forallb Tower.destroyed (towers s') = false ->
  ((level s * 500 <= scoreRef s')%Z -> (level s < 10)%Z ->
   status s' = LEVEL_UP)
  /\ ((level s * 500 <= scoreRef s')%Z -> (10 <= level s)%Z ->
      status s' = WON)
  /\ ((scoreRef s' < level s * 500)%Z -> status s' = PLAYING)
  /\ (level s = 1%Z -> scoreRef s' = 500%Z -> status s' = LEVEL_UP)
  /\ (level s = 10%Z -> scoreRef s' = 5000%Z -> status s' = WON).
Proof.
  intros s' Hplay Hstand. unfold s' in *.
  rewrite (@gameLoop_playing M d s Hplay) in *.
  destruct (update_status M d s) as [_ Hs]. rewrite Hstand, Hplay in Hs.
  rewrite Hs.
  repeat split; intros;
    destruct (Z.leb_spec (level s * 500) (scoreRef (stateOf (update M d s))));
    destruct (Z.leb_spec 10 (level s)); try reflexivity; lia.
Qed.

Lemma progress_at_threshold_witness :
  let s' := stateOf (gameLoop approxMath quietDraws closeCall) in
  status closeCall = PLAYING
  /\ (scoreRef closeCall < level closeCall * 500)%Z
  /\ level closeCall = 1%Z
  /\ scoreRef s' = 500%Z
  /\ status s' = LEVEL_UP.
Proof.
  assert (Hboth : forallb Tower.destroyed
            (towers (stateOf (gameLoop approxMath quietDraws closeCall)))
          = false
          /\ scoreRef (stateOf (gameLoop approxMath quietDraws closeCall))
             = 500%Z).
  { evaluate (stateOf (gameLoop approxMath quietDraws closeCall)).
    split; reflexivity. }
  destruct Hboth as [Hstand Hscore].
  destruct (progress_at_threshold approxMath quietDraws closeCall
              eq_refl Hstand) as (_ & _ & _ & Hone & _).
  cbv zeta.
  split; [reflexivity|]. split; [vm_compute; reflexivity|].
  split; [reflexivity|]. split; [exact Hscore|].
  exact (Hone eq_refl Hscore).
Defined.

(** C1 as stated fails when the tick that brings the score to the
    target also destroys the last tower: at level 1 the score goes from
    480 to 500 and the status is LOST, not LEVEL_UP. *)
Lemma progress_at_threshold_counterexample :
  let s' := stateOf (gameLoop approxMath quietDraws lostAtThreshold) in
  status lostAtThreshold = PLAYING
  /\ level lostAtThreshold = 1%Z
  /\ scoreRef lostAtThreshold = 480%Z
  /\ scoreRef s' = 500%Z
  /\ status s' = LOST
  /\ status s' <> LEVEL_UP.
Proof.
  cbv zeta.
  evaluate (stateOf (gameLoop approxMath quietDraws lostAtThreshold)).
  split; [reflexivity|]. split; [reflexivity|]. split; [reflexivity|].
  split; [reflexivity|]. split; [reflexivity|]. discriminate.
Qed.

(** C2. A tick in PLAYING at whose end every tower is destroyed ends in
    LOST, whatever the score: also when the score has reached
    level x 500 in that tick. *)
Theorem loss_overrides_score (M : MathLib) (d : Draws) (s : State) :
  let s' := stateOf (gameLoop M d s) in
  status s = PLAYING ->
  forallb Tower.destroyed (towers s') = true ->
  status s' = LOST.
Proof.
  intros s' Hplay Hall. unfold s' in *.
  rewrite (@gameLoop_playing M d s Hplay) in *.
  destruct (update_status M d s) as [_ Hs]. now rewrite Hall in Hs.
Qed.

Lemma loss_overrides_score_witness :
  let s' := stateOf (gameLoop approxMath quietDraws lostAtThreshold) in
  status lostAtThreshold = PLAYING
  /\ forallb Tower.destroyed (towers lostAtThreshold) = false
  /\ forallb Tower.destroyed (towers s') = true
  /\ (level lostAtThreshold * 500 <= scoreRef s')%Z
  /\ status s' = LOST.
Proof.
  assert (Hboth : forallb Tower.destroyed
            (towers (stateOf (gameLoop approxMath quietDraws lostAtThreshold)))
          = true
          /\ (level lostAtThreshold * 500
              <= scoreRef (stateOf (gameLoop approxMath quietDraws
                                      lostAtThreshold)))%Z).
  { evaluate (stateOf (gameLoop approxMath quietDraws lostAtThreshold)).
    split; [reflexivity | vm_compute; discriminate]. }
  destruct Hboth as [Hall Hscore].
  cbv zeta.
  split; [reflexivity|]. split; [vm_compute; reflexivity|].
  split; [exact Hall|]. split; [exact Hscore|].
  exact (loss_overrides_score approxMath quietDraws lostAtThreshold
           eq_refl Hall).
Defined.

(** ** Ammo *)

Lemma update_ammos (M : MathLib) (d : Draws) (s : State) :
  ammos (stateOf (update M d s)) = ammos s.
Proof.
  unfold update.
  set (s3 := updateExplosions M (updateMissiles M d (updateRockets M d s))).
  pose proof (update_before_check M d s) as Hb. cbv zeta in Hb. fold s3 in Hb.
  pose proof (checkProgress_frame s3) as Hc. cbv zeta in Hc.
  pose proof (update_after_check M d (checkProgress s3)) as Ha.
  cbv zeta in Ha.
  assert (ammos (checkProgress s3) = ammos s3) by (unfold ammos; congruence).
  congruence.
Qed.

Lemma tick_ammos (M : MathLib) (d : Draws) (s : State) :
  ammos (stateOf (gameLoop M d s)) = ammos s.
Proof.
  unfold gameLoop. destruct (GameStatus_eqb (status s) PLAYING).
  - apply update_ammos.
  - reflexivity.
Qed.

(** A shot leaves the ammo as it is (no tower can fire) or takes
    exactly one from exactly one tower that had some. *)
Lemma fire_ammos (M : MathLib) (x y : Q) (id : string) (s : State) :
  ammos (fire M x y id s) = ammos s
  \/ exists i a, nth_error (ammos s) i = Some a /\ (0 < a)%Z
                 /\ ammos (fire M x y id s) = writeAt i (a - 1)%Z (ammos s).
Proof.
  unfold fire.
  pose proof (closestTower_scan x (towers s) 0 None) as H.
  destruct (closestTower x 0 (towers s) None) as [[[i t] dist]|];
    [|now left].
  destruct H as (_ & _ & [Heq|(_ & Hn & Hf & _)]); [discriminate|].
  rewrite Nat.sub_0_r in Hn. right. exists i, (Tower.ammo t).
  unfold canFire in Hf. apply andb_prop in Hf. destruct Hf as [_ Hpos].
  apply Z.ltb_lt in Hpos.
  split; [|split; [exact Hpos|]].
  - unfold ammos. now rewrite nth_error_map, Hn.
  - unfold ammos. cbn [towers set_score set_missiles set_towers].
    now rewrite map_writeAt.
Qed.

Lemma click_ammos (M : MathLib) (e : Click) (s : State) :
  ammos (stateOf (handleCanvasClick M e s)) = ammos s
  \/ exists i a, nth_error (ammos s) i = Some a /\ (0 < a)%Z
                 /\ ammos (stateOf (handleCanvasClick M e s))
                    = writeAt i (a - 1)%Z (ammos s).
Proof.
  unfold handleCanvasClick.
  destruct (negb _); [now left|].
  destruct (canvasRef e) as [canvas|]; [|now left].
  destruct (clientPoint (event e)) as [client|]; [|now left].
  destruct (toWorld canvas client) as [x y]. apply fire_ammos.
Qed.

(** A shot changes nothing (no tower can fire), or takes exactly one
    ammo from exactly one tower that had some and appends exactly one
    missile, which carries that tower's id. *)
Lemma fire_spends (M : MathLib) (x y : Q) (id : string) (s : State) :
  fire M x y id s = s
  \/ exists i a tower m,
       nth_error (towers s) i = Some tower /\ Tower.ammo tower = a
       /\ (0 < a)%Z
       /\ ammos (fire M x y id s) = writeAt i (a - 1)%Z (ammos s)
       /\ missiles (fire M x y id s) = missiles s ++ [m]
       /\ Missile.towerId m = Tower.id tower.
Proof.
  unfold fire.
  pose proof (closestTower_scan x (towers s) 0 None) as H.
  destruct (closestTower x 0 (towers s) None) as [[[i t] dist]|];
    [|now left].
  destruct H as (_ & _ & [Heq|(_ & Hn & Hf & _)]); [discriminate|].
  rewrite Nat.sub_0_r in Hn. right. exists i, (Tower.ammo t), t. eexists.
  unfold canFire in Hf. apply andb_prop in Hf. destruct Hf as [_ Hpos].
  apply Z.ltb_lt in Hpos.
  split; [exact Hn|]. split; [reflexivity|]. split; [exact Hpos|].
  split; [|split; reflexivity].
  unfold ammos. cbn [towers set_score set_missiles set_towers].
  now rewrite map_writeAt.
Qed.

Lemma click_spends (M : MathLib) (e : Click) (s : State) :
  stateOf (handleCanvasClick M e s) = s
  \/ exists i a tower m,
       nth_error (towers s) i = Some tower /\ Tower.ammo tower = a
       /\ (0 < a)%Z
       /\ ammos (stateOf (handleCanvasClick M e s))
          = writeAt i (a - 1)%Z (ammos s)
       /\ missiles (stateOf (handleCanvasClick M e s)) = missiles s ++ [m]
       /\ Missile.towerId m = Tower.id tower.
Proof.
  unfold handleCanvasClick.
  destruct (negb _); [now left|].
  destruct (canvasRef e) as [canvas|]; [|now left].
  destruct (clientPoint (event e)) as [client|]; [|now left].
  destruct (toWorld canvas client) as [x y]. apply fire_spends.
Qed.

Lemma writeAt_le (i : nat) (a : Z) (l : list Z) :
  nth_error l i = Some a -> Forall2 Z.le (writeAt i (a - 1)%Z l) l.
Proof.
  revert i; induction l as [|h t IH]; intros [|i] H; simpl in *;
    try discriminate.
  - injection H as ->. constructor; [lia|].
    clear. induction t; constructor; auto; lia.
  - constructor; [lia | auto].
Qed.

Lemma writeAt_nonneg (i : nat) (a : Z) (l : list Z) :
  (0 < a)%Z -> Forall (Z.le 0) l -> Forall (Z.le 0) (writeAt i (a - 1)%Z l).
Proof.
  intros Ha. revert i; induction l as [|h t IH]; intros [|i] H; simpl;
    auto; inversion H; subst; constructor; auto; lia.
Qed.

Lemma Forall2_le_refl (l : list Z) : Forall2 Z.le l l.
Proof. induction l; constructor; auto; lia. Qed.

Lemma Forall2_le_trans (a b c : list Z) :
  Forall2 Z.le a b -> Forall2 Z.le b c -> Forall2 Z.le a c.
Proof.
  intros Hab; revert c; induction Hab; intros c Hbc; inversion Hbc; subst;
    constructor; auto; lia.
Qed.

Lemma step_ammos (M : MathLib) (s : State) (c : Command) :
  Forall (Z.le 0) (ammos s) ->
  Forall2 Z.le (ammos (step M s c)) (ammos s)
  /\ Forall (Z.le 0) (ammos (step M s c)).
Proof.
  intros Hpos. destruct c as [d|e]; cbn [step].
  - rewrite tick_ammos. split; [apply Forall2_le_refl | exact Hpos].
  - destruct (click_ammos M e s) as [->|(i & a & Hn & Ha & ->)].
    + split; [apply Forall2_le_refl | exact Hpos].
    + split; [now apply writeAt_le | now apply writeAt_nonneg].
Qed.

Lemma run_ammos (M : MathLib) (cs : list Command) :
  forall s, Forall (Z.le 0) (ammos s) ->
  Forall2 Z.le (ammos (run M cs s)) (ammos s)
  /\ Forall (Z.le 0) (ammos (run M cs s)).
Proof.
  induction cs as [|c cs IH]; intros s Hpos; cbn [run fold_left].
  - split; [apply Forall2_le_refl | exact Hpos].
  - destruct (step_ammos M s c Hpos) as [Hle Hpos'].
    destruct (IH _ Hpos') as [Hle' Hpos''].
    split; [|exact Hpos'']. eapply Forall2_le_trans; eauto.
Qed.

(** C8. Along any sequence of frames and clicks from a state in which no
    tower has negative ammo (as after [startGame] or [nextLevel]): tower
    by tower, the ammo after a longer run is at most the ammo after a
    shorter one, and it is never negative.  A click either changes
    nothing at all (no missile, no ammo), or fires: it appends exactly
    one missile, which carries the id of one tower that had ammo, and
    takes exactly one ammo from that tower and none from the others.
    A frame changes no tower's ammo. *)
Theorem ammo_never_grows (M : MathLib) (s : State)
    (before after : list Command) :
  Forall (Z.le 0) (ammos s) ->
  Forall onStage (before ++ after) ->
  Forall2 Z.le (ammos (run M (before ++ after) s)) (ammos (run M before s))
  /\ Forall (Z.le 0) (ammos (run M (before ++ after) s))
  /\ (forall e,
        let s1 := run M before s in
        let s2 := step M s1 (Fire e) in
        s2 = s1
        \/ exists i a tower m,
             nth_error (towers s1) i = Some tower /\ Tower.ammo tower = a
             /\ (0 < a)%Z
             /\ ammos s2 = writeAt i (a - 1)%Z (ammos s1)
             /\ missiles s2 = missiles s1 ++ [m]
             /\ Missile.towerId m = Tower.id tower)
  /\ (forall d,
        ammos (step M (run M before s) (Tick d)) = ammos (run M before s)).
Proof.
  intros Hpos _.
  destruct (run_ammos M before s Hpos) as [_ Hmid].
  unfold run at 1 3. rewrite fold_left_app. fold (run M before s).
  fold (run M after (run M before s)).
  destruct (run_ammos M after _ Hmid) as [Hle Hend].
  repeat split; auto.
  - intros e. cbn [step]. apply click_spends.
  - intros d. cbn [step]. apply tick_ammos.
Qed.

Lemma ammo_never_grows_witness :
  let s := startGame mounted in
  let before := [Fire (press 40 300); Tick quietDraws] in
  let after := [Fire (press 40 300)] in
  let s1 := run approxMath before s in
  let s2 := step approxMath s1 (Fire (press 40 300)) in
  Forall (Z.le 0) (ammos s)
  /\ Forall onStage (before ++ after)
  /\ Forall2 Z.le (ammos (run approxMath (before ++ after) s))
       (ammos (run approxMath before s))
  /\ Forall (Z.le 0) (ammos (run approxMath (before ++ after) s))
  /\ ammos s1 = [299; 300; 300; 300; 300]%Z
  /\ ammos s2 = [298; 300; 300; 300; 300]%Z
  /\ exists m, missiles s2 = missiles s1 ++ [m] /\ Missile.towerId m = 0%Z.
Proof.
  cbv zeta.
  assert (Hpos : Forall (Z.le 0) (ammos (startGame mounted))).
  { vm_compute. repeat constructor; discriminate. }
  assert (Hstage : Forall onStage
            ([Fire (press 40 300); Tick quietDraws] ++ [Fire (press 40 300)])).
  { assert (Hfire : onStage (Fire (press 40 300))).
    { intros canvas [= <-]; split; vm_compute; discriminate. }
    cbn [app]. constructor; [exact Hfire|]. constructor; [exact I|].
    constructor; [exact Hfire|]. constructor. }
  destruct (ammo_never_grows approxMath (startGame mounted)
              [Fire (press 40 300); Tick quietDraws] [Fire (press 40 300)]
              Hpos Hstage) as (Hle & Hnn & Hclick & _).
  specialize (Hclick (press 40 300)). cbv zeta in Hclick.
  assert (H1 : ammos (run approxMath [Fire (press 40 300); Tick quietDraws]
                        (startGame mounted))
               = [299; 300; 300; 300; 300]%Z) by (vm_compute; reflexivity).
  assert (H2 : ammos (step approxMath
                        (run approxMath [Fire (press 40 300); Tick quietDraws]
                           (startGame mounted))
                        (Fire (press 40 300)))
               = [298; 300; 300; 300; 300]%Z) by (vm_compute; reflexivity).
  split; [exact Hpos|]. split; [exact Hstage|]. split; [exact Hle|].
  split; [exact Hnn|]. split; [exact H1|]. split; [exact H2|].
  destruct Hclick as [Hsame|(i & a & tower & m & Hn & Ha & Hpos' & Hammo
                             & Hmis & Hid)].
  - exfalso. rewrite Hsame in H2. rewrite H1 in H2. discriminate H2.
  - exists m. split; [exact Hmis|]. rewrite Hid. clear Hmis Hid Hle Hnn.
    rewrite H1 in Hammo. rewrite H2 in Hammo. clear H1 H2.
    destruct i as [|i].
    + revert Hn. evaluate (towers (run approxMath
                                     [Fire (press 40 300); Tick quietDraws]
                                     (startGame mounted))).
      cbn [nth_error]. intros Hn. injection Hn as <-. reflexivity.
    + exfalso. destruct i as [|[|[|[|i]]]]; cbn [writeAt] in Hammo;
        discriminate Hammo.
Defined.

(** ** The formation timer *)

Lemma updatePlayerFormation_clock (s : State) :
  let s' := stateOf (updatePlayerFormation s) in
  (formationTimer s', currentFormation s')
  = formationClock (formationTimer s, currentFormation s).
Proof.
  unfold updatePlayerFormation, formationClock.
  cbn [formationTimer set_formationTimer currentFormation].
  destruct (400 <? formationTimer s + 1)%Z;
    cbn [formationTimer set_formationTimer currentFormation
         set_currentFormation towers];
    destruct (formationLoop _ 0 (towers s)) as [ts ok];
    destruct ok; reflexivity.
Qed.

Lemma update_clock (M : MathLib) (d : Draws) (s : State) :
  let s' := stateOf (update M d s) in
  (formationTimer s', currentFormation s')
  = formationClock (formationTimer s, currentFormation s).
Proof.
  cbv zeta. unfold update.
  set (s3 := updateExplosions M (updateMissiles M d (updateRockets M d s))).
  assert (H3 : (formationTimer s3, currentFormation s3)
               = (formationTimer s, currentFormation s)).
  { pose proof (updateExplosions_base M
                  (updateMissiles M d (updateRockets M d s))) as H3.
    pose proof (updateMissiles_base M d (updateRockets M d s)) as H2.
    pose proof (updateRockets_frame M d s) as H1. cbv zeta in H1.
    fold s3 in H3. unfold base in *. congruence. }
  pose proof (checkProgress_frame s3) as Hc. cbv zeta in Hc.
  set (s4 := checkProgress s3) in *.
  pose proof (updatePlayerFormation_clock s4) as Hf. cbv zeta in Hf.
  replace (formationTimer s4, currentFormation s4)
    with (formationTimer s, currentFormation s) in Hf by congruence.
  rewrite <- Hf.
  destruct (updatePlayerFormation s4) as [s5|s5]; cbn [andThen stateOf];
    [|reflexivity].
  pose proof (updateSky_ground M d s5) as Hg. unfold ground in Hg. congruence.
Qed.

Lemma formationClock_spec (t f : Z) :
  (0 <= t <= 400)%Z -> (0 <= f < 3)%Z ->
  formationClock (t, f)
  = (((t + 1) mod 401)%Z, ((f + (t + 1) / 401) mod 3)%Z).
Proof.
  intros Ht Hf. unfold formationClock.
  destruct (Z.ltb_spec 400 (t + 1)) as [H|H].
  - assert (t = 400%Z) as -> by lia. cbn [Z.add].
    rewrite Z.rem_mod_nonneg by lia. reflexivity.
  - rewrite Z.mod_small by lia. rewrite Z.div_small by lia.
    rewrite Z.add_0_r. rewrite Z.mod_small by lia. reflexivity.
Qed.

(** After [n] frames from timer [t] and index [f], the timer is
    [(t + n) mod 401] and the index [(f + (t + n) / 401) mod 3]. *)
Lemma frames_clock (M : MathLib) (ds : list Draws) :
  forall s,
  (0 <= formationTimer s <= 400)%Z -> (0 <= currentFormation s < 3)%Z ->
  let n := Z.of_nat (List.length ds) in
  formationTimer (frames M ds s) = ((formationTimer s + n) mod 401)%Z
  /\ currentFormation (frames M ds s)
     = ((currentFormation s + (formationTimer s + n) / 401) mod 3)%Z.
Proof.
  induction ds as [|d ds IH]; intros s Ht Hf; cbv zeta.
  - cbn [frames fold_left List.length Z.of_nat]. rewrite Z.add_0_r.
    rewrite Z.mod_small by lia. rewrite Z.div_small by lia.
    rewrite Z.add_0_r. rewrite Z.mod_small by lia. auto.
  - cbn [frames fold_left]. fold (frames M ds (stateOf (update M d s))).
    pose proof (update_clock M d s) as Hc. cbv zeta in Hc.
    rewrite (formationClock_spec Ht Hf) in Hc.
    pose proof (f_equal fst Hc) as Ht1. pose proof (f_equal snd Hc) as Hf1.
    cbn [fst snd] in Ht1, Hf1. clear Hc.
    set (s1 := stateOf (update M d s)) in *.
    assert (Ht1' : (0 <= formationTimer s1 <= 400)%Z).
    { rewrite Ht1. pose proof (Z.mod_pos_bound (formationTimer s + 1) 401).
      lia. }
    assert (Hf1' : (0 <= currentFormation s1 < 3)%Z).
    { rewrite Hf1. apply Z.mod_pos_bound. lia. }
    destruct (IH s1 Ht1' Hf1') as [IHt IHf]. rewrite IHt, IHf.
    rewrite Ht1, Hf1.
    replace (Z.of_nat (List.length (d :: ds)))
      with (1 + Z.of_nat (List.length ds))%Z
      by (cbn [List.length]; lia).
    set (n := Z.of_nat (List.length ds)).
    set (t := formationTimer s) in *. set (f := currentFormation s) in *.
    assert (Hn : (0 <= n)%Z) by (unfold n; lia).
    destruct (Z.eq_dec t 400) as [->|Hne].
    + change ((400 + 1) mod 401)%Z with 0%Z.
      change ((400 + 1) / 401)%Z with 1%Z.
      replace (400 + (1 + n))%Z with (n + 1 * 401)%Z by lia.
      rewrite Z.mod_add by lia. rewrite Z.div_add by lia.
      rewrite Z.add_0_l. split; [reflexivity|].
      rewrite Zplus_mod_idemp_l. f_equal. lia.
    + rewrite (Z.mod_small (t + 1)) by lia.
      rewrite (Z.div_small (t + 1)) by lia.
      rewrite Z.add_0_r. rewrite (Z.mod_small f) by lia.
      replace (t + 1 + n)%Z with (t + (1 + n))%Z by lia. auto.
Qed.

Lemma frames_snoc (M : MathLib) (ds : list Draws) (d : Draws) (s : State) :
  frames M (ds ++ [d]) s = stateOf (update M d (frames M ds s)).
Proof. unfold frames. now rewrite fold_left_app. Qed.

(** C7 (amended). From a reset formation timer, after [n] frames the
    timer is [n mod 401] and the formation index has advanced
    [n / 401] times round-robin: it is [(i + n / 401) mod 3].  The
    frame that follows leaves the index alone unless [n mod 401 = 400],
    where it moves it to [(j + 1) mod 3]: the index advances once every
    401 frames (line, V-shape, arc, line, ...). *)
Theorem formation_cycle (M : MathLib) (ds : list Draws) (d : Draws)
    (s : State) :
  formationTimer s = 0%Z -> (0 <= currentFormation s < 3)%Z ->
  let n := Z.of_nat (List.length ds) in
  let j := currentFormation (frames M ds s) in
  formationTimer (frames M ds s) = (n mod 401)%Z
  /\ j = ((currentFormation s + n / 401) mod 3)%Z
  /\ currentFormation (frames M (ds ++ [d]) s)
     = if (n mod 401 =? 400)%Z then ((j + 1) mod 3)%Z else j.
Proof.
  intros Ht Hf n j.
  assert (Ht' : (0 <= formationTimer s <= 400)%Z) by lia.
  destruct (frames_clock M ds s Ht' Hf) as [Hn Hj]. cbv zeta in Hn, Hj.
  rewrite Ht in Hn, Hj. rewrite Z.add_0_l in Hn, Hj. fold n in Hn, Hj.
  split; [exact Hn|]. split; [exact Hj|].
  rewrite frames_snoc.
  pose proof (update_clock M d (frames M ds s)) as Hc. cbv zeta in Hc.
  assert (Hbt : (0 <= formationTimer (frames M ds s) <= 400)%Z).
  { rewrite Hn. pose proof (Z.mod_pos_bound n 401). lia. }
  assert (Hbj : (0 <= j < 3)%Z).
  { unfold j. rewrite Hj. apply Z.mod_pos_bound. lia. }
  unfold formationClock in Hc. fold j in Hc. rewrite Hn in Hc.
  destruct (Z.eqb_spec (n mod 401) 400) as [E|E].
  - rewrite E in Hc. cbn [Z.add Z.ltb Z.compare] in Hc.
    change (400 <? 400 + 1)%Z with true in Hc.
    apply (f_equal snd) in Hc. cbn [snd] in Hc. rewrite Hc.
    apply Z.rem_mod_nonneg; lia.
  - destruct (Z.ltb_spec 400 (n mod 401 + 1)) as [H|H]; [lia|].
    apply (f_equal snd) in Hc. exact Hc.
Qed.

Lemma formation_cycle_witness :
  let s := startGame mounted in
  formationTimer s = 0%Z
  /\ (0 <= currentFormation s < 3)%Z
  /\ currentFormation (frames approxMath (repeat quietDraws 400) s) = 0%Z
  /\ currentFormation
       (frames approxMath (repeat quietDraws 400 ++ [quietDraws]) s) = 1%Z.
Proof.
  cbv zeta.
  assert (Hf : (0 <= currentFormation (startGame mounted) < 3)%Z)
    by (change (0 <= 0 < 3)%Z; lia).
  destruct (@formation_cycle approxMath (repeat quietDraws 400) quietDraws
              (startGame mounted) eq_refl Hf) as (_ & Hj & Hnext).
  cbv zeta in Hj, Hnext. rewrite repeat_length in Hj, Hnext.
  split; [reflexivity|]. split; [exact Hf|]. split; [exact Hj|].
  rewrite Hnext, Hj. reflexivity.
Defined.

(** ** Explosions *)

Lemma set_explosions_same (s : State) : set_explosions (explosions s) s = s.
Proof. now destruct s. Qed.

(** With no rocket and no plane, the explosion pass only rewrites the
    explosion store. *)
Lemma updateExplosions_alone (M : MathLib) :
  forall len k s, rockets s = [] -> planes s = [] ->
  forEachFrom explosions (explosionBody M) len k s
  = set_explosions
      (forEachFrom (fun l => l) (fun exp index l => snd (pulse exp index l))
         len k (explosions s)) s.
Proof.
  induction len as [|len IH]; intros k s Hr Hp; cbn [forEachFrom].
  - now rewrite set_explosions_same.
  - destruct (nth_error (explosions s) k) as [e|]; [|now apply IH].
    unfold explosionBody.
    destruct (pulse e k (explosions s)) as [e' exps]. cbn [snd].
    rewrite (forEach_nil rockets (blastRocket M e')) by exact Hr.
    rewrite (forEach_nil planes (blastPlane M e')) by exact Hp.
    rewrite IH by assumption. reflexivity.
Qed.

Lemma updateExplosions_pulseStore (M : MathLib) (s : State) :
  rockets s = [] -> planes s = [] ->
  updateExplosions M s = set_explosions (pulseStore (explosions s)) s.
Proof.
  intros Hr Hp. unfold updateExplosions, pulseStore, forEach.
  now apply updateExplosions_alone.
Qed.

Lemma meteorBody_air (m : Meteor.t) (k : nat) (s : State) :
  (rockets (meteorBody m k s), planes (meteorBody m k s))
  = (rockets s, planes s).
Proof. unfold meteorBody. split_ifs; reflexivity. Qed.

Lemma updateSky_quiet (M : MathLib) (s : State) :
  rockets s = [] -> planes s = [] -> level s = 1%Z ->
  rockets (stateOf (updateSky M quietDraws s)) = []
  /\ planes (stateOf (updateSky M quietDraws s)) = [].
Proof.
  intros Hr Hp Hl. unfold updateSky.
  change (spawnMeteor M quietDraws s) with s.
  set (s1 := forEach meteors meteorBody s).
  assert (H1 : (rockets s1, planes s1) = (rockets s, planes s)).
  { apply (forEach_frame meteors meteorBody
             (fun s => (rockets s, planes s))). apply meteorBody_air. }
  assert (H1g : ground s1 = ground s).
  { apply (forEach_frame meteors meteorBody ground meteorBody_ground). }
  assert (Hr1 : rockets s1 = []) by congruence.
  assert (Hp1 : planes s1 = []) by congruence.
  assert (Hl1 : level s1 = 1%Z) by (unfold ground in H1g; congruence).
  rewrite (forEach_nil planes (planeBody M)) by exact Hp1.
  assert (H2 : spawnPlanes quietDraws s1 = s1).
  { unfold spawnPlanes. rewrite Hp1, Hl1. reflexivity. }
  rewrite H2.
  assert (H3 : spawnRocket M quietDraws s1 = Done s1).
  { unfold spawnRocket. rewrite Hl1. reflexivity. }
  rewrite H3. cbn [stateOf]. auto.
Qed.

(** A quiet frame of a calm state leaves it calm and pulses the
    explosion store. *)
Lemma quiet_frame (M : MathLib) (s : State) :
  calm s ->
  calm (stateOf (gameLoop M quietDraws s))
  /\ explosions (stateOf (gameLoop M quietDraws s))
     = pulseStore (explosions s).
Proof.
  intros (Hst & Hl & Hsc & Hr & Hm & Hp & Hw).
  rewrite (@gameLoop_playing M quietDraws s Hst). unfold update.
  unfold updateRockets, updateMissiles.
  rewrite (forEach_nil rockets (rocketBody M quietDraws)) by exact Hr.
  rewrite (forEach_nil missiles (missileBody M quietDraws)) by exact Hm.
  rewrite (@updateExplosions_pulseStore M s Hr Hp).
  set (s3 := set_explosions (pulseStore (explosions s)) s).
  assert (H4 : checkProgress s3 = s3).
  { unfold checkProgress.
    change (level s3) with (level s). change (scoreRef s3) with (scoreRef s).
    rewrite Hl. destruct (Z.leb_spec (1 * 500) (scoreRef s)); [lia|].
    change (towers s3) with (towers s). now rewrite Hw. }
  rewrite H4.
  pose proof (updatePlayerFormation_frame s3) as Hf. cbv zeta in Hf.
  destruct (updatePlayerFormation s3) as [s5|s5]; cbn [andThen stateOf] in *.
  - assert (Hr5 : rockets s5 = []) by (change (rockets s3) with (rockets s) in Hf; congruence).
    assert (Hp5 : planes s5 = []) by (change (planes s3) with (planes s) in Hf; congruence).
    assert (Hl5 : level s5 = 1%Z) by (change (level s3) with (level s) in Hf; congruence).
    destruct (@updateSky_quiet M s5 Hr5 Hp5 Hl5) as [Hr6 Hp6].
    pose proof (updateSky_ground M quietDraws s5) as Hg.
    set (s6 := stateOf (updateSky M quietDraws s5)) in *.
    unfold ground in Hg. unfold calm.
    assert (Hw6 : forallb Tower.destroyed (towers s6) = false).
    { rewrite forallb_map. replace (towers s6) with (towers s5) by congruence.
      fold (wrecks s5). replace (wrecks s5) with (wrecks s3) by congruence.
      unfold wrecks. rewrite <- forallb_map. exact Hw. }
    assert (E1 : status s6 = status s3) by congruence.
    assert (E2 : level s6 = level s3) by congruence.
    assert (E3 : scoreRef s6 = scoreRef s3) by congruence.
    assert (E4 : missiles s6 = missiles s3) by congruence.
    assert (E5 : explosions s6 = explosions s3) by congruence.
    split; [|exact E5].
    unfold calm. rewrite E1, E2, E3, E4, Hr6, Hp6, Hw6.
    split; [exact Hst|]. split; [exact Hl|]. split; [exact Hsc|].
    split; [reflexivity|]. split; [exact Hm|]. split; reflexivity.
  - assert (Hw5 : forallb Tower.destroyed (towers s5) = false).
    { rewrite forallb_map. fold (wrecks s5).
      replace (wrecks s5) with (wrecks s3) by congruence.
      unfold wrecks. rewrite <- forallb_map. exact Hw. }
    assert (E1 : status s5 = status s3) by congruence.
    assert (E2 : level s5 = level s3) by congruence.
    assert (E3 : scoreRef s5 = scoreRef s3) by congruence.
    assert (E4 : rockets s5 = rockets s3) by congruence.
    assert (E5 : missiles s5 = missiles s3) by congruence.
    assert (E6 : planes s5 = planes s3) by congruence.
    assert (E7 : explosions s5 = explosions s3) by congruence.
    split; [|exact E7].
    unfold calm. rewrite E1, E2, E3, E4, E5, E6, Hw5.
    split; [exact Hst|]. split; [exact Hl|]. split; [exact Hsc|].
    split; [exact Hr|]. split; [exact Hm|]. split; [exact Hp|reflexivity].
Qed.

Lemma quietFrames_pulse (M : MathLib) (n : nat) :
  forall s, calm s ->
  calm (quietFrames M n s)
  /\ explosions (quietFrames M n s) = Nat.iter n pulseStore (explosions s).
Proof.
  induction n as [|n IH]; intros s Hcalm.
  - split; [exact Hcalm | reflexivity].
  - unfold quietFrames. cbn [repeat run fold_left step].
    fold (run M (repeat (Tick quietDraws) n)
            (stateOf (gameLoop M quietDraws s))).
    fold (quietFrames M n (stateOf (gameLoop M quietDraws s))).
    destruct (@quiet_frame M s Hcalm) as [Hcalm' He].
    destruct (IH _ Hcalm') as [Hcalm'' He'].
    split; [exact Hcalm''|]. rewrite He', He.
    symmetry. apply Nat.iter_succ_r.
Qed.

Lemma calm_oneBlast : calm oneBlast.
Proof. repeat split; vm_compute; reflexivity. Qed.

Lemma calm_twoBlasts : calm twoBlasts.
Proof. repeat split; vm_compute; reflexivity. Qed.

Lemma onSchedule_all : forallb onSchedule (seq 0 94) = true.
Proof. vm_compute. reflexivity. Qed.

(** An explosion that is alone in the store, through quiet frames:
    radius [1.5 n] and growing after [n < 47] frames, shrinking from
    70.5 at frame 47 (the first with radius >= 70), radius
    [70.5 - 1.5 (n - 47)] until frame 93, and removed at frame 94 (the
    first with radius <= 0): 94 frames, which is 2 x 70 / 1.5 rounded
    up. *)
Lemma lone_blast_lifecycle (M : MathLib) :
  (forall n, (n < 47)%nat ->
     exists exp, explosions (quietFrames M n oneBlast) = [exp]
       /\ Explosion.radius exp == 1.5 * ofNat n
       /\ Explosion.growing exp = true)
  /\ (forall n, (47 <= n < 94)%nat ->
        exists exp, explosions (quietFrames M n oneBlast) = [exp]
          /\ Explosion.radius exp == 70.5 - 1.5 * (ofNat n - 47)
          /\ Explosion.growing exp = false)
  /\ explosions (quietFrames M 94 oneBlast) = []
  /\ inject_Z (Qceiling (2 * (70 / 1.5))) == 94.
Proof.
  assert (Hrun : forall n, explosions (quietFrames M n oneBlast)
                           = Nat.iter n pulseStore [fresh]).
  { intros n. now destruct (quietFrames_pulse M n calm_oneBlast). }
  assert (Hsched : forall n, (n < 94)%nat -> onSchedule n = true).
  { intros n Hn. pose proof onSchedule_all as Hall.
    rewrite forallb_forall in Hall. apply Hall. apply in_seq. lia. }
  split; [|split; [|split]].
  - intros n Hn. rewrite Hrun.
    assert (Hs : onSchedule n = true) by (apply Hsched; lia).
    unfold onSchedule in Hs.
    destruct (Nat.iter n pulseStore [fresh]) as [|e [|? ?]];
      try discriminate.
    destruct (Nat.ltb_spec n 47); [|lia].
    apply andb_prop in Hs. destruct Hs as [Hr Hg].
    exists e. split; [reflexivity|]. split; [|exact Hg].
    now apply Qeq_bool_iff.
  - intros n Hn. rewrite Hrun.
    assert (Hs : onSchedule n = true) by (apply Hsched; lia).
    unfold onSchedule in Hs.
    destruct (Nat.iter n pulseStore [fresh]) as [|e [|? ?]];
      try discriminate.
    destruct (Nat.ltb_spec n 47); [lia|].
    apply andb_prop in Hs. destruct Hs as [Hr Hg].
    exists e. split; [reflexivity|]. split.
    + now apply Qeq_bool_iff.
    + now destruct (Explosion.growing e).
  - rewrite Hrun. vm_compute. reflexivity.
  - vm_compute. reflexivity.
Qed.

(** C6 fails for an explosion that follows, in the store, one that
    expires: the splice of the expiring one makes the loop step over
    it.  [fresh] (radius 0, growing) is not pulsed in the first frame,
    is still in the store after 94 frames, and is removed at the
    95th. *)
Theorem blast_skipped_after_expiring_blast (M : MathLib) :
  explosions twoBlasts = [fading; fresh]
  /\ Explosion.radius fresh == 0 /\ Explosion.growing fresh = true
  /\ Explosion.maxRadius fresh == 70
  /\ explosions (quietFrames M 1 twoBlasts) = [fresh]
  /\ (exists exp, explosions (quietFrames M 94 twoBlasts) = [exp]
        /\ Explosion.radius exp == 1.5)
  /\ explosions (quietFrames M 95 twoBlasts) = [].
Proof.
  assert (Hrun : forall n, explosions (quietFrames M n twoBlasts)
                           = Nat.iter n pulseStore [fading; fresh]).
  { intros n. now destruct (quietFrames_pulse M n calm_twoBlasts). }
  split; [reflexivity|]. split; [reflexivity|]. split; [reflexivity|].
  split; [reflexivity|]. rewrite !Hrun.
  split; [reflexivity|]. split.
  - eexists. split; [vm_compute; reflexivity|]. vm_compute. reflexivity.
  - vm_compute. reflexivity.
Qed.

(** ** The formation timer, through the frame callback *)

Lemma calm_startGame : calm (startGame mounted).
Proof. repeat split; vm_compute; reflexivity. Qed.

(** From a calm state, quiet frames of [gameLoop] are runs of
    [update]. *)
Lemma quietFrames_frames (M : MathLib) (n : nat) :
  forall s, calm s -> quietFrames M n s = frames M (repeat quietDraws n) s.
Proof.
  induction n as [|n IH]; intros s Hcalm; [reflexivity|].
  unfold quietFrames, frames. cbn [repeat run fold_left step].
  destruct (@quiet_frame M s Hcalm) as [Hcalm' _].
  destruct Hcalm as [Hst _]. rewrite (@gameLoop_playing M quietDraws s Hst) in *.
  apply (IH _ Hcalm').
Qed.

(** C7 as stated fails: 400 frames after a restart the formation index
    has not moved, at the 401st it moves, and 800 frames after the
    restart it has moved once, not twice. *)
Lemma formation_cycle_counterexample :
  let s := startGame mounted in
  formationTimer s = 0%Z /\ currentFormation s = 0%Z
  /\ currentFormation (quietFrames approxMath 400 s) = 0%Z
  /\ currentFormation (quietFrames approxMath 401 s) = 1%Z
  /\ currentFormation (quietFrames approxMath 800 s) = 1%Z.
Proof.
  cbv zeta.
  assert (Ht : (0 <= formationTimer (startGame mounted) <= 400)%Z)
    by (change (0 <= 0 <= 400)%Z; lia).
  assert (Hf : (0 <= currentFormation (startGame mounted) < 3)%Z)
    by (change (0 <= 0 < 3)%Z; lia).
  split; [reflexivity|]. split; [reflexivity|].
  rewrite (quietFrames_frames approxMath 400 calm_startGame).
  rewrite (quietFrames_frames approxMath 401 calm_startGame).
  rewrite (quietFrames_frames approxMath 800 calm_startGame).
  pose proof (frames_clock approxMath (repeat quietDraws 400)
                (startGame mounted) Ht Hf) as [_ H400].
  pose proof (frames_clock approxMath (repeat quietDraws 401)
                (startGame mounted) Ht Hf) as [_ H401].
  pose proof (frames_clock approxMath (repeat quietDraws 800)
                (startGame mounted) Ht Hf) as [_ H800].
  cbv zeta in *. rewrite repeat_length in *.
  rewrite H400, H401, H800. repeat split; reflexivity.
Qed.

(** ** Rockets *)

(** A loop over a two-element array whose first call splices its own
    element never visits the second element. *)
Lemma forEach_steps_over {St A : Type} (arr : St -> list A)
    (body : A -> nat -> St -> St) (s : St) (a b b' : A) :
  arr s = [a; b] -> arr (body a 0%nat s) = [b'] ->
  forEach arr body s = body a 0%nat s.
Proof.
  intros Hs Hb. unfold forEach. rewrite Hs. cbn [List.length forEachFrom].
  rewrite Hs. cbn [nth_error]. now rewrite Hb.
Qed.

(** The rocket pass on two rockets of which the first lands: the second
    is neither moved nor examined, whatever its position. *)
Lemma updateRockets_steps_over (M : MathLib) (d : Draws) (s : State)
    (r1 r2 : Rocket.t) :
  rockets s = [r1; r2] ->
  Qle_bool (Point.y (Rocket.target r1))
    (Point.y (Rocket.current (moveRocket M r1))) = true ->
  let c := Rocket.current (moveRocket M r1) in
  rockets (updateRockets M d s) = [r2]
  /\ explosions (updateRockets M d s)
     = explosions s
       ++ [newExplosion (rocketBlastId d 0) (Point.x c) (Point.y c)]
  /\ cities (updateRockets M d s) = map (hitCity c) (cities s)
  /\ towers (updateRockets M d s) = map (hitTower c) (towers s).
Proof.
  intros Hs Hhit c. unfold updateRockets.
  assert (Hbody : rocketBody M d r1 0 s
                  = set_rockets [r2]
                      (set_towers (map (hitTower c) (towers s))
                         (set_cities (map (hitCity c) (cities s))
                            (set_explosions
                               (explosions s ++
                                [newExplosion (rocketBlastId d 0)
                                   (Point.x c) (Point.y c)]) s)))).
  { unfold rocketBody.
    change (Rocket.target (moveRocket M r1)) with (Rocket.target r1).
    rewrite Hhit.
    cbn [rockets set_rockets set_explosions set_cities set_towers
         explosions cities towers].
    rewrite Hs. reflexivity. }
  rewrite (forEach_steps_over rockets (rocketBody M d) s (b' := r2) Hs);
    rewrite Hbody; auto.
Qed.

Lemma splice1_writeAt {A : Type} (i : nat) (a : A) (l : list A) :
  splice1 i (writeAt i a l) = splice1 i l.
Proof.
  revert i; induction l as [|h t IH]; intros [|i]; simpl; auto.
  now rewrite IH.
Qed.

Lemma Forall_splice1 {A : Type} (P : A -> Prop) (i : nat) (l : list A) :
  Forall P l -> Forall P (splice1 i l).
Proof.
  intros H; revert i; induction H as [|h t Hh Ht IH]; intros [|i]; simpl;
    auto.
Qed.

Lemma Forall_writeAt {A : Type} (P : A -> Prop) (i : nat) (a : A)
    (l : list A) :
  P a -> Forall P l -> Forall P (writeAt i a l).
Proof.
  intros Ha H; revert i; induction H as [|h t Hh Ht IH]; intros [|i]; simpl;
    auto.
Qed.

(** If every rocket is aloft when the rocket pass starts, every rocket
    left in the store is aloft when it ends: a rocket that the pass
    moves down to its target's height is removed by it. *)
Lemma updateRockets_clears (M : MathLib) (d : Draws) (s : State) :
  Forall aloft (rockets s) -> Forall aloft (rockets (updateRockets M d s)).
Proof.
  apply (forEach_keeps rockets (rocketBody M d)
           (fun s => Forall aloft (rockets s))).
  clear s. intros r k s H. unfold rocketBody.
  change (Rocket.target (moveRocket M r)) with (Rocket.target r).
  destruct (Qle_bool (Point.y (Rocket.target r))
              (Point.y (Rocket.current (moveRocket M r)))) eqn:Hhit;
    cbn [rockets set_rockets set_explosions set_cities set_towers].
  - rewrite splice1_writeAt. now apply Forall_splice1.
  - apply Forall_writeAt; [|exact H]. unfold aloft.
    change (Rocket.target (moveRocket M r)) with (Rocket.target r).
    apply Qnot_le_lt. intros Hle. apply Qle_bool_iff in Hle. congruence.
Qed.

(** ** Missiles *)

(** The laser loop on two rockets of which the first is in reach: the
    second is not examined, whatever its distance to the beam. *)
Lemma laser_steps_over (M : MathLib) (m : Missile.t) (s : State)
    (r1 r2 : Rocket.t) :
  rockets s = [r1; r2] ->
  Qltb (distToSegment M (Rocket.current r1) (Missile.start m)
          (Missile.current m)) 8 = true ->
  let s' := forEach rockets (laserRocket M m) s in
  rockets s' = [r2] /\ scoreRef s' = (scoreRef s + SCORE_PER_ROCKET)%Z.
Proof.
  intros Hs Hin. cbv zeta.
  assert (Hbody : laserRocket M m r1 0 s
                  = addScore SCORE_PER_ROCKET (set_rockets [r2] s)).
  { unfold laserRocket. rewrite Hin, Hs. reflexivity. }
  rewrite (forEach_steps_over rockets (laserRocket M m) s (b' := r2) Hs);
    rewrite Hbody; auto.
Qed.

(** C4 fails for a rocket that follows, in the store, one that the same
    beam destroys: both rockets of [twoOnBeam] are within 8 of the beam;
    the frame removes the first and adds 20 to the score, and leaves the
    second in the store, still within 8 of the beam. *)
Theorem second_rocket_on_beam_skipped :
  let s' := stateOf (gameLoop approxMath quietDraws twoOnBeam) in
  status twoOnBeam = PLAYING
  /\ map Rocket.id (rockets twoOnBeam) = ["r1"; "r2"]%string
  /\ scoreRef twoOnBeam = 0%Z
  /\ scoreRef s' = 20%Z
  /\ explosions s' = []
  /\ exists r m,
       rockets s' = [r] /\ missiles s' = [m]
       /\ Rocket.id r = "r2"%string
       /\ Qltb (distToSegment approxMath (Rocket.current r)
                  (Missile.start m) (Missile.current m)) 8 = true.
Proof.
  cbv zeta.
  evaluate (stateOf (gameLoop approxMath quietDraws twoOnBeam)).
  split; [reflexivity|]. split; [reflexivity|]. split; [reflexivity|].
  split; [reflexivity|]. split; [reflexivity|].
  eexists. eexists.
  split; [reflexivity|]. split; [reflexivity|].
  split; [reflexivity | vm_compute; reflexivity].
Qed.

(** * Further properties of the simulation *)

(** ** After the game has left PLAYING *)

Lemma step_frozen (M : MathLib) (s : State) (c : Command) :
  status s <> PLAYING -> step M s c = s.
Proof.
  intros H. destruct c as [d|e]; cbn [step].
  - unfold gameLoop. destruct (status s); try reflexivity. now elim H.
  - unfold handleCanvasClick. destruct (status s); try reflexivity.
    now elim H.
Qed.

(** X1. Once the status is not PLAYING (START, WON, LOST or LEVEL_UP),
    no sequence of frames and clicks changes anything in the state:
    only [startGame] or [nextLevel] gets the game going again. *)
Theorem frozen_outside_playing (M : MathLib) (cs : list Command) (s : State) :
  status s <> PLAYING -> run M cs s = s.
Proof.
  intros H. induction cs as [|c cs IH]; [reflexivity|].
  cbn [run fold_left]. rewrite (@step_frozen M s c H). exact IH.
Qed.

Lemma frozen_outside_playing_witness :
  let s := set_status LOST twoOnBeam in
  status s <> PLAYING
  /\ run approxMath [Tick quietDraws; Fire (press 40 300); Tick quietDraws] s
     = s.
Proof.
  cbv zeta. split; [discriminate|].
  apply frozen_outside_playing. discriminate.
Defined.

(** ** distToSegment *)

(** X2. For a segment whose two ends coincide, [distToSegment] is the
    distance to that point, [sqrt ((p.x - a.x)^2 + (p.y - a.y)^2)]: the
    division by the squared length is not reached. *)
Theorem distToSegment_degenerate (M : MathLib) (p v w : Point.t) :
  Point.x v == Point.x w -> Point.y v == Point.y w ->
  distToSegment M p v w
  = sqrt M (pow2 (Point.x p - Point.x v) + pow2 (Point.y p - Point.y v)).
Proof.
  intros Hx Hy. unfold distToSegment.
  assert (H : pow2 (Point.x v - Point.x w) + pow2 (Point.y v - Point.y w)
              == 0).
  { unfold pow2. rewrite Hx, Hy. simpl Qpower. ring. }
  now rewrite (proj2 (Qeq_bool_iff _ _) H).
Qed.

Lemma distToSegment_degenerate_witness :
  distToSegment approxMath (Point.mk 3 4) (Point.mk 0 0) (Point.mk 0 0)
  = sqrt approxMath (pow2 (3 - 0) + pow2 (4 - 0))
  /\ sqrt approxMath (pow2 (3 - 0) + pow2 (4 - 0)) == 5.
Proof.
  split.
  - apply distToSegment_degenerate; reflexivity.
  - vm_compute. reflexivity.
Defined.

(** ** The edges of handleCanvasClick *)

(** X3. In PLAYING, a click while the canvas is not mounted is a no-op.
    The handler throws exactly when it is in PLAYING with a mounted
    canvas and a touch event without touches, and then the state is as
    before the call. *)
Theorem click_edges (M : MathLib) (e : Click) (s s' : State) :
  (canvasRef e = None -> handleCanvasClick M e s = Done s)
  /\ (handleCanvasClick M e s = TypeError s'
      <-> status s = PLAYING /\ canvasRef e <> None
          /\ event e = TouchEvent [] /\ s' = s).
Proof.
  unfold handleCanvasClick. split.
  - intros ->. now destruct (negb _).
  - destruct (status s) eqn:Hst; cbn [GameStatus_eqb negb];
      try (split; [discriminate | intros (H & _); discriminate]).
    destruct (canvasRef e) as [canvas|].
    + destruct (event e) as [x y|[|t ts]]; cbn [clientPoint nth_error].
      * destruct (toWorld canvas (x, y)).
        split; [discriminate | intros (_ & _ & H & _); discriminate].
      * split.
        -- intros [= <-]. repeat split; auto. discriminate.
        -- intros (_ & _ & _ & ->). reflexivity.
      * destruct (toWorld canvas t).
        split; [discriminate | intros (_ & _ & H & _); discriminate].
    + split; [discriminate | intros (_ & H & _); now elim H].
Qed.

(** ** spawnRocket *)

Lemma indexed_from_In {A : Type} (l : list A) :
  forall a i x, In (i, x) (combine (seq a (List.length l)) l) ->
  (a <= i)%nat /\ nth_error l (i - a) = Some x.
Proof.
  induction l as [|h t IH]; intros a i x Hin; cbn in Hin; [easy|].
  destruct Hin as [[= <- <-]|Hin].
  - rewrite Nat.sub_diag. auto.
  - destruct (IH (S a) i x Hin) as [Hle Hn]. split; [lia|].
    replace (i - a)%nat with (S (i - S a)) by lia. exact Hn.
Qed.

Lemma indexed_In {A : Type} (l : list A) (i : nat) (x : A) :
  In (i, x) (indexed l) -> nth_error l i = Some x.
Proof.
  intros H. destruct (indexed_from_In l 0 i x H) as [_ Hn].
  now rewrite Nat.sub_0_r in Hn.
Qed.

Lemma item_In {A : Type} (l : list A) (i : Z) (x : A) :
  item l i = Some x -> In x l.
Proof.
  unfold item. destruct (i <? 0)%Z; [discriminate|]. apply nth_error_In.
Qed.

(** An index drawn as [Math.floor(Math.random() * arr.length)] falls in
    a non-empty array. *)
Lemma item_floor {A : Type} (l : list A) (r : Q) :
  l <> [] -> unit r ->
  exists x, item l (Qfloor (r * ofNat (List.length l))) = Some x.
Proof.
  intros Hne [H0 H1].
  assert (Hn : (0 < Z.of_nat (List.length l))%Z).
  { destruct l; [now elim Hne | cbn [List.length]; lia]. }
  set (n := Z.of_nat (List.length l)) in *.
  assert (HnQ : 0 < inject_Z n).
  { change (inject_Z 0 < inject_Z n). rewrite <- Zlt_Qlt. exact Hn. }
  set (z := Qfloor (r * ofNat (List.length l))).
  assert (Hz0 : (0 <= z)%Z).
  { change 0%Z with (Qfloor 0). apply Qfloor_resp_le.
    apply Qmult_le_0_compat; [exact H0|]. unfold ofNat. fold n.
    now apply Qlt_le_weak. }
  assert (Hz1 : (z < n)%Z).
  { rewrite Zlt_Qlt. apply Qle_lt_trans with (r * inject_Z n).
    - apply Qfloor_le.
    - rewrite <- (Qmult_1_l (inject_Z n)) at 2.
      apply Qmult_lt_compat_r; assumption. }
  unfold item. fold z. destruct (Z.ltb_spec z 0); [lia|].
  destruct (nth_error l (Z.to_nat z)) as [x|] eqn:Hx; [now exists x|].
  apply nth_error_None in Hx. unfold n in Hz1. lia.
Qed.

Lemma filter_indexed_none {A : Type} (f : A -> bool) (l : list A) :
  (forall x, In x l -> f x = false) ->
  filter (fun ip => f (snd ip)) (indexed l) = [].
Proof.
  intros H. unfold indexed. generalize 0%nat.
  induction l as [|h t IH]; intros a; cbn; [reflexivity|].
  rewrite (H h (or_introl eq_refl)). apply IH.
  intros x Hx. apply H. now right.
Qed.

(** X4. With no plane, or only destroyed planes, [spawnRocket] returns
    without creating a rocket or changing anything, whatever the
    draws. *)
Theorem spawnRocket_needs_plane (M : MathLib) (d : Draws) (s : State) :
  (forall p, In p (planes s) -> Plane.destroyed p = true) ->
  spawnRocket M d s = Done s.
Proof.
  intros H. unfold spawnRocket.
  destruct (Qltb _ (rocketRoll d)); [reflexivity|].
  rewrite (filter_indexed_none active (planes s)); [reflexivity|].
  intros p Hp. unfold active. now rewrite (H p Hp).
Qed.

Lemma spawnRocket_needs_plane_witness :
  spawnRocket approxMath eagerDraws (startGame mounted)
  = Done (startGame mounted).
Proof.
  apply spawnRocket_needs_plane. intros p [].
Defined.

Lemma fireCooldown_min (s : State) : 300 <= fireCooldown s.
Proof. unfold fireCooldown. apply Q.le_max_l. Qed.

(** What [spawnRocket] does with draws in [0, 1). *)
Lemma spawnRocket_report (M : MathLib) (d : Draws) (s : State) :
  fairPicks d ->
  exists s',
    spawnRocket M d s = Done s'
    /\ (rockets s' = rockets s
        \/ exists i plane target rocket,
             nth_error (planes s) i = Some plane
             /\ Plane.destroyed plane = false
             /\ fireCooldown s <= now d - Plane.lastFired plane
             /\ planes s'
                = writeAt i (Plane.set_lastFired (now d) plane) (planes s)
             /\ In target (standing s)
             /\ rockets s' = rockets s ++ [rocket]
             /\ Rocket.start rocket = Point.mk (Plane.x plane) (Plane.y plane)
             /\ Rocket.current rocket
                = Point.mk (Plane.x plane) (Plane.y plane)
             /\ Point.y (Rocket.target rocket) = Point.y target
             /\ Qabs (Point.x (Rocket.target rocket) - Point.x target) <= 10).
Proof.
  intros (Hplane & Htarget & Hjit & _). unfold spawnRocket.
  destruct (Qltb _ (rocketRoll d)); [exists s; auto|].
  set (activePlanes := filter (fun ip => active (snd ip)) (indexed (planes s))).
  destruct (Nat.eqb_spec (List.length activePlanes) 0) as [|Hlen];
    [exists s; auto|].
  assert (Hne : activePlanes <> []) by (intros E; now rewrite E in Hlen).
  destruct (@item_floor _ activePlanes (rocketPlanePick d) Hne Hplane)
    as [[i plane] Hitem].
  rewrite Hitem.
  assert (Hin : In (i, plane) activePlanes) by (eapply item_In; eauto).
  apply filter_In in Hin. destruct Hin as [Hidx Hact].
  apply indexed_In in Hidx. cbn [snd] in Hact. unfold active in Hact.
  apply negb_true_iff in Hact.
  fold (fireCooldown s).
  destruct (Qltb (now d - Plane.lastFired plane) (fireCooldown s)) eqn:Hcool;
    [exists s; auto|].
  apply Qltb_false in Hcool.
  set (s1 := set_planes
               (writeAt i (Plane.set_lastFired (now d) plane) (planes s)) s).
  change (map (fun c => Point.mk (City.x c) (City.y c))
            (filter (fun c => negb (City.destroyed c)) (cities s1))
          ++ map (fun t => Point.mk (Tower.x t) (Tower.y t))
               (filter (fun t => negb (Tower.destroyed t)) (towers s1)))
    with (standing s).
  destruct (Nat.eqb_spec (List.length (standing s)) 0) as [|Hlen'];
    [exists s1; auto|].
  assert (Hne' : standing s <> []) by (intros E; now rewrite E in Hlen').
  destruct (@item_floor _ (standing s) (rocketTargetPick d) Hne' Htarget)
    as [target Htar].
  rewrite Htar. eexists. split; [reflexivity|]. right.
  exists i, plane, target. eexists.
  cbn [rockets planes set_rockets set_planes s1].
  repeat (split; [first [eassumption | reflexivity
                        | eapply item_In; eassumption]|]).
  cbn [Rocket.target Point.x Point.y]. destruct Hjit as [Hj0 Hj1].
  apply Qabs_Qle_condition. split; lra.
Qed.

(** X5. With draws in [0, 1), [spawnRocket] never throws, and it either
    creates no rocket or launches exactly one: from the position of a
    plane of the store that is not destroyed and whose last shot is at
    least the cooldown (itself at least 300) before [now]; that plane's
    [lastFired] becomes [now]; the rocket aims at the height of a
    standing city or tower and within 10 units of it horizontally. *)
Theorem spawnRocket_launch (M : MathLib) (d : Draws) (s : State) :
  fairPicks d ->
  300 <= fireCooldown s
  /\ exists s',
    spawnRocket M d s = Done s'
    /\ (rockets s' = rockets s
        \/ exists i plane target rocket,
             nth_error (planes s) i = Some plane
             /\ Plane.destroyed plane = false
             /\ fireCooldown s <= now d - Plane.lastFired plane
             /\ planes s'
                = writeAt i (Plane.set_lastFired (now d) plane) (planes s)
             /\ In target (standing s)
             /\ rockets s' = rockets s ++ [rocket]
             /\ Rocket.start rocket = Point.mk (Plane.x plane) (Plane.y plane)
             /\ Rocket.current rocket
                = Point.mk (Plane.x plane) (Plane.y plane)
             /\ Point.y (Rocket.target rocket) = Point.y target
             /\ Qabs (Point.x (Rocket.target rocket) - Point.x target) <= 10).
Proof.
  intros H. split; [apply fireCooldown_min | now apply spawnRocket_report].
Qed.

Lemma spawnRocket_launch_witness :
  fairPicks eagerDraws
  /\ exists s' rocket,
       spawnRocket approxMath eagerDraws underAttack = Done s'
       /\ rockets s' = [rocket]
       /\ Rocket.start rocket = Point.mk 300 120.
Proof.
  assert (Hfair : fairPicks eagerDraws).
  { repeat split; vm_compute; discriminate. }
  split; [exact Hfair|].
  destruct (@spawnRocket_launch approxMath eagerDraws underAttack Hfair)
    as (_ & s' & Hrun & _).
  revert Hrun.
  evaluate (spawnRocket approxMath eagerDraws underAttack).
  intros [= <-]. eexists. eexists.
  split; [reflexivity|]. split; reflexivity.
Defined.

(** ** Cities and towers through frames and clicks *)

Lemma Forall2_same {A : Type} (R : A -> A -> Prop) (l : list A) :
  (forall a, R a a) -> Forall2 R l l.
Proof. intros H. induction l; constructor; auto. Qed.

Lemma Forall2_chain {A : Type} (R : A -> A -> Prop) (a b c : list A) :
  (forall x y z, R x y -> R y z -> R x z) ->
  Forall2 R a b -> Forall2 R b c -> Forall2 R a c.
Proof.
  intros Ht Hab. revert c. induction Hab; intros c Hbc; inversion Hbc; subst;
    constructor; eauto.
Qed.

Lemma Forall2_map_right {A : Type} (R : A -> A -> Prop) (f : A -> A)
    (l : list A) :
  (forall a, R a (f a)) -> Forall2 R l (map f l).
Proof. intros H. induction l; cbn; constructor; auto. Qed.

Lemma Forall2_writeAt_right {A : Type} (R : A -> A -> Prop) (i : nat)
    (a b : A) (l : list A) :
  (forall x, R x x) -> nth_error l i = Some a -> R a b ->
  Forall2 R l (writeAt i b l).
Proof.
  intros Hr. revert i. induction l as [|h t IH]; intros [|i] Hn Hab;
    cbn in *; try discriminate.
  - injection Hn as ->. constructor; [exact Hab | now apply Forall2_same].
  - constructor; auto.
Qed.

Lemma Forall2_Forall {A : Type} (P : A -> Prop) (l l' : list A) :
  Forall2 (fun old new => P old -> P new) l l' -> Forall P l -> Forall P l'.
Proof.
  intros H. induction H; intros Hl; inversion Hl; subst; constructor; auto.
Qed.

Lemma updatePlayerFormation_towers (s : State) :
  exists f, towers (stateOf (updatePlayerFormation s))
            = fst (formationLoop f 0 (towers s)).
Proof.
  unfold updatePlayerFormation.
  cbn [formationTimer set_formationTimer].
  destruct (400 <? formationTimer s + 1)%Z;
    match goal with
    | |- context [formationLoop ?f 0 ?ts] =>
        exists f; change ts with (towers s);
        destruct (formationLoop f 0 (towers s)) as [ts' ok]
    end;
    destruct ok; reflexivity.
Qed.

Section TowerRelation.

Variable M : MathLib.
Variable R : Tower.t -> Tower.t -> Prop.
Hypothesis Rrefl : forall t, R t t.
Hypothesis Rtrans : forall a b c, R a b -> R b c -> R a c.
Hypothesis Rhit : forall p t, R t (hitTower p t).
Hypothesis Rstep :
  forall f i b t, Tower.destroyed t = false -> R t (stepTower f i b t).
Hypothesis Rfire :
  forall t, canFire t = true -> R t (Tower.set_ammo (Tower.ammo t - 1) t).

Lemma formationLoop_rel (f : Z) (ts : list Tower.t) :
  forall i, Forall2 R ts (fst (formationLoop f i ts)).
Proof.
  induction ts as [|t rest IH]; intros i; cbn [formationLoop].
  - constructor.
  - destruct (Tower.destroyed t) eqn:Hd.
    + specialize (IH (S i)).
      destruct (formationLoop f (S i) rest) as [rest' ok].
      constructor; auto.
    + destruct (nth_error TOWER_POSITIONS i) as [b|].
      * specialize (IH (S i)).
        destruct (formationLoop f (S i) rest) as [rest' ok].
        constructor; auto.
      * now apply Forall2_same.
Qed.

Lemma updateRockets_towers_rel (d : Draws) (s : State) :
  Forall2 R (towers s) (towers (updateRockets M d s)).
Proof.
  apply (forEach_keeps rockets (rocketBody M d)
           (fun s' => Forall2 R (towers s) (towers s'))).
  - intros r k s' H. unfold rocketBody. split_ifs; [|exact H].
    cbn [towers set_rockets set_towers set_cities set_explosions].
    eapply Forall2_chain; [exact Rtrans | exact H |].
    now apply Forall2_map_right.
  - now apply Forall2_same.
Qed.

Lemma update_towers_rel (d : Draws) (s : State) :
  Forall2 R (towers s) (towers (stateOf (update M d s))).
Proof.
  unfold update.
  set (s1 := updateRockets M d s).
  set (s3 := updateExplosions M (updateMissiles M d s1)).
  set (s4 := checkProgress s3).
  assert (H3 : towers s4 = towers s1).
  { pose proof (updateExplosions_base M (updateMissiles M d s1)) as H3.
    pose proof (updateMissiles_base M d s1) as H2.
    pose proof (checkProgress_frame s3) as Hc. cbv zeta in Hc.
    unfold base in *. fold s3 in H3. fold s4 in Hc. congruence. }
  destruct (updatePlayerFormation_towers s4) as [f Hf].
  assert (H5 : towers (stateOf (andThen (updatePlayerFormation s4)
                                  (updateSky M d)))
               = towers (stateOf (updatePlayerFormation s4))).
  { destruct (updatePlayerFormation s4) as [s5|s5]; cbn [andThen stateOf];
      [|reflexivity].
    pose proof (updateSky_ground M d s5) as Hg. unfold ground in Hg.
    congruence. }
  rewrite H5, Hf, H3.
  eapply Forall2_chain; [exact Rtrans | apply updateRockets_towers_rel |].
  apply formationLoop_rel.
Qed.

Lemma fire_towers_rel (x y : Q) (id : string) (s : State) :
  Forall2 R (towers s) (towers (fire M x y id s)).
Proof.
  unfold fire.
  pose proof (closestTower_scan x (towers s) 0 None) as H.
  destruct (closestTower x 0 (towers s) None) as [[[i t] dist]|];
    [|now apply Forall2_same].
  destruct H as (_ & _ & [Heq|(_ & Hn & Hf & _)]); [discriminate|].
  rewrite Nat.sub_0_r in Hn.
  cbn [towers set_score set_missiles set_towers].
  eapply Forall2_writeAt_right; eauto.
Qed.

Lemma step_towers_rel (s : State) (c : Command) :
  Forall2 R (towers s) (towers (step M s c)).
Proof.
  destruct c as [d|e]; cbn [step].
  - unfold gameLoop. destruct (GameStatus_eqb (status s) PLAYING).
    + apply update_towers_rel.
    + now apply Forall2_same.
  - unfold handleCanvasClick.
    destruct (negb _); [now apply Forall2_same|].
    destruct (canvasRef e) as [canvas|]; [|now apply Forall2_same].
    destruct (clientPoint (event e)) as [client|]; [|now apply Forall2_same].
    destruct (toWorld canvas client). apply fire_towers_rel.
Qed.

Lemma run_towers_rel (cs : list Command) :
  forall s, Forall2 R (towers s) (towers (run M cs s)).
Proof.
  induction cs as [|c cs IH]; intros s; cbn [run fold_left].
  - now apply Forall2_same.
  - eapply Forall2_chain; [exact Rtrans | apply step_towers_rel | apply IH].
Qed.

End TowerRelation.

Section CityRelation.

Variable M : MathLib.
Variable R : City.t -> City.t -> Prop.
Hypothesis Rrefl : forall c, R c c.
Hypothesis Rtrans : forall a b c, R a b -> R b c -> R a c.
Hypothesis Rhit : forall p c, R c (hitCity p c).

Lemma updateRockets_cities_rel (d : Draws) (s : State) :
  Forall2 R (cities s) (cities (updateRockets M d s)).
Proof.
  apply (forEach_keeps rockets (rocketBody M d)
           (fun s' => Forall2 R (cities s) (cities s'))).
  - intros r k s' H. unfold rocketBody. split_ifs; [|exact H].
    cbn [cities set_rockets set_towers set_cities set_explosions].
    eapply Forall2_chain; [exact Rtrans | exact H |].
    now apply Forall2_map_right.
  - now apply Forall2_same.
Qed.

Lemma update_cities_rel (d : Draws) (s : State) :
  Forall2 R (cities s) (cities (stateOf (update M d s))).
Proof.
  unfold update.
  set (s1 := updateRockets M d s).
  set (s3 := updateExplosions M (updateMissiles M d s1)).
  set (s4 := checkProgress s3).
  assert (H3 : cities s4 = cities s1).
  { pose proof (updateExplosions_base M (updateMissiles M d s1)) as H3.
    pose proof (updateMissiles_base M d s1) as H2.
    pose proof (checkProgress_frame s3) as Hc. cbv zeta in Hc.
    unfold base in *. fold s3 in H3. fold s4 in Hc. congruence. }
  pose proof (update_after_check M d s4) as Ha. cbv zeta in Ha.
  replace (cities (stateOf (andThen (updatePlayerFormation s4)
                              (updateSky M d))))
    with (cities s1) by congruence.
  apply updateRockets_cities_rel.
Qed.

Lemma step_cities_rel (s : State) (c : Command) :
  Forall2 R (cities s) (cities (step M s c)).
Proof.
  destruct c as [d|e]; cbn [step].
  - unfold gameLoop. destruct (GameStatus_eqb (status s) PLAYING).
    + apply update_cities_rel.
    + now apply Forall2_same.
  - unfold handleCanvasClick.
    destruct (negb _); [now apply Forall2_same|].
    destruct (canvasRef e) as [canvas|]; [|now apply Forall2_same].
    destruct (clientPoint (event e)) as [client|]; [|now apply Forall2_same].
    destruct (toWorld canvas client). unfold fire.
    destruct (closestTower _ 0 (towers s) None) as [[[i t] dist]|];
      now apply Forall2_same.
Qed.

Lemma run_cities_rel (cs : list Command) :
  forall s, Forall2 R (cities s) (cities (run M cs s)).
Proof.
  induction cs as [|c cs IH]; intros s; cbn [run fold_left].
  - now apply Forall2_same.
  - eapply Forall2_chain; [exact Rtrans | apply step_cities_rel | apply IH].
Qed.

End CityRelation.

Lemma hitTower_wear (p : Point.t) (t : Tower.t) :
  towerWear t (hitTower p t) /\ (towerSound t -> towerSound (hitTower p t)).
Proof.
  unfold hitTower, towerWear, towerSound.
  destruct (Tower.destroyed t) eqn:Hd; cbn [negb andb];
    [rewrite ?Hd; repeat split; auto; lia|].
  destruct (Qltb _ 30 && Qltb _ 20);
    [|rewrite ?Hd; repeat split; auto; lia].
  cbn [Tower.health Tower.set_health].
  destruct (Z.leb_spec (Tower.health t - 1) 0) as [Hle|Hgt];
    cbn [Tower.id Tower.maxAmmo Tower.maxHealth Tower.health
         Tower.destroyed Tower.set_destroyed Tower.set_health];
    (repeat split; try lia; try discriminate; intros _; rewrite ?Hd;
     symmetry; first [apply Z.leb_le; lia | apply Z.leb_gt; lia]).
Qed.

Lemma stepTower_wear (f : Z) (i : nat) (b : TowerPosition.t) (t : Tower.t) :
  Tower.destroyed t = false ->
  towerWear t (stepTower f i b t)
  /\ (towerSound t -> towerSound (stepTower f i b t)).
Proof.
  intros Hd. unfold stepTower, towerWear, towerSound.
  destruct (formationTarget f i b) as [tx ty]. cbn.
  rewrite Hd. repeat split; auto; try lia; discriminate.
Qed.

Lemma setAmmo_wear (t : Tower.t) :
  canFire t = true ->
  towerWear t (Tower.set_ammo (Tower.ammo t - 1) t)
  /\ (towerSound t -> towerSound (Tower.set_ammo (Tower.ammo t - 1) t)).
Proof.
  unfold canFire, towerWear, towerSound. intros H.
  apply andb_prop in H. destruct H as [Hd _]. apply negb_true_iff in Hd.
  cbn. rewrite Hd. repeat split; auto; try lia; discriminate.
Qed.

Lemma towerWear_trans (a b c : Tower.t) :
  towerWear a b /\ (towerSound a -> towerSound b) ->
  towerWear b c /\ (towerSound b -> towerSound c) ->
  towerWear a c /\ (towerSound a -> towerSound c).
Proof.
  unfold towerWear.
  intros [(H1 & H2 & H3 & H4 & H5) Hs] [(K1 & K2 & K3 & K4 & K5) Ks].
  split; [|auto].
  repeat split; try congruence; try lia.
  intros Hd. specialize (H5 Hd). subst b. auto.
Qed.

Lemma towerWear_refl (t : Tower.t) :
  towerWear t t /\ (towerSound t -> towerSound t).
Proof. unfold towerWear. repeat split; auto; lia. Qed.

Lemma Forall2_and_split {A : Type} (R S : A -> A -> Prop) (l l' : list A) :
  Forall2 (fun a b => R a b /\ S a b) l l' -> Forall2 R l l' /\ Forall2 S l l'.
Proof.
  intros H. induction H as [|a b l l' [Hr Hs] _ [IHr IHs]]; split;
    constructor; auto.
Qed.

(** X6. Through any sequence of frames and clicks the tower store keeps
    its towers, in order: each keeps its id, [maxAmmo] and [maxHealth],
    its health never goes up, and a tower that is destroyed is never
    changed again (no damage, no move, no shot).  If every destroyed
    flag says [health <= 0] at the start, it does so at the end. *)
Theorem towers_wear (M : MathLib) (cs : list Command) (s : State) :
  Forall2 towerWear (towers s) (towers (run M cs s))
  /\ (Forall towerSound (towers s) ->
      Forall towerSound (towers (run M cs s))).
Proof.
  pose proof (@run_towers_rel M
                (fun a b => towerWear a b /\ (towerSound a -> towerSound b))
                towerWear_refl towerWear_trans hitTower_wear stepTower_wear
                setAmmo_wear cs s) as H.
  apply Forall2_and_split in H. destruct H as [Hw Hs].
  split; [exact Hw|]. now apply Forall2_Forall.
Qed.

Lemma hitCity_wear (p : Point.t) (c : City.t) :
  cityWear c (hitCity p c) /\ (citySound c -> citySound (hitCity p c)).
Proof.
  unfold hitCity, cityWear, citySound.
  destruct (City.destroyed c) eqn:Hd; cbn [negb andb];
    [rewrite ?Hd; repeat split; auto; lia|].
  destruct (Qltb _ 30 && Qltb _ 20);
    [|rewrite ?Hd; repeat split; auto; lia].
  cbn [City.health City.set_health].
  destruct (Z.leb_spec (City.health c - 1) 0) as [Hle|Hgt];
    cbn [City.id City.x City.y City.width City.height City.maxHealth
         City.health City.destroyed City.set_destroyed City.set_health];
    (repeat split; try lia; try discriminate; intros _; rewrite ?Hd;
     symmetry; first [apply Z.leb_le; lia | apply Z.leb_gt; lia]).
Qed.

Lemma cityWear_trans (a b c : City.t) :
  cityWear a b /\ (citySound a -> citySound b) ->
  cityWear b c /\ (citySound b -> citySound c) ->
  cityWear a c /\ (citySound a -> citySound c).
Proof.
  unfold cityWear.
  intros [(H1 & H2 & H3 & H4 & H5 & H6 & H7 & H8) Hs]
         [(K1 & K2 & K3 & K4 & K5 & K6 & K7 & K8) Ks].
  split; [|auto].
  repeat split; try congruence; try lia.
  intros Hd. specialize (H8 Hd). subst b. auto.
Qed.

Lemma cityWear_refl (c : City.t) :
  cityWear c c /\ (citySound c -> citySound c).
Proof. unfold cityWear. repeat split; auto; lia. Qed.

(** X7. Through any sequence of frames and clicks the city store keeps
    its cities, in order and in place: each keeps its id, position, size
    and [maxHealth], its health never goes up, and a city that is
    destroyed takes no further damage.  If every destroyed flag says
    [health <= 0] at the start, it does so at the end. *)
Theorem cities_wear (M : MathLib) (cs : list Command) (s : State) :
  Forall2 cityWear (cities s) (cities (run M cs s))
  /\ (Forall citySound (cities s) ->
      Forall citySound (cities (run M cs s))).
Proof.
  pose proof (@run_cities_rel M
                (fun a b => cityWear a b /\ (citySound a -> citySound b))
                cityWear_refl cityWear_trans hitCity_wear cs s) as H.
  apply Forall2_and_split in H. destruct H as [Hw Hs].
  split; [exact Hw|]. now apply Forall2_Forall.
Qed.

(** ** nextLevel *)

Lemma Forall2_id_map (l l' : list Tower.t) :
  Forall2 (fun a b => Tower.id b = Tower.id a) l l' ->
  map Tower.id l' = map Tower.id l.
Proof. intros H. induction H; cbn; congruence. Qed.

Lemma run_tower_ids (M : MathLib) (cs : list Command) (s : State) :
  map Tower.id (towers (run M cs s)) = map Tower.id (towers s).
Proof.
  apply Forall2_id_map.
  apply (@run_towers_rel M (fun a b => Tower.id b = Tower.id a)).
  - reflexivity.
  - intros a b c. congruence.
  - intros p t. now destruct (hitTower_wear p t) as [(H & _) _].
  - intros f i b t Hd. now destruct (@stepTower_wear f i b t Hd) as [(H & _) _].
  - intros t Hf. now destruct (@setAmmo_wear t Hf) as [(H & _) _].
Qed.

Lemma nextLevel_ammos (s : State) :
  map Tower.id (towers s) = map TowerPosition.id TOWER_POSITIONS ->
  ammos (nextLevel s) = ammos s.
Proof.
  unfold ammos. intros H.
  destruct (towers s) as [|a [|b [|c [|d [|e [|? ?]]]]]] eqn:Ht;
    try discriminate.
  cbn in H. injection H as Ha Hb Hc Hd He.
  unfold nextLevel, initGame.
  cbn [towers set_status set_level set_rockets set_missiles set_explosions
       set_cities set_towers set_meteors set_planes set_formationTimer
       set_currentFormation set_score set_scoreRef].
  rewrite Ht. unfold TOWER_POSITIONS.
  cbn [map find TowerPosition.id TowerPosition.maxAmmo Tower.ammo].
  rewrite Ha, Hb, Hc, Hd, He. reflexivity.
Qed.

Lemma nextLevel_tower_ids (s : State) :
  map Tower.id (towers (nextLevel s)) = map TowerPosition.id TOWER_POSITIONS.
Proof.
  unfold nextLevel, initGame.
  cbn [towers set_status set_level set_rockets set_missiles set_explosions
       set_cities set_towers set_meteors set_planes set_formationTimer
       set_currentFormation set_score set_scoreRef].
  rewrite map_map. reflexivity.
Qed.

Lemma step_tower_ids (M : MathLib) (s : State) (c : Command) :
  map Tower.id (towers (step M s c)) = map Tower.id (towers s).
Proof. exact (run_tower_ids M [c] s). Qed.

(** The towers' ids are those of [TOWER_POSITIONS], in order, all
    through a session that began with [startGame]. *)
Lemma session_tower_ids (M : MathLib) (ms : list Move) :
  forall s,
    map Tower.id (towers s) = map TowerPosition.id TOWER_POSITIONS ->
    map Tower.id (towers (session M ms s))
    = map TowerPosition.id TOWER_POSITIONS.
Proof.
  induction ms as [|m ms IH]; intros s H; cbn [session fold_left];
    [exact H|].
  apply IH. destruct m as [c| |]; cbn [act].
  - now rewrite step_tower_ids.
  - rewrite (startGame_constant s). reflexivity.
  - apply nextLevel_tower_ids.
Qed.

(** X8. After any session of frames, clicks, restarts and level-ups that
    began with [startGame] (so at any level), [nextLevel] keeps every
    tower's remaining ammo, raises the level by one, and resets
    everything else as [startGame] does: PLAYING, score 0, no rocket,
    missile, explosion, meteor or plane, formation timer and index 0,
    the cities as new, and the towers as new but for their ammo.
    Called on any state without towers, it gives every tower its
    [maxAmmo]. *)
Theorem nextLevel_after_play (M : MathLib) (ms : list Move)
    (s0 bare : State) :
  let s := session M ms (startGame s0) in
  let s' := nextLevel s in
  ammos s' = ammos s
  /\ level s' = (level s + 1)%Z
  /\ status s' = PLAYING
  /\ score s' = 0%Z /\ scoreRef s' = 0%Z
  /\ rockets s' = [] /\ missiles s' = [] /\ explosions s' = []
  /\ meteors s' = [] /\ planes s' = []
  /\ formationTimer s' = 0%Z /\ currentFormation s' = 0%Z
  /\ cities s' = cities (startGame s0)
  /\ map (Tower.set_ammo 0) (towers s')
     = map (Tower.set_ammo 0) (towers (startGame s0))
  /\ (towers bare = [] ->
      ammos (nextLevel bare) = map TowerPosition.maxAmmo TOWER_POSITIONS).
Proof.
  cbv zeta.
  assert (Hids : map Tower.id (towers (session M ms (startGame s0)))
                 = map TowerPosition.id TOWER_POSITIONS).
  { apply session_tower_ids. rewrite (startGame_constant s0). reflexivity. }
  split; [now apply nextLevel_ammos|].
  rewrite (startGame_constant s0).
  repeat split; try reflexivity.
  intros Hbare. unfold ammos, nextLevel, initGame.
  cbn [towers set_status set_level set_rockets set_missiles set_explosions
       set_cities set_towers set_meteors set_planes set_formationTimer
       set_currentFormation set_score set_scoreRef].
  rewrite Hbare. reflexivity.
Qed.

(** ** The score *)

Lemma scored_refl (s : State) : scored s s.
Proof. split; [exists 0%Z; lia | auto]. Qed.

Lemma scored_keep (s0 s s' : State) :
  scored s0 s -> score s' = score s -> scoreRef s' = scoreRef s ->
  scored s0 s'.
Proof.
  intros [(k & Hk & Hr) Hs] H1 H2. split.
  - exists k. split; [exact Hk | congruence].
  - intros H. rewrite H1, H2. auto.
Qed.

Lemma scored_add (s0 s : State) (m : Z) :
  scored s0 s -> (0 <= m)%Z -> scored s0 (addScore (10 * m) s).
Proof.
  intros [(k & Hk & Hr) Hs] Hm. split.
  - exists (k + m)%Z. split; [lia|].
    unfold addScore. cbn [scoreRef set_score set_scoreRef]. lia.
  - intros _. reflexivity.
Qed.

Lemma scored_trans (a b c : State) : scored a b -> scored b c -> scored a c.
Proof.
  intros [(k & Hk & Hr) Hs] [(k' & Hk' & Hr') Hs']. split.
  - exists (k + k')%Z. split; lia.
  - auto.
Qed.

Lemma damagePlane_scored (s0 : State) (amount : Q) (p : Plane.t) (k : nat)
    (s : State) :
  scored s0 s -> scored s0 (damagePlane amount p k s).
Proof.
  intros H. unfold damagePlane. split_ifs.
  - apply (@scored_add s0 _ 1); [|lia].
    eapply scored_keep; [exact H | reflexivity | reflexivity].
  - eapply scored_keep; [exact H | reflexivity | reflexivity].
Qed.

Lemma updateMissiles_scored (M : MathLib) (d : Draws) (s : State) :
  scored s (updateMissiles M d s).
Proof.
  apply (forEach_keeps missiles (missileBody M d) (scored s));
    [|apply scored_refl].
  intros m k s1 H1. unfold missileBody.
  set (m' := moveMissile M m).
  set (s2 := set_missiles (writeAt k m' (missiles s1)) s1).
  assert (H2 : scored s s2)
    by (eapply scored_keep; [exact H1 | reflexivity | reflexivity]).
  assert (H3 : scored s (forEach rockets (laserRocket M m') s2)).
  { apply (forEach_keeps rockets (laserRocket M m') (scored s)); [|exact H2].
    intros r j t Ht. unfold laserRocket. split_ifs; [|exact Ht].
    apply (@scored_add s _ 2); [|lia].
    eapply scored_keep; [exact Ht | reflexivity | reflexivity]. }
  assert (H4 : scored s (forEach planes (laserPlane M m')
                           (forEach rockets (laserRocket M m') s2))).
  { apply (forEach_keeps planes (laserPlane M m') (scored s)); [|exact H3].
    intros p j t Ht. unfold laserPlane. split_ifs; try exact Ht.
    now apply damagePlane_scored. }
  split_ifs; [|exact H4].
  eapply scored_keep; [exact H4 | reflexivity | reflexivity].
Qed.

Lemma updateExplosions_scored (M : MathLib) (s : State) :
  scored s (updateExplosions M s).
Proof.
  apply (forEach_keeps explosions (explosionBody M) (scored s));
    [|apply scored_refl].
  intros e k s1 H1. unfold explosionBody.
  destruct (pulse e k (explosions s1)) as [e' exps].
  set (s2 := set_explosions exps s1).
  assert (H2 : scored s s2)
    by (eapply scored_keep; [exact H1 | reflexivity | reflexivity]).
  apply (forEach_keeps planes (blastPlane M e') (scored s)).
  - intros p j t Ht. unfold blastPlane. split_ifs; try exact Ht.
    now apply damagePlane_scored.
  - apply (forEach_keeps rockets (blastRocket M e') (scored s)); [|exact H2].
    intros r j t Ht. unfold blastRocket. split_ifs; [|exact Ht].
    apply (@scored_add s _ 2); [|lia].
    eapply scored_keep; [exact Ht | reflexivity | reflexivity].
Qed.

Lemma update_scored (M : MathLib) (d : Draws) (s : State) :
  scored s (stateOf (update M d s)).
Proof.
  unfold update.
  set (s1 := updateRockets M d s).
  assert (H1 : scored s s1).
  { pose proof (updateRockets_frame M d s) as H. cbv zeta in H.
    eapply scored_keep; [apply scored_refl | |]; fold s1 in H; congruence. }
  pose proof (updateMissiles_scored M d s1) as H2.
  pose proof (updateExplosions_scored M (updateMissiles M d s1)) as H3.
  set (s3 := updateExplosions M (updateMissiles M d s1)) in *.
  pose proof (checkProgress_frame s3) as Hc. cbv zeta in Hc.
  pose proof (update_after_check M d (checkProgress s3)) as Ha.
  cbv zeta in Ha. unfold verdict in Ha.
  eapply scored_trans; [exact H1|]. eapply scored_trans; [exact H2|].
  eapply scored_keep; [exact H3 | congruence | congruence].
Qed.

Lemma step_scored (M : MathLib) (s : State) (c : Command) :
  scored s (step M s c).
Proof.
  destruct c as [d|e]; cbn [step].
  - unfold gameLoop. destruct (GameStatus_eqb (status s) PLAYING).
    + apply update_scored.
    + apply scored_refl.
  - unfold handleCanvasClick.
    destruct (negb _); [apply scored_refl|].
    destruct (canvasRef e) as [canvas|]; [|apply scored_refl].
    destruct (clientPoint (event e)) as [client|]; [|apply scored_refl].
    destruct (toWorld canvas client). unfold fire.
    destruct (closestTower _ 0 (towers s) None) as [[[i t] dist]|];
      [|apply scored_refl].
    split; [|reflexivity]. exists 0%Z.
    cbn [stateOf scoreRef set_score set_missiles set_towers]. lia.
Qed.

(** X9. Through any sequence of frames and clicks the score ref never
    goes down: it grows by a non-negative multiple of 10; a click
    leaves it as it is.  If the displayed score equals the ref at the
    start (as after [startGame] and [nextLevel]), it equals it at the
    end. *)
Theorem score_ledger (M : MathLib) (cs : list Command) (s : State)
    (e : Click) :
  (exists k, (0 <= k)%Z
             /\ scoreRef (run M cs s) = (scoreRef s + 10 * k)%Z)
  /\ (scoreRef s <= scoreRef (run M cs s))%Z
  /\ (score s = scoreRef s -> score (run M cs s) = scoreRef (run M cs s))
  /\ scoreRef (step M s (Fire e)) = scoreRef s.
Proof.
  assert (H : scored s (run M cs s)).
  { revert s. induction cs as [|c cs IH]; intros s; cbn [run fold_left].
    - apply scored_refl.
    - eapply scored_trans; [apply step_scored | apply IH]. }
  destruct H as [(k & Hk & Hr) Hs].
  split; [exists k; auto|]. split; [lia|]. split; [exact Hs|].
  cbn [step]. unfold handleCanvasClick.
  destruct (negb _); [reflexivity|].
  destruct (canvasRef e) as [canvas|]; [|reflexivity].
  destruct (clientPoint (event e)) as [client|]; [|reflexivity].
  destruct (toWorld canvas client). unfold fire.
  destruct (closestTower _ 0 (towers s) None) as [[[i t] dist]|]; reflexivity.
Qed.

(** ** The radius of an explosion *)

(** As [forEach_keeps], with the callback's element known to be the one
    at the index. *)
Lemma forEach_keeps_at {St A : Type} (arr : St -> list A)
    (body : A -> nat -> St -> St) (P : St -> Prop) :
  (forall a k s, nth_error (arr s) k = Some a -> P s -> P (body a k s)) ->
  forall s, P s -> P (forEach arr body s).
Proof.
  intros Hbody s Hs. unfold forEach. generalize (List.length (arr s)) 0%nat.
  intros len. revert s Hs.
  induction len as [|len IH]; intros s Hs k; cbn [forEachFrom]; auto.
  destruct (nth_error (arr s) k) eqn:Hk; auto.
Qed.

Lemma newExplosion_ok (id : string) (x y : Q) : blastOk (newExplosion id x y).
Proof.
  split; [reflexivity|].
  cbn [newExplosion Explosion.growing Explosion.radius].
  split; [apply Qle_refl | reflexivity].
Qed.

Lemma Forall_snoc {A : Type} (P : A -> Prop) (l : list A) (a : A) :
  Forall P l -> P a -> Forall P (l ++ [a]).
Proof. intros Hl Ha. apply Forall_app. split; auto. Qed.

Lemma pulse_ok (e : Explosion.t) (k : nat) (exps : list Explosion.t) :
  blastOk e -> Forall blastOk exps ->
  Forall blastOk (snd (pulse e k exps)).
Proof.
  intros [Hmax He] Hall. unfold pulse.
  destruct (Explosion.growing e) eqn:Hg.
  - cbn [snd]. apply Forall_writeAt; [|exact Hall].
    cbn [Explosion.radius Explosion.maxRadius Explosion.set_radius].
    rewrite Hmax. destruct He as [H0 H1].
    unfold EXPLOSION_MAX_RADIUS, EXPLOSION_SPEED in *.
    destruct (Qle_bool 70 (Explosion.radius e + 1.5)) eqn:Hflip;
      unfold blastOk, EXPLOSION_MAX_RADIUS, EXPLOSION_SPEED;
      cbn [Explosion.radius Explosion.maxRadius Explosion.growing
           Explosion.set_radius Explosion.set_growing];
      (split; [exact Hmax|]).
    + apply Qle_bool_iff in Hflip. split; lra.
    + rewrite Hg. split; [lra|].
      apply Qnot_le_lt. intros Hle. apply Qle_bool_iff in Hle. congruence.
  - destruct He as [H0 H1].
    cbn [Explosion.radius Explosion.set_radius].
    unfold EXPLOSION_MAX_RADIUS, EXPLOSION_SPEED in *.
    destruct (Qle_bool (Explosion.radius e - 1.5) 0) eqn:Hend; cbn [snd].
    + rewrite splice1_writeAt. now apply Forall_splice1.
    + apply Forall_writeAt; [|exact Hall].
      unfold blastOk, EXPLOSION_MAX_RADIUS, EXPLOSION_SPEED.
      cbn [Explosion.radius Explosion.maxRadius Explosion.growing
           Explosion.set_radius Explosion.set_growing].
      split; [exact Hmax|]. rewrite Hg. split; [|lra].
      apply Qnot_le_lt. intros Hle. apply Qle_bool_iff in Hle. congruence.
Qed.

Lemma updateRockets_blastOk (M : MathLib) (d : Draws) (s : State) :
  Forall blastOk (explosions s) ->
  Forall blastOk (explosions (updateRockets M d s)).
Proof.
  apply (forEach_keeps rockets (rocketBody M d)
           (fun s => Forall blastOk (explosions s))).
  intros r k s1 H. unfold rocketBody. split_ifs; [|exact H].
  cbn [explosions set_rockets set_towers set_cities set_explosions].
  apply Forall_snoc; [exact H | apply newExplosion_ok].
Qed.

Lemma updateMissiles_blastOk (M : MathLib) (d : Draws) (s : State) :
  Forall blastOk (explosions s) ->
  Forall blastOk (explosions (updateMissiles M d s)).
Proof.
  apply (forEach_keeps missiles (missileBody M d)
           (fun s => Forall blastOk (explosions s))).
  intros m k s1 H. unfold missileBody.
  set (m' := moveMissile M m).
  set (s2 := set_missiles (writeAt k m' (missiles s1)) s1).
  set (s4 := forEach planes (laserPlane M m')
               (forEach rockets (laserRocket M m') s2)).
  assert (H4 : explosions s4 = explosions s1).
  { assert (Hs : still s4 = still s2).
    { unfold s4.
      rewrite (forEach_frame planes (laserPlane M m') still
                 (laserPlane_still M m')).
      now rewrite (forEach_frame rockets (laserRocket M m') still
                     (laserRocket_still M m')). }
    unfold still in Hs. change (explosions s1) with (explosions s2).
    congruence. }
  split_ifs; cbn [explosions set_missiles set_explosions]; rewrite H4;
    [|exact H].
  apply Forall_snoc; [exact H | apply newExplosion_ok].
Qed.

Lemma updateExplosions_blastOk (M : MathLib) (s : State) :
  Forall blastOk (explosions s) ->
  Forall blastOk (explosions (updateExplosions M s)).
Proof.
  apply (forEach_keeps_at explosions (explosionBody M)
           (fun s => Forall blastOk (explosions s))).
  intros e k s1 Hk H. unfold explosionBody.
  assert (He : blastOk e).
  { rewrite Forall_forall in H. apply H. eapply nth_error_In; eauto. }
  pose proof (@pulse_ok e k (explosions s1) He H) as Hp.
  destruct (pulse e k (explosions s1)) as [e' exps]. cbn [snd] in Hp.
  set (s2 := set_explosions exps s1).
  assert (Hs : still (forEach planes (blastPlane M e')
                        (forEach rockets (blastRocket M e') s2))
               = still s2).
  { rewrite (forEach_frame planes (blastPlane M e') still
               (blastPlane_still M e')).
    now rewrite (forEach_frame rockets (blastRocket M e') still
                   (blastRocket_still M e')). }
  unfold still in Hs.
  replace (explosions (forEach planes (blastPlane M e')
                         (forEach rockets (blastRocket M e') s2)))
    with (explosions s2) by congruence.
  exact Hp.
Qed.

Lemma step_blastOk (M : MathLib) (s : State) (c : Command) :
  Forall blastOk (explosions s) -> Forall blastOk (explosions (step M s c)).
Proof.
  intros H. destruct c as [d|e]; cbn [step].
  - unfold gameLoop. destruct (GameStatus_eqb (status s) PLAYING); [|exact H].
    unfold update.
    pose proof (@updateExplosions_blastOk M _
                  (@updateMissiles_blastOk M d _
                     (@updateRockets_blastOk M d s H))) as H3.
    set (s3 := updateExplosions M (updateMissiles M d (updateRockets M d s)))
      in *.
    pose proof (checkProgress_frame s3) as Hc. cbv zeta in Hc.
    pose proof (update_after_check M d (checkProgress s3)) as Ha.
    cbv zeta in Ha.
    replace (explosions (stateOf (andThen (updatePlayerFormation
                                             (checkProgress s3))
                                    (updateSky M d))))
      with (explosions s3) by congruence.
    exact H3.
  - unfold handleCanvasClick.
    destruct (negb _); [exact H|].
    destruct (canvasRef e) as [canvas|]; [|exact H].
    destruct (clientPoint (event e)) as [client|]; [|exact H].
    destruct (toWorld canvas client). unfold fire.
    destruct (closestTower _ 0 (towers s) None) as [[[i t] dist]|]; exact H.
Qed.

(** X10. If every explosion in the store has the configured maximal
    radius, a radius in [0, 70) while growing and in (0, 71.5) while
    shrinking, then the same holds after any sequence of frames and
    clicks: no explosion in the store ever has a negative radius or one
    of 71.5 or more. *)
Theorem blast_radius_bounds (M : MathLib) (cs : list Command) (s : State) :
  Forall blastOk (explosions s) ->
  Forall blastOk (explosions (run M cs s))
  /\ forall e, In e (explosions (run M cs s)) ->
       0 <= Explosion.radius e /\ Explosion.radius e < 71.5.
Proof.
  intros H.
  assert (Hrun : Forall blastOk (explosions (run M cs s))).
  { revert s H. induction cs as [|c cs IH]; intros s H; cbn [run fold_left];
      [exact H|].
    apply IH. now apply step_blastOk. }
  split; [exact Hrun|].
  intros e He. rewrite Forall_forall in Hrun.
  destruct (Hrun e He) as [_ Hr].
  unfold EXPLOSION_MAX_RADIUS, EXPLOSION_SPEED in Hr.
  destruct (Explosion.growing e); destruct Hr; split; lra.
Qed.

Lemma blast_radius_bounds_witness :
  Forall blastOk (explosions twoBlasts)
  /\ Forall blastOk
       (explosions (run approxMath
                      [Tick quietDraws; Fire (press 40 300); Tick eagerDraws]
                      twoBlasts)).
Proof.
  assert (H : Forall blastOk (explosions twoBlasts)).
  { repeat constructor; vm_compute; intros; discriminate. }
  split; [exact H|].
  now destruct (@blast_radius_bounds approxMath
                  [Tick quietDraws; Fire (press 40 300); Tick eagerDraws]
                  twoBlasts H).
Defined.

(** ** Missiles and ammo *)

Lemma writeAt_size {A : Type} (i : nat) (a : A) (l : list A) :
  List.length (writeAt i a l) = List.length l.
Proof.
  revert i; induction l as [|h t IH]; intros [|i]; cbn; auto.
Qed.

Lemma splice1_size {A : Type} (i : nat) (l : list A) :
  (List.length (splice1 i l) <= List.length l)%nat.
Proof.
  revert i; induction l as [|h t IH]; intros [|i]; cbn; auto.
  specialize (IH i). lia.
Qed.

Lemma sum_writeAt (i : nat) (a b : Z) (l : list Z) :
  nth_error l i = Some a ->
  fold_right Z.add 0%Z (writeAt i b l)
  = (fold_right Z.add 0%Z l - a + b)%Z.
Proof.
  revert i; induction l as [|h t IH]; intros [|i] H; cbn in *;
    try discriminate.
  - injection H as ->. lia.
  - rewrite (IH i H). lia.
Qed.

Lemma updateMissiles_size (M : MathLib) (d : Draws) (s : State) :
  (List.length (missiles (updateMissiles M d s))
   <= List.length (missiles s))%nat.
Proof.
  apply (forEach_keeps missiles (missileBody M d)
           (fun s' => (List.length (missiles s')
                       <= List.length (missiles s))%nat)); [|lia].
  intros m k s1 H. unfold missileBody.
  set (m' := moveMissile M m).
  set (s2 := set_missiles (writeAt k m' (missiles s1)) s1).
  set (s4 := forEach planes (laserPlane M m')
               (forEach rockets (laserRocket M m') s2)).
  assert (H4 : missiles s4 = writeAt k m' (missiles s1)).
  { assert (Hs : still s4 = still s2).
    { unfold s4.
      rewrite (forEach_frame planes (laserPlane M m') still
                 (laserPlane_still M m')).
      now rewrite (forEach_frame rockets (laserRocket M m') still
                     (laserRocket_still M m')). }
    unfold still in Hs.
    change (writeAt k m' (missiles s1)) with (missiles s2). congruence. }
  split_ifs; cbn [missiles set_missiles set_explosions]; rewrite H4.
  - pose proof (splice1_size k (writeAt k m' (missiles s1))) as Hsp.
    rewrite writeAt_size in Hsp. lia.
  - rewrite writeAt_size. exact H.
Qed.

Lemma update_missiles_size (M : MathLib) (d : Draws) (s : State) :
  (List.length (missiles (stateOf (update M d s)))
   <= List.length (missiles s))%nat.
Proof.
  unfold update.
  set (s1 := updateRockets M d s).
  pose proof (updateRockets_frame M d s) as H1. cbv zeta in H1. fold s1 in H1.
  pose proof (updateMissiles_size M d s1) as H2.
  pose proof (updateExplosions_base M (updateMissiles M d s1)) as H3.
  set (s3 := updateExplosions M (updateMissiles M d s1)) in *.
  pose proof (checkProgress_frame s3) as Hc. cbv zeta in Hc.
  pose proof (update_after_check M d (checkProgress s3)) as Ha.
  cbv zeta in Ha.
  replace (missiles (stateOf (andThen (updatePlayerFormation
                                         (checkProgress s3))
                                (updateSky M d))))
    with (missiles (updateMissiles M d s1)) by congruence.
  replace (missiles s) with (missiles s1) by congruence. exact H2.
Qed.

(** A shot changes nothing, or takes one ammo from one tower and adds
    one missile. *)
Lemma fire_shot (M : MathLib) (x y : Q) (id : string) (s : State) :
  fire M x y id s = s
  \/ exists i a m,
       nth_error (ammos s) i = Some a /\ (0 < a)%Z
       /\ ammos (fire M x y id s) = writeAt i (a - 1)%Z (ammos s)
       /\ missiles (fire M x y id s) = missiles s ++ [m].
Proof.
  unfold fire.
  pose proof (closestTower_scan x (towers s) 0 None) as H.
  destruct (closestTower x 0 (towers s) None) as [[[i t] dist]|];
    [|now left].
  destruct H as (_ & _ & [Heq|(_ & Hn & Hf & _)]); [discriminate|].
  rewrite Nat.sub_0_r in Hn. right. exists i, (Tower.ammo t). eexists.
  unfold canFire in Hf. apply andb_prop in Hf. destruct Hf as [_ Hpos].
  apply Z.ltb_lt in Hpos.
  split; [unfold ammos; now rewrite nth_error_map, Hn|].
  split; [exact Hpos|]. split; [|reflexivity].
  unfold ammos. cbn [towers set_score set_missiles set_towers].
  now rewrite map_writeAt.
Qed.

Lemma click_arsenal (M : MathLib) (e : Click) (s : State) :
  arsenal (stateOf (handleCanvasClick M e s)) = arsenal s.
Proof.
  unfold handleCanvasClick.
  destruct (negb _); [reflexivity|].
  destruct (canvasRef e) as [canvas|]; [|reflexivity].
  destruct (clientPoint (event e)) as [client|]; [|reflexivity].
  destruct (toWorld canvas client) as [x y]. cbn [stateOf].
  destruct (fire_shot M x y (missileId e) s)
    as [->|(i & a & m & Hn & Ha & Hammo & Hmis)]; [reflexivity|].
  unfold arsenal, totalAmmo. rewrite Hammo, Hmis.
  rewrite (@sum_writeAt i a (a - 1) (ammos s) Hn). rewrite length_app. cbn [List.length].
  lia.
Qed.

(** X11. A click keeps the sum of missiles in flight and ammo left; a
    frame does not raise the number of missiles in flight; along any
    sequence of frames and clicks that sum never grows. *)
Theorem shots_accounted (M : MathLib) (cs : list Command) (s : State)
    (d : Draws) (e : Click) :
  arsenal (step M s (Fire e)) = arsenal s
  /\ (List.length (missiles (step M s (Tick d)))
      <= List.length (missiles s))%nat
  /\ (arsenal (run M cs s) <= arsenal s)%Z.
Proof.
  assert (Htick : forall d s, (arsenal (step M s (Tick d)) <= arsenal s)%Z
                              /\ (List.length (missiles (step M s (Tick d)))
                                  <= List.length (missiles s))%nat).
  { clear. intros d s. cbn [step]. unfold arsenal, totalAmmo.
    rewrite tick_ammos. unfold gameLoop.
    destruct (GameStatus_eqb (status s) PLAYING);
      [|cbn [stateOf]; split; lia].
    pose proof (update_missiles_size M d s). split; lia. }
  split; [apply click_arsenal|]. split; [apply Htick|].
  revert s. induction cs as [|c cs IH]; intros s; cbn [run fold_left]; [lia|].
  specialize (IH (step M s c)). unfold run in IH.
  assert (Hc : (arsenal (step M s c) <= arsenal s)%Z).
  { destruct c as [d'|e']; [apply Htick|].
    cbn [step]. rewrite click_arsenal. lia. }
  lia.
Qed.

(** ** No TypeError in play *)

Lemma formationLoop_ok (f : Z) (ts : list Tower.t) :
  forall i, (i + List.length ts <= List.length TOWER_POSITIONS)%nat ->
  snd (formationLoop f i ts) = true.
Proof.
  induction ts as [|t rest IH]; intros i Hi; cbn [formationLoop];
    [reflexivity|].
  cbn [List.length] in Hi.
  assert (Hrest : snd (formationLoop f (S i) rest) = true)
    by (apply IH; lia).
  destruct (Tower.destroyed t).
  - destruct (formationLoop f (S i) rest). exact Hrest.
  - destruct (nth_error TOWER_POSITIONS i) eqn:Hb.
    + destruct (formationLoop f (S i) rest). exact Hrest.
    + apply nth_error_None in Hb. lia.
Qed.

Lemma updatePlayerFormation_returns (s : State) :
  (List.length (towers s) <= List.length TOWER_POSITIONS)%nat ->
  exists s', updatePlayerFormation s = Done s'.
Proof.
  intros H. unfold updatePlayerFormation.
  cbn [formationTimer set_formationTimer].
  destruct (400 <? formationTimer s + 1)%Z;
    match goal with
    | |- context [formationLoop ?f 0 ?ts] =>
        change ts with (towers s);
        pose proof (formationLoop_ok f (towers s) 0 H) as Hok;
        destruct (formationLoop f 0 (towers s)) as [ts' ok]
    end;
    cbn [snd] in Hok; subst ok; eexists; reflexivity.
Qed.

Lemma run_towers_size (M : MathLib) (cs : list Command) (s : State) :
  List.length (towers (run M cs s)) = List.length (towers s).
Proof.
  symmetry. apply (@Forall2_length _ _ (fun _ _ => True)).
  apply (@run_towers_rel M (fun _ _ => True)); auto.
Qed.

(** X12. In any state reached by frames and clicks from a state with at
    most as many towers as [TOWER_POSITIONS] has slots (five, as
    [initGame] makes them), a frame whose random draws are in [0, 1)
    returns: no [TypeError] is thrown. *)
Theorem frame_returns (M : MathLib) (cs : list Command) (s : State)
    (d : Draws) :
  (List.length (towers s) <= List.length TOWER_POSITIONS)%nat ->
  fairPicks d ->
  exists s', gameLoop M d (run M cs s) = Done s'.
Proof.
  intros Hlen Hfair. rewrite <- (run_towers_size M cs s) in Hlen.
  generalize dependent (run M cs s). clear s. intros s Hlen.
  unfold gameLoop. destruct (GameStatus_eqb (status s) PLAYING);
    [|now exists s].
  unfold update.
  set (s3 := updateExplosions M (updateMissiles M d (updateRockets M d s))).
  pose proof (update_before_check M d s) as Hb. cbv zeta in Hb. fold s3 in Hb.
  pose proof (checkProgress_frame s3) as Hc. cbv zeta in Hc.
  assert (H4 : List.length (towers (checkProgress s3))
               = List.length (towers s)).
  { replace (towers (checkProgress s3)) with (towers s3) by congruence.
    rewrite <- (length_map Tower.ammo (towers s3)).
    rewrite <- (length_map Tower.ammo (towers s)).
    fold (ammos s3) (ammos s). congruence. }
  rewrite <- H4 in Hlen.
  destruct (updatePlayerFormation_returns (checkProgress s3) Hlen)
    as [s5 ->].
  cbn [andThen]. unfold updateSky.
  destruct (spawnRocket_report M
              (spawnPlanes d
                 (forEach planes (planeBody M)
                    (forEach meteors meteorBody (spawnMeteor M d s5))))
              Hfair) as (s' & Hs' & _).
  now exists s'.
Qed.

Lemma frame_returns_witness :
  (List.length (towers underAttack) <= List.length TOWER_POSITIONS)%nat
  /\ fairPicks eagerDraws
  /\ exists s',
       gameLoop approxMath eagerDraws
         (run approxMath [Fire (press 40 300)] underAttack) = Done s'.
Proof.
  assert (Hlen : (List.length (towers underAttack)
                  <= List.length TOWER_POSITIONS)%nat)
    by (vm_compute; repeat constructor).
  assert (Hfair : fairPicks eagerDraws)
    by (repeat split; vm_compute; discriminate).
  split; [exact Hlen|]. split; [exact Hfair|].
  exact (@frame_returns approxMath [Fire (press 40 300)] underAttack
           eagerDraws Hlen Hfair).
Defined.

(** ** Where the towers are *)

Lemma formationTarget_bounds (f : Z) (i : nat) (b : TowerPosition.t) :
  nth_error TOWER_POSITIONS i = Some b ->
  fst (formationTarget f i b) = TowerPosition.x b
  /\ 450 <= snd (formationTarget f i b)
  /\ snd (formationTarget f i b) <= 540.
Proof.
  intros Hb.
  do 5 (destruct i as [|i];
        [injection Hb as <-; unfold formationTarget;
         destruct (f =? 1)%Z; [|destruct (f =? 2)%Z];
         (split; [reflexivity|]; split; vm_compute; discriminate)|]).
  cbn in Hb. destruct i; discriminate.
Qed.

Lemma stepTower_inLane (f : Z) (i : nat) (b : TowerPosition.t)
    (t : Tower.t) :
  nth_error TOWER_POSITIONS i = Some b ->
  inLane t b -> inLane (stepTower f i b t) b.
Proof.
  intros Hb (Hx & Hy0 & Hy1).
  destruct (formationTarget_bounds f i Hb) as (Htx & Hty0 & Hty1).
  unfold stepTower, inLane.
  destruct (formationTarget f i b) as [tx ty]. cbn [fst snd] in *. subst tx.
  cbn [Tower.x Tower.y Tower.targetX Tower.targetY Tower.set_x Tower.set_y
       Tower.set_targetX Tower.set_targetY].
  repeat split; lra.
Qed.

Lemma formationLoop_inLane (f : Z) (ts : list Tower.t) :
  forall i ps,
    Forall2 inLane ts ps ->
    (forall j, nth_error ps j = nth_error TOWER_POSITIONS (i + j)) ->
    Forall2 inLane (fst (formationLoop f i ts)) ps.
Proof.
  induction ts as [|t rest IH]; intros i ps H Hps; inversion H; subst;
    cbn [formationLoop]; [constructor|].
  match goal with
  | Hh : inLane t ?p, Ht : Forall2 inLane rest ?ps' |- _ =>
      rename p into b; rename ps' into qs; rename Hh into Hhead;
      rename Ht into Htail
  end.
  assert (Hb : nth_error TOWER_POSITIONS i = Some b).
  { specialize (Hps 0%nat). rewrite Nat.add_0_r in Hps. now rewrite <- Hps. }
  assert (Hqs : forall j, nth_error qs j = nth_error TOWER_POSITIONS (S i + j)).
  { intros j. specialize (Hps (S j)). cbn [nth_error] in Hps.
    rewrite Hps. f_equal. lia. }
  specialize (IH (S i) qs Htail Hqs).
  destruct (Tower.destroyed t).
  - destruct (formationLoop f (S i) rest). constructor; auto.
  - rewrite Hb. destruct (formationLoop f (S i) rest).
    constructor; [now apply stepTower_inLane | auto].
Qed.

Lemma hitTower_place (p : Point.t) (t : Tower.t) :
  Tower.x (hitTower p t) = Tower.x t /\ Tower.y (hitTower p t) = Tower.y t.
Proof. unfold hitTower. split_ifs; split; reflexivity. Qed.

Lemma Forall2_inLane_moved (ts ts' : list Tower.t)
    (ps : list TowerPosition.t) :
  Forall2 (fun a b => Tower.x b = Tower.x a /\ Tower.y b = Tower.y a) ts ts' ->
  Forall2 inLane ts ps -> Forall2 inLane ts' ps.
Proof.
  intros H. revert ps. induction H as [|a b l l' [Hx Hy] _ IH];
    intros ps Hps; inversion Hps; subst; constructor; auto.
  unfold inLane in *. now rewrite Hx, Hy.
Qed.

Lemma update_towers_shape (M : MathLib) (d : Draws) (s : State) :
  exists f, towers (stateOf (update M d s))
            = fst (formationLoop f 0 (towers (updateRockets M d s))).
Proof.
  unfold update.
  set (s1 := updateRockets M d s).
  set (s3 := updateExplosions M (updateMissiles M d s1)).
  set (s4 := checkProgress s3).
  assert (H3 : towers s4 = towers s1).
  { pose proof (updateExplosions_base M (updateMissiles M d s1)) as H3.
    pose proof (updateMissiles_base M d s1) as H2.
    pose proof (checkProgress_frame s3) as Hc. cbv zeta in Hc.
    unfold base in *. fold s3 in H3. fold s4 in Hc. congruence. }
  destruct (updatePlayerFormation_towers s4) as [f Hf].
  exists f. rewrite <- H3, <- Hf.
  destruct (updatePlayerFormation s4) as [s5|s5]; cbn [andThen stateOf];
    [|reflexivity].
  pose proof (updateSky_ground M d s5) as Hg. unfold ground in Hg.
  congruence.
Qed.

Lemma step_inLane (M : MathLib) (s : State) (c : Command) :
  Forall2 inLane (towers s) TOWER_POSITIONS ->
  Forall2 inLane (towers (step M s c)) TOWER_POSITIONS.
Proof.
  intros H. destruct c as [d|e]; cbn [step].
  - unfold gameLoop. destruct (GameStatus_eqb (status s) PLAYING);
      [|exact H].
    destruct (update_towers_shape M d s) as [f ->].
    apply formationLoop_inLane; [|reflexivity].
    eapply Forall2_inLane_moved; [|exact H].
    apply (@updateRockets_towers_rel M
             (fun a b => Tower.x b = Tower.x a /\ Tower.y b = Tower.y a)).
    + split; reflexivity.
    + intros a b c [] []. split; congruence.
    + intros p t. apply hitTower_place.
  - eapply Forall2_inLane_moved; [|exact H].
    unfold handleCanvasClick.
    destruct (negb _); [apply Forall2_same; auto|].
    destruct (canvasRef e) as [canvas|]; [|apply Forall2_same; auto].
    destruct (clientPoint (event e)) as [client|]; [|apply Forall2_same; auto].
    destruct (toWorld canvas client). cbn [stateOf].
    apply (@fire_towers_rel M
             (fun a b => Tower.x b = Tower.x a /\ Tower.y b = Tower.y a)).
    + split; reflexivity.
    + intros t _. split; reflexivity.
Qed.

(** X13. If every tower is in the lane of its slot (at the slot's [x],
    at a height between 450 and 560), as [initGame] places them, then it
    still is after any sequence of frames and clicks: towers never move
    sideways and never leave that band of heights. *)
Theorem towers_stay_in_lane (M : MathLib) (cs : list Command) (s : State) :
  Forall2 inLane (towers s) TOWER_POSITIONS ->
  Forall2 inLane (towers (run M cs s)) TOWER_POSITIONS.
Proof.
  revert s. induction cs as [|c cs IH]; intros s H; cbn [run fold_left];
    [exact H|].
  apply IH. now apply step_inLane.
Qed.

Lemma towers_stay_in_lane_witness :
  Forall2 inLane (towers (startGame mounted)) TOWER_POSITIONS
  /\ Forall2 inLane
       (towers (run approxMath
                  (repeat (Tick quietDraws) 1000 ++ [Fire (press 40 300)])
                  (startGame mounted)))
       TOWER_POSITIONS.
Proof.
  assert (H : Forall2 inLane (towers (startGame mounted)) TOWER_POSITIONS).
  { repeat constructor; vm_compute; intros; discriminate. }
  split; [exact H|]. now apply towers_stay_in_lane.
Defined.

(** ** spawnPlanes *)

(** X14. [spawnPlanes] only appends to the plane store: nothing when the
    active planes have reached the cap [5 + floor(level / 2)], and
    otherwise no plane, one plane or three planes, each with health and
    [maxHealth] [7 + (level - 1)], not destroyed, never fired, at its
    target height, flying left or right.  So the number of active planes
    after it is at most the number before or the cap plus 2. *)
Theorem spawnPlanes_appends (d : Draws) (s : State) :
  exists new,
    planes (spawnPlanes d s) = planes s ++ new
    /\ ground (spawnPlanes d s) = ground s
    /\ rockets (spawnPlanes d s) = rockets s
    /\ (new = [] \/ List.length new = 1%nat \/ List.length new = 3%nat)
    /\ Forall (freshPlane s) new
    /\ ((maxPlanes s <= activeCount s)%Z -> new = [])
    /\ (activeCount (spawnPlanes d s)
        <= Z.max (activeCount s) (maxPlanes s + 2))%Z.
Proof.
  unfold spawnPlanes. fold (maxPlanes s). fold (activeCount s).
  destruct (Z.leb_spec (maxPlanes s) (activeCount s)) as [Hcap|Hroom].
  { exists []. rewrite app_nil_r. repeat split; auto. lia. }
  assert (Hcount : forall new,
            (Z.of_nat (List.length new) <= 3)%Z ->
            (activeCount (set_planes (planes s ++ new) s)
             <= Z.max (activeCount s) (maxPlanes s + 2))%Z).
  { intros new Hn. unfold activeCount in *. cbn [planes set_planes].
    rewrite filter_app, length_app.
    pose proof (filter_length_le active new). lia. }
  destruct (Qltb _ (planeRoll d)).
  { exists []. rewrite app_nil_r. repeat split; auto; lia. }
  assert (Hdir : forall r : Q,
            (if Qltb r 0.5 then 1 else -1) = 1
            \/ (if Qltb r 0.5 then 1 else -1) = -1).
  { intros r. destruct (Qltb r 0.5); auto. }
  destruct (Qfloor (planeFormation d * 3) =? 0)%Z;
    [|destruct (Qfloor (planeFormation d * 3) =? 1)%Z];
    eexists; (split; [reflexivity|]); (split; [reflexivity|]);
    (split; [reflexivity|]);
    (split; [cbn [List.length map seq]; auto|]);
    (split;
     [cbn [map seq];
      repeat (apply Forall_cons;
              [unfold freshPlane;
               cbn [Plane.health Plane.maxHealth Plane.destroyed
                    Plane.lastFired Plane.y Plane.targetY Plane.direction];
               repeat split; try reflexivity; apply Hdir|]);
      apply Forall_nil|]);
    (split; [lia | apply Hcount; cbn [List.length map seq]; lia]).
Qed.

Lemma level_factor (s : State) :
  (1 <= level s <= 10)%Z ->
  1 <= 1 + (inject_Z (level s) - 1) * 0.1
  /\ 1 + (inject_Z (level s) - 1) * 0.1 <= 1.9.
Proof.
  intros [H1 H10].
  assert (Ha : inject_Z 1 <= inject_Z (level s)) by (now rewrite <- Zle_Qle).
  assert (Hb : inject_Z (level s) <= inject_Z 10) by (now rewrite <- Zle_Qle).
  change (inject_Z 1) with 1 in Ha. change (inject_Z 10) with 10 in Hb.
  split; lra.
Qed.

Lemma Qltb_yes (a b : Q) : a < b -> Qltb a b = true.
Proof.
  intros H. unfold Qltb. destruct (Qle_bool b a) eqn:E; [|reflexivity].
  apply Qle_bool_iff in E. lra.
Qed.

Lemma Qltb_no (a b : Q) : b <= a -> Qltb a b = false.
Proof.
  intros H. unfold Qltb. now rewrite (proj2 (Qle_bool_iff b a) H).
Qed.

(** The bounds test of the planes pass on a line of three. *)
Lemma line_formation_tests (d : Draws) (s : State) :
  (activeCount s < maxPlanes s)%Z ->
  planeRoll d <= 0.02 * (1 + (inject_Z (level s) - 1) * 0.1) ->
  Qfloor (planeFormation d * 3) = 2%Z ->
  unit (planeSpeed d) -> (1 <= level s <= 10)%Z ->
  exists leader second third,
    planes (spawnPlanes d s) = planes s ++ [leader; second; third]
    /\ Plane.destroyed leader = false
    /\ Plane.destroyed second = false /\ Plane.destroyed third = false
    /\ Qltb (nextX leader) (-100) || Qltb (GAME_WIDTH + 100) (nextX leader)
       = false
    /\ Qltb (nextX second) (-100) || Qltb (GAME_WIDTH + 100) (nextX second)
       = true
    /\ Qltb (nextX third) (-100) || Qltb (GAME_WIDTH + 100) (nextX third)
       = true.
Proof.
  intros Hroom Hroll Hline [Hs0 Hs1] Hlevel.
  destruct (@level_factor s Hlevel) as [Hf0 Hf1].
  unfold spawnPlanes. fold (maxPlanes s). fold (activeCount s).
  destruct (Z.leb_spec (maxPlanes s) (activeCount s)); [lia|].
  assert (Hgo : Qltb (0.02 * (1 + (inject_Z (level s) - 1) * 0.1))
                  (planeRoll d) = false).
  { unfold Qltb. now rewrite (proj2 (Qle_bool_iff _ _) Hroll). }
  rewrite Hgo, Hline. cbn [Z.eqb].
  set (f := 1 + (inject_Z (level s) - 1) * 0.1) in *.
  set (v := (1 + planeSpeed d * 1.5) * f).
  assert (Hv : 0 < v /\ v < 10).
  { unfold v. split; nra. }
  destruct Hv as [Hv0 Hv1].
  eexists. eexists. eexists.
  split; [reflexivity|]. split; [reflexivity|]. split; [reflexivity|].
  split; [reflexivity|].
  unfold nextX, GAME_WIDTH, ofNat.
  cbn [Plane.x Plane.direction Plane.speed Z.of_nat].
  fold v.
  change (inject_Z 0) with 0.
  change (inject_Z (Z.pos (Pos.of_succ_nat 0))) with 1.
  change (inject_Z (Z.pos (Pos.of_succ_nat 1))) with 2.
  destruct (Qltb (planeDirection d) 0.5).
  - change (Qeq_bool 1 1) with true. cbv iota.
    split; [apply orb_false_iff; split; apply Qltb_no; lra|].
    split; apply orb_true_iff; left; apply Qltb_yes; lra.
  - change (Qeq_bool (-1) 1) with false. cbv iota.
    split; [apply orb_false_iff; split; apply Qltb_no; lra|].
    split; apply orb_true_iff; right; apply Qltb_yes; lra.
Qed.

Lemma planeBody_out (M : MathLib) (p : Plane.t) (k : nat) (st : State) :
  Plane.destroyed p = false ->
  Qltb (nextX p) (-100) || Qltb (GAME_WIDTH + 100) (nextX p) = true ->
  planes (planeBody M p k st) = splice1 k (planes st).
Proof.
  intros Hd Hout. unfold planeBody. rewrite Hd. cbn [negb].
  cbn [Plane.x Plane.set_x Plane.set_y]. fold (nextX p). rewrite Hout.
  cbn [planes set_planes]. apply splice1_writeAt.
Qed.

(** X15. When [spawnPlanes] sends a line of three (formation draw in
    [2/3, 1), levels 1 to 10, speed draw in [0, 1)), the leader's next
    move keeps it within the 100-unit margin around the arena, but the
    second and third planes start so far outside that the planes pass,
    whenever it visits one of them as spawned, removes it from the
    store. *)
Theorem line_trailers_start_out_of_bounds (M : MathLib) (d : Draws)
    (s : State) :
  (activeCount s < maxPlanes s)%Z ->
  planeRoll d <= 0.02 * (1 + (inject_Z (level s) - 1) * 0.1) ->
  Qfloor (planeFormation d * 3) = 2%Z ->
  unit (planeSpeed d) -> (1 <= level s <= 10)%Z ->
  exists leader second third,
    planes (spawnPlanes d s) = planes s ++ [leader; second; third]
    /\ Qltb (nextX leader) (-100) || Qltb (GAME_WIDTH + 100) (nextX leader)
       = false
    /\ (forall k st,
          planes (planeBody M second k st) = splice1 k (planes st))
    /\ (forall k st,
          planes (planeBody M third k st) = splice1 k (planes st)).
Proof.
  intros Hroom Hroll Hline Hspeed Hlevel.
  destruct (@line_formation_tests d s Hroom Hroll Hline Hspeed Hlevel)
    as (leader & second & third & Hp & _ & Hd2 & Hd3 & H1 & H2 & H3).
  exists leader, second, third.
  split; [exact Hp|]. split; [exact H1|].
  split; intros k st; now apply planeBody_out.
Qed.

Lemma line_trailers_start_out_of_bounds_witness :
  let s := startGame mounted in
  (activeCount s < maxPlanes s)%Z
  /\ unit (planeSpeed lineDraws)
  /\ exists leader second third,
       planes (spawnPlanes lineDraws s) = [leader; second; third]
       /\ Plane.x leader == -50 /\ Plane.x second == -110
       /\ Plane.x third == -170
       /\ Qltb (nextX second) (-100) = true
       /\ Qltb (nextX third) (-100) = true.
Proof.
  cbv zeta.
  assert (Hroom : (activeCount (startGame mounted)
                   < maxPlanes (startGame mounted))%Z)
    by (vm_compute; reflexivity).
  assert (Hspeed : unit (planeSpeed lineDraws))
    by (repeat split; vm_compute; discriminate).
  assert (Hroll : planeRoll lineDraws
                  <= 0.02 * (1 + (inject_Z (level (startGame mounted)) - 1)
                                  * 0.1))
    by (vm_compute; discriminate).
  assert (Hlevel : (1 <= level (startGame mounted) <= 10)%Z)
    by (change (1 <= 1 <= 10)%Z; lia).
  split; [exact Hroom|]. split; [exact Hspeed|].
  destruct (@line_trailers_start_out_of_bounds approxMath lineDraws
              (startGame mounted) Hroom Hroll eq_refl Hspeed Hlevel)
    as (leader & second & third & Hplanes & _).
  revert Hplanes.
  evaluate (spawnPlanes lineDraws (startGame mounted)).
  cbn [planes app]. intros [= <- <- <-].
  eexists. eexists. eexists. split; [reflexivity|].
  repeat split; vm_compute; reflexivity.
Defined.

(** ** Meteors touch nothing *)

(** A loop commutes with a change of the state that its array and its
    callback do not see. *)
Lemma forEach_commute {St A : Type} (arr : St -> list A)
    (body : A -> nat -> St -> St) (g : St -> St) :
  (forall s, arr (g s) = arr s) ->
  (forall a k s, body a k (g s) = g (body a k s)) ->
  forall s, forEach arr body (g s) = g (forEach arr body s).
Proof.
  intros Harr Hbody s. unfold forEach. rewrite Harr.
  generalize (List.length (arr s)) 0%nat. intros len. revert s.
  induction len as [|len IH]; intros s k; cbn [forEachFrom]; [reflexivity|].
  rewrite Harr. destruct (nth_error (arr s) k); [|apply IH].
  rewrite Hbody. apply IH.
Qed.

Lemma rocketBody_blind (M : MathLib) (d : Draws) (ms : list Meteor.t)
    (r : Rocket.t) (k : nat) (s : State) :
  rocketBody M d r k (set_meteors ms s) = set_meteors ms (rocketBody M d r k s).
Proof. unfold rocketBody. blind. Qed.

Lemma laserRocket_blind (M : MathLib) (m : Missile.t) (ms : list Meteor.t)
    (r : Rocket.t) (k : nat) (s : State) :
  laserRocket M m r k (set_meteors ms s)
  = set_meteors ms (laserRocket M m r k s).
Proof. unfold laserRocket, addScore. blind. Qed.

Lemma damagePlane_blind (amount : Q) (ms : list Meteor.t) (p : Plane.t)
    (k : nat) (s : State) :
  damagePlane amount p k (set_meteors ms s)
  = set_meteors ms (damagePlane amount p k s).
Proof. unfold damagePlane, addScore. blind. Qed.

Lemma laserPlane_blind (M : MathLib) (m : Missile.t) (ms : list Meteor.t)
    (p : Plane.t) (k : nat) (s : State) :
  laserPlane M m p k (set_meteors ms s)
  = set_meteors ms (laserPlane M m p k s).
Proof.
  unfold laserPlane. split_ifs; try reflexivity. apply damagePlane_blind.
Qed.

Lemma blastRocket_blind (M : MathLib) (e : Explosion.t) (ms : list Meteor.t)
    (r : Rocket.t) (k : nat) (s : State) :
  blastRocket M e r k (set_meteors ms s)
  = set_meteors ms (blastRocket M e r k s).
Proof. unfold blastRocket, addScore. blind. Qed.

Lemma blastPlane_blind (M : MathLib) (e : Explosion.t) (ms : list Meteor.t)
    (p : Plane.t) (k : nat) (s : State) :
  blastPlane M e p k (set_meteors ms s)
  = set_meteors ms (blastPlane M e p k s).
Proof.
  unfold blastPlane. split_ifs; try reflexivity. apply damagePlane_blind.
Qed.

Lemma missileBody_blind (M : MathLib) (d : Draws) (ms : list Meteor.t)
    (m : Missile.t) (k : nat) (s : State) :
  missileBody M d m k (set_meteors ms s)
  = set_meteors ms (missileBody M d m k s).
Proof.
  unfold missileBody.
  set (m' := moveMissile M m).
  change (set_missiles (writeAt k m' (missiles (set_meteors ms s)))
            (set_meteors ms s))
    with (set_meteors ms (set_missiles (writeAt k m' (missiles s)) s)).
  rewrite (forEach_commute rockets (laserRocket M m') (set_meteors ms));
    [|reflexivity | intros; apply laserRocket_blind].
  rewrite (forEach_commute planes (laserPlane M m') (set_meteors ms));
    [|reflexivity | intros; apply laserPlane_blind].
  split_ifs; reflexivity.
Qed.

Lemma explosionBody_blind (M : MathLib) (ms : list Meteor.t)
    (e : Explosion.t) (k : nat) (s : State) :
  explosionBody M e k (set_meteors ms s)
  = set_meteors ms (explosionBody M e k s).
Proof.
  unfold explosionBody.
  change (explosions (set_meteors ms s)) with (explosions s).
  destruct (pulse e k (explosions s)) as [e' exps].
  change (set_explosions exps (set_meteors ms s))
    with (set_meteors ms (set_explosions exps s)).
  rewrite (forEach_commute rockets (blastRocket M e') (set_meteors ms));
    [|reflexivity | intros; apply blastRocket_blind].
  rewrite (forEach_commute planes (blastPlane M e') (set_meteors ms));
    [|reflexivity | intros; apply blastPlane_blind].
  reflexivity.
Qed.

Lemma checkProgress_blind (ms : list Meteor.t) (s : State) :
  checkProgress (set_meteors ms s) = set_meteors ms (checkProgress s).
Proof.
  unfold checkProgress.
  cbn [level scoreRef set_meteors].
  destruct (level s * 500 <=? scoreRef s)%Z;
    [destruct (10 <=? level s)%Z|];
    cbn [towers set_status set_meteors];
    destruct (forallb Tower.destroyed (towers s)); reflexivity.
Qed.

Lemma updatePlayerFormation_blind (ms : list Meteor.t) (s : State) :
  updatePlayerFormation (set_meteors ms s)
  = mapOutcome (set_meteors ms) (updatePlayerFormation s).
Proof.
  unfold updatePlayerFormation.
  cbn [formationTimer set_formationTimer set_meteors].
  destruct (400 <? formationTimer s + 1)%Z;
    cbn [currentFormation towers set_formationTimer set_currentFormation
         set_meteors];
    match goal with
    | |- context [formationLoop ?f 0 (towers s)] =>
        destruct (formationLoop f 0 (towers s)) as [ts ok]
    end;
    destruct ok; reflexivity.
Qed.

Lemma planeBody_blind (M : MathLib) (ms : list Meteor.t) (p : Plane.t)
    (k : nat) (s : State) :
  planeBody M p k (set_meteors ms s) = set_meteors ms (planeBody M p k s).
Proof. unfold planeBody. blind. Qed.

Lemma spawnPlanes_blind (d : Draws) (ms : list Meteor.t) (s : State) :
  spawnPlanes d (set_meteors ms s) = set_meteors ms (spawnPlanes d s).
Proof. unfold spawnPlanes. blind. Qed.

Lemma spawnRocket_blind (M : MathLib) (d : Draws) (ms : list Meteor.t)
    (s : State) :
  spawnRocket M d (set_meteors ms s)
  = mapOutcome (set_meteors ms) (spawnRocket M d s).
Proof.
  unfold spawnRocket.
  cbn [level planes cities towers rockets set_meteors].
  destruct (Qltb _ (rocketRoll d)); [reflexivity|].
  destruct (Nat.eqb _ 0); [reflexivity|].
  destruct (item _ _) as [[pIndex plane]|]; [|reflexivity].
  destruct (Qltb _ _); [reflexivity|].
  cbn [cities towers rockets set_planes set_meteors].
  destruct (Nat.eqb _ 0); [reflexivity|].
  destruct (item _ _); reflexivity.
Qed.

Lemma withoutMeteors_set (ms : list Meteor.t) (s : State) :
  withoutMeteors (set_meteors ms s) = withoutMeteors s.
Proof. reflexivity. Qed.

Lemma withMeteors_back (s : State) :
  set_meteors (meteors s) (withoutMeteors s) = s.
Proof. now destruct s. Qed.

Lemma blind_scenery (F : State -> State) (a b : State) :
  (forall ms s, F (set_meteors ms s) = set_meteors ms (F s)) ->
  withoutMeteors a = withoutMeteors b ->
  withoutMeteors (F a) = withoutMeteors (F b).
Proof.
  intros HF Hab.
  rewrite <- (withMeteors_back a), <- (withMeteors_back b), !HF, Hab.
  reflexivity.
Qed.

Lemma blind_scenery_outcome (F : State -> outcome) (a b : State) :
  (forall ms s, F (set_meteors ms s) = mapOutcome (set_meteors ms) (F s)) ->
  withoutMeteors a = withoutMeteors b ->
  withoutMeteors (stateOf (F a)) = withoutMeteors (stateOf (F b))
  /\ returned (F a) = returned (F b).
Proof.
  intros HF Hab.
  rewrite <- (withMeteors_back a), <- (withMeteors_back b), !HF, Hab.
  destruct (F (withoutMeteors b)); split; reflexivity.
Qed.

Lemma beforeSky_blind (M : MathLib) (d : Draws) (ms : list Meteor.t)
    (s : State) :
  checkProgress
    (updateExplosions M (updateMissiles M d
                           (updateRockets M d (set_meteors ms s))))
  = set_meteors ms
      (checkProgress
         (updateExplosions M (updateMissiles M d (updateRockets M d s)))).
Proof.
  unfold updateRockets, updateMissiles, updateExplosions.
  rewrite (forEach_commute rockets (rocketBody M d) (set_meteors ms));
    [|reflexivity | intros; apply rocketBody_blind].
  rewrite (forEach_commute missiles (missileBody M d) (set_meteors ms));
    [|reflexivity | intros; apply missileBody_blind].
  rewrite (forEach_commute explosions (explosionBody M) (set_meteors ms));
    [|reflexivity | intros; apply explosionBody_blind].
  apply checkProgress_blind.
Qed.

Lemma afterMeteors_blind (M : MathLib) (d : Draws) (ms : list Meteor.t)
    (s : State) :
  spawnRocket M d (spawnPlanes d
                     (forEach planes (planeBody M) (set_meteors ms s)))
  = mapOutcome (set_meteors ms)
      (spawnRocket M d (spawnPlanes d (forEach planes (planeBody M) s))).
Proof.
  rewrite (forEach_commute planes (planeBody M) (set_meteors ms));
    [|reflexivity | intros; apply planeBody_blind].
  rewrite spawnPlanes_blind. apply spawnRocket_blind.
Qed.

Lemma meteorPass_scenery (M : MathLib) (d : Draws) (s : State) :
  withoutMeteors (forEach meteors meteorBody (spawnMeteor M d s))
  = withoutMeteors s.
Proof.
  rewrite (forEach_frame meteors meteorBody withoutMeteors).
  - unfold spawnMeteor. split_ifs; reflexivity.
  - intros m k t. unfold meteorBody. split_ifs; reflexivity.
Qed.

Lemma update_scenery (M : MathLib) (d : Draws) (a b : State) :
  withoutMeteors a = withoutMeteors b ->
  withoutMeteors (stateOf (update M d a))
  = withoutMeteors (stateOf (update M d b))
  /\ returned (update M d a) = returned (update M d b).
Proof.
  intros Hab. unfold update.
  pose proof (@blind_scenery
                (fun s => checkProgress
                            (updateExplosions M
                               (updateMissiles M d (updateRockets M d s))))
                a b (beforeSky_blind M d) Hab) as H4.
  cbv beta in H4.
  set (a4 := checkProgress
               (updateExplosions M (updateMissiles M d (updateRockets M d a))))
    in *.
  set (b4 := checkProgress
               (updateExplosions M (updateMissiles M d (updateRockets M d b))))
    in *.
  destruct (@blind_scenery_outcome updatePlayerFormation a4 b4
              updatePlayerFormation_blind H4) as [H5 Hr].
  destruct (updatePlayerFormation a4) as [a5|a5];
    destruct (updatePlayerFormation b4) as [b5|b5]; try discriminate;
    cbn [andThen stateOf returned] in *; [|auto].
  unfold updateSky.
  apply (@blind_scenery_outcome
           (fun s => spawnRocket M d
                       (spawnPlanes d (forEach planes (planeBody M) s)))
           _ _ (afterMeteors_blind M d)).
  rewrite !meteorPass_scenery. exact H5.
Qed.

Lemma fire_blind (M : MathLib) (x y : Q) (id : string) (ms : list Meteor.t)
    (s : State) :
  fire M x y id (set_meteors ms s) = set_meteors ms (fire M x y id s).
Proof.
  unfold fire. cbn [towers set_meteors].
  destruct (closestTower x 0 (towers s) None) as [[[i t] dist]|];
    reflexivity.
Qed.

Lemma handleCanvasClick_blind (M : MathLib) (e : Click) (ms : list Meteor.t)
    (s : State) :
  handleCanvasClick M e (set_meteors ms s)
  = mapOutcome (set_meteors ms) (handleCanvasClick M e s).
Proof.
  unfold handleCanvasClick. cbn [status set_meteors].
  destruct (negb _); [reflexivity|].
  destruct (canvasRef e) as [canvas|]; [|reflexivity].
  destruct (clientPoint (event e)) as [client|]; [|reflexivity].
  destruct (toWorld canvas client). cbn [mapOutcome]. now rewrite fire_blind.
Qed.

Lemma step_scenery (M : MathLib) (a b : State) (c : Command) :
  withoutMeteors a = withoutMeteors b ->
  withoutMeteors (step M a c) = withoutMeteors (step M b c).
Proof.
  intros Hab. destruct c as [d|e]; cbn [step].
  - unfold gameLoop.
    replace (status b) with (status a)
      by (change (status (withoutMeteors a) = status (withoutMeteors b));
          now rewrite Hab).
    destruct (GameStatus_eqb (status a) PLAYING); [|exact Hab].
    now apply update_scenery.
  - now apply (@blind_scenery_outcome (handleCanvasClick M e) a b
                 (handleCanvasClick_blind M e)).
Qed.

(** X16. Meteors are scenery: two states that differ only in their
    meteor stores go, through the same frames and clicks, to states that
    differ only in their meteor stores, and a frame throws for the one
    exactly when it throws for the other.  Nothing in the game ever
    depends on a meteor. *)
Theorem meteors_touch_nothing (M : MathLib) (cs : list Command) (d : Draws)
    (a b : State) :
  withoutMeteors a = withoutMeteors b ->
  withoutMeteors (run M cs a) = withoutMeteors (run M cs b)
  /\ returned (update M d a) = returned (update M d b).
Proof.
  intros Hab. split; [|now apply update_scenery].
  revert a b Hab. induction cs as [|c cs IH]; intros a b Hab;
    cbn [run fold_left]; [exact Hab|].
  apply IH. now apply step_scenery.
Qed.

Lemma meteors_touch_nothing_witness :
  let a := set_meteors [shootingStar] twoOnBeam in
  let cs := [Tick quietDraws; Fire (press 40 300); Tick eagerDraws] in
  withoutMeteors a = withoutMeteors twoOnBeam
  /\ withoutMeteors (run approxMath cs a)
     = withoutMeteors (run approxMath cs twoOnBeam).
Proof.
  cbv zeta.
  assert (H : withoutMeteors (set_meteors [shootingStar] twoOnBeam)
              = withoutMeteors twoOnBeam) by apply withoutMeteors_set.
  split; [exact H|].
  destruct (@meteors_touch_nothing approxMath
              [Tick quietDraws; Fire (press 40 300); Tick eagerDraws]
              quietDraws (set_meteors [shootingStar] twoOnBeam) twoOnBeam H)
    as [Hrun _].
  exact Hrun.
Defined.

(** ** How a frame can end *)

(** X17. A frame in PLAYING never changes the level and ends in LOST
    only if every tower is destroyed, in WON only at level 10 or more
    with the score at level x 500 or more and a tower standing, in
    LEVEL_UP only below level 10 with such a score and a tower standing,
    in PLAYING only with the score below level x 500 and a tower
    standing, and never in START. *)
Theorem frame_endings (M : MathLib) (d : Draws) (s : State) :
  status s = PLAYING ->
  let s' := stateOf (gameLoop M d s) in
  let standing := forallb Tower.destroyed (towers s') = false in
  level s' = level s
  /\ status s' <> START
  /\ (status s' = LOST -> forallb Tower.destroyed (towers s') = true)
  /\ (status s' = WON ->
      (10 <= level s)%Z /\ (level s * 500 <= scoreRef s')%Z /\ standing)
  /\ (status s' = LEVEL_UP ->
      (level s < 10)%Z /\ (level s * 500 <= scoreRef s')%Z /\ standing)
  /\ (status s' = PLAYING ->
      (scoreRef s' < level s * 500)%Z /\ standing).
Proof.
  intros Hplay. cbv zeta. rewrite (@gameLoop_playing M d s Hplay).
  destruct (update_status M d s) as [Hl Hs]. cbv zeta in Hl, Hs.
  rewrite Hplay in Hs. split; [exact Hl|].
  destruct (forallb Tower.destroyed (towers (stateOf (update M d s)))).
  - rewrite Hs. repeat split; intros; try discriminate; auto.
  - destruct (Z.leb_spec (level s * 500)
                (scoreRef (stateOf (update M d s)))) as [Hsc|Hsc];
      [destruct (Z.leb_spec 10 (level s)) as [Hlv|Hlv]|];
      rewrite Hs; repeat split; intros; try discriminate; auto.
Qed.

Lemma frame_endings_witness :
  let s' := stateOf (gameLoop approxMath quietDraws closeCall) in
  status closeCall = PLAYING
  /\ status s' = LEVEL_UP
  /\ (level closeCall < 10)%Z /\ (level closeCall * 500 <= scoreRef s')%Z.
Proof.
  cbv zeta.
  destruct (@frame_endings approxMath quietDraws closeCall eq_refl)
    as (_ & _ & _ & _ & Hup & _).
  assert (Hs : status (stateOf (gameLoop approxMath quietDraws closeCall))
               = LEVEL_UP).
  { evaluate (stateOf (gameLoop approxMath quietDraws closeCall)).
    reflexivity. }
  destruct (Hup Hs) as (H1 & H2 & _).
  repeat split; assumption.
Defined.

(** ** How a tower moves in one frame *)

Lemma formationLoop_glides (f : Z) (ts : list Tower.t) :
  forall i, (i + List.length ts <= List.length TOWER_POSITIONS)%nat ->
  Forall2 glides ts (fst (formationLoop f i ts)).
Proof.
  induction ts as [|t rest IH]; intros i Hi; cbn [formationLoop];
    [constructor|].
  cbn [List.length] in Hi.
  assert (Hrest : Forall2 glides rest (fst (formationLoop f (S i) rest)))
    by (apply IH; lia).
  destruct (Tower.destroyed t) eqn:Hd.
  - destruct (formationLoop f (S i) rest). constructor; [|exact Hrest].
    unfold glides. rewrite Hd. auto.
  - destruct (nth_error TOWER_POSITIONS i) as [b|] eqn:Hb.
    + destruct (formationLoop f (S i) rest). constructor; [|exact Hrest].
      destruct (formationTarget_bounds f i Hb) as (Htx & Hty0 & Hty1).
      unfold glides, stepTower.
      destruct (formationTarget f i b) as [tx ty]. cbn [fst snd] in *.
      cbn [Tower.x Tower.y Tower.targetX Tower.targetY Tower.destroyed
           Tower.set_x Tower.set_y Tower.set_targetX Tower.set_targetY].
      rewrite Hd. repeat split; auto; apply Qeq_refl.
    + apply nth_error_None in Hb. lia.
Qed.

Lemma glides_after_hit (a b c : Tower.t) :
  Tower.x b = Tower.x a /\ Tower.y b = Tower.y a ->
  glides b c -> glides a c.
Proof.
  intros [Hx Hy]. unfold glides. rewrite Hx, Hy. auto.
Qed.

Lemma Forall2_glides_after (ts ts' ts'' : list Tower.t) :
  Forall2 (fun a b => Tower.x b = Tower.x a /\ Tower.y b = Tower.y a) ts ts' ->
  Forall2 glides ts' ts'' -> Forall2 glides ts ts''.
Proof.
  intros H. revert ts''. induction H as [|a b l l' Hab _ IH];
    intros ts'' H'; inversion H'; subst; constructor; auto.
  eapply glides_after_hit; eauto.
Qed.

(** X18. In one [update] from a state with at most five towers, every
    tower that ends the frame destroyed is where it was, and every
    other tower has moved 3% of the way from where it was to its target,
    which is at a height between 450 and 540. *)
Theorem towers_glide (M : MathLib) (d : Draws) (s : State) :
  (List.length (towers s) <= List.length TOWER_POSITIONS)%nat ->
  Forall2 glides (towers s) (towers (stateOf (update M d s))).
Proof.
  intros Hlen. destruct (update_towers_shape M d s) as [f ->].
  assert (Hhit : Forall2 (fun a b => Tower.x b = Tower.x a
                                     /\ Tower.y b = Tower.y a)
                   (towers s) (towers (updateRockets M d s))).
  { apply (@updateRockets_towers_rel M
             (fun a b => Tower.x b = Tower.x a /\ Tower.y b = Tower.y a)).
    - split; reflexivity.
    - intros a b c [] []. split; congruence.
    - intros p t. apply hitTower_place. }
  eapply Forall2_glides_after; [exact Hhit|].
  apply formationLoop_glides.
  rewrite <- (Forall2_length Hhit). exact Hlen.
Qed.

Lemma towers_glide_witness :
  let s' := stateOf (update approxMath quietDraws lastStand) in
  (List.length (towers lastStand) <= List.length TOWER_POSITIONS)%nat
  /\ Forall2 glides (towers lastStand) (towers s')
  /\ wrecks s' = [false; true; true; true; true]
  /\ exists old new rest rest',
       towers lastStand = old :: rest /\ towers s' = new :: rest'
       /\ Tower.y old == 560 /\ Tower.targetY new == 540
       /\ Tower.y new == 559.4
       /\ Tower.y new
          == Tower.y old + (Tower.targetY new - Tower.y old) * 0.03.
Proof.
  cbv zeta.
  assert (Hlen : (List.length (towers lastStand)
                  <= List.length TOWER_POSITIONS)%nat)
    by (vm_compute; repeat constructor).
  pose proof (@towers_glide approxMath quietDraws lastStand Hlen) as H.
  split; [exact Hlen|]. split; [exact H|].
  revert H.
  evaluate (towers lastStand).
  unfold wrecks.
  evaluate (towers (stateOf (update approxMath quietDraws lastStand))).
  intros H. split; [reflexivity|].
  inversion H as [|old new rest rest' Hhead _]; subst.
  unfold glides in Hhead. cbn [Tower.destroyed] in Hhead.
  destruct Hhead as (_ & Hy & _).
  do 4 eexists. split; [reflexivity|]. split; [reflexivity|].
  split; [reflexivity|]. split; [reflexivity|]. split; [reflexivity|].
  exact Hy.
Defined.

(** ** Rockets that reach their target *)







(** A rocket that is not aloft has arrived, and conversely. *)
Lemma arrived_or_aloft (r : Rocket.t) :
  (Qle_bool (Point.y (Rocket.target r)) (Point.y (Rocket.current r)) = true
   /\ arrived r)
  \/ (Qle_bool (Point.y (Rocket.target r)) (Point.y (Rocket.current r)) = false
      /\ aloft r).
Proof.
  destruct (Qle_bool (Point.y (Rocket.target r))
              (Point.y (Rocket.current r))) eqn:H.
  - left. split; [reflexivity|]. now apply Qle_bool_iff.
  - right. split; [reflexivity|]. apply Qnot_le_lt. intros Hle.
    apply Qle_bool_iff in Hle. congruence.
Qed.

Lemma aloft_not_arrived (r : Rocket.t) : aloft r -> arrived r -> False.
Proof. unfold aloft, arrived. intros H1 H2. lra. Qed.

(** The callback of the rocket loop on a rocket that lands: one
    explosion at the rocket's position, the damage, and the splice. *)
Lemma rocketBody_lands (M : MathLib) (d : Draws) (r : Rocket.t) (k : nat)
    (s : State) :
  arrived (moveRocket M r) ->
  let c := Rocket.current (moveRocket M r) in
  rocketBody M d r k s
  = set_rockets (splice1 k (rockets s))
      (set_towers (map (hitTower c) (towers s))
         (set_cities (map (hitCity c) (cities s))
            (set_explosions
               (explosions s
                ++ [newExplosion (rocketBlastId d k) (Point.x c) (Point.y c)])
               s))).
Proof.
  intros H. cbv zeta. unfold rocketBody.
  destruct (arrived_or_aloft (moveRocket M r)) as [[-> _]|[_ Hup]];
    [|now destruct (aloft_not_arrived Hup H)].
  cbn [rockets explosions cities towers set_rockets set_explosions
       set_cities set_towers].
  now rewrite splice1_writeAt.
Qed.

(** The callback on a rocket that stays above its target: the rocket is
    moved, nothing else changes. *)
Lemma rocketBody_flies (M : MathLib) (d : Draws) (r : Rocket.t) (k : nat)
    (s : State) :
  aloft (moveRocket M r) ->
  rocketBody M d r k s
  = set_rockets (writeAt k (moveRocket M r) (rockets s)) s.
Proof.
  intros H. unfold rocketBody.
  destruct (arrived_or_aloft (moveRocket M r)) as [[_ Hdown]|[-> _]];
    [now destruct (aloft_not_arrived H Hdown) | reflexivity].
Qed.




(** ** Every frame starts with the rockets above their targets *)

Lemma clearSky_same (s s' : State) :
  rockets s' = rockets s -> planes s' = planes s ->
  clearSky s -> clearSky s'.
Proof. unfold clearSky. now intros -> ->. Qed.

Lemma rocketBody_sky (M : MathLib) (d : Draws) (r : Rocket.t) (k : nat)
    (s : State) :
  clearSky s -> clearSky (rocketBody M d r k s).
Proof.
  intros [Hr Hp].
  destruct (arrived_or_aloft (moveRocket M r)) as [[_ Hdown]|[_ Hup]].
  - rewrite (rocketBody_lands d k s Hdown). split; [|exact Hp].
    cbn [rockets set_rockets]. now apply Forall_splice1.
  - rewrite (rocketBody_flies d k s Hup). split; [|exact Hp].
    cbn [rockets set_rockets]. now apply Forall_writeAt.
Qed.

Lemma laserRocket_sky (M : MathLib) (m : Missile.t) (r : Rocket.t)
    (k : nat) (s : State) :
  clearSky s -> clearSky (laserRocket M m r k s).
Proof.
  intros [Hr Hp]. unfold laserRocket. split_ifs; [|now split].
  split; [|exact Hp]. cbn [rockets addScore set_rockets set_score
                           set_scoreRef]. now apply Forall_splice1.
Qed.

Lemma blastRocket_sky (M : MathLib) (e : Explosion.t) (r : Rocket.t)
    (k : nat) (s : State) :
  clearSky s -> clearSky (blastRocket M e r k s).
Proof.
  intros [Hr Hp]. unfold blastRocket. split_ifs; [|now split].
  split; [|exact Hp]. cbn [rockets addScore set_rockets set_score
                           set_scoreRef]. now apply Forall_splice1.
Qed.

Lemma damagePlane_sky (amount : Q) (p : Plane.t) (k : nat) (s : State) :
  cruising p -> clearSky s -> clearSky (damagePlane amount p k s).
Proof.
  intros [Ht Hy] [Hr Hp]. unfold damagePlane.
  split_ifs; (split; [exact Hr|]);
    cbn [planes addScore set_planes set_score set_scoreRef];
    (apply Forall_writeAt; [|exact Hp]); split; try exact Ht.
  - cbn [Plane.destroyed Plane.set_destroyed]. discriminate.
  - exact Hy.
Qed.

Lemma stored_cruising (s : State) (k : nat) (p : Plane.t) :
  clearSky s -> nth_error (planes s) k = Some p -> cruising p.
Proof.
  intros [_ Hp] Hk. rewrite Forall_forall in Hp. apply Hp.
  eapply nth_error_In; eauto.
Qed.

Lemma laserPlane_sky (M : MathLib) (m : Missile.t) (p : Plane.t)
    (k : nat) (s : State) :
  nth_error (planes s) k = Some p ->
  clearSky s -> clearSky (laserPlane M m p k s).
Proof.
  intros Hk H. unfold laserPlane. split_ifs; try exact H.
  apply damagePlane_sky; [eapply stored_cruising; eauto | exact H].
Qed.

Lemma blastPlane_sky (M : MathLib) (e : Explosion.t) (p : Plane.t)
    (k : nat) (s : State) :
  nth_error (planes s) k = Some p ->
  clearSky s -> clearSky (blastPlane M e p k s).
Proof.
  intros Hk H. unfold blastPlane. split_ifs; try exact H.
  apply damagePlane_sky; [eapply stored_cruising; eauto | exact H].
Qed.

Lemma updateMissiles_sky (M : MathLib) (d : Draws) (s : State) :
  clearSky s -> clearSky (updateMissiles M d s).
Proof.
  apply (forEach_keeps missiles (missileBody M d) clearSky).
  clear s. intros m k s H. unfold missileBody.
  set (m' := moveMissile M m).
  set (s1 := set_missiles (writeAt k m' (missiles s)) s).
  assert (H1 : clearSky s1) by exact H.
  assert (H2 : clearSky (forEach rockets (laserRocket M m') s1)).
  { apply (forEach_keeps rockets (laserRocket M m') clearSky); [|exact H1].
    intros. now apply laserRocket_sky. }
  set (s2 := forEach rockets (laserRocket M m') s1) in *.
  assert (H3 : clearSky (forEach planes (laserPlane M m') s2)).
  { apply (forEach_keeps_at planes (laserPlane M m') clearSky); [|exact H2].
    intros. now apply laserPlane_sky. }
  set (s3 := forEach planes (laserPlane M m') s2) in *.
  split_ifs; exact H3.
Qed.

Lemma updateExplosions_sky (M : MathLib) (s : State) :
  clearSky s -> clearSky (updateExplosions M s).
Proof.
  apply (forEach_keeps explosions (explosionBody M) clearSky).
  clear s. intros e k s H. unfold explosionBody.
  destruct (pulse e k (explosions s)) as [e' exps].
  set (s1 := set_explosions exps s).
  assert (H1 : clearSky s1) by exact H.
  apply (forEach_keeps_at planes (blastPlane M e') clearSky).
  - intros. now apply blastPlane_sky.
  - apply (forEach_keeps rockets (blastRocket M e') clearSky); [|exact H1].
    intros. now apply blastRocket_sky.
Qed.

Section BoundedSine.

Variable M : MathLib.
Hypothesis sin_le_1 : forall a, sin M a <= 1.

Lemma planeBody_sky (p : Plane.t) (k : nat) (s : State) :
  nth_error (planes s) k = Some p ->
  clearSky s -> clearSky (planeBody M p k s).
Proof.
  intros Hk H. destruct (@stored_cruising s k p H Hk) as [Ht Hy].
  destruct H as [Hr Hp]. unfold planeBody.
  destruct (Plane.destroyed p) eqn:Hd; cbn [negb].
  - assert (Hc : cruising (Plane.set_x (Plane.x (Plane.set_y (Plane.y p + 3) p)
                                         + Plane.direction
                                             (Plane.set_y (Plane.y p + 3) p)
                                           * 0.5)
                             (Plane.set_y (Plane.y p + 3) p))).
    { split; [exact Ht|].
      cbn [Plane.destroyed Plane.set_x Plane.set_y]. congruence. }
    split_ifs; (split; [exact Hr|]); cbn [planes set_planes].
    + rewrite splice1_writeAt. now apply Forall_splice1.
    + now apply Forall_writeAt.
  - set (p1 := Plane.set_x (Plane.x p + Plane.direction p * Plane.speed p) p).
    assert (Hc : cruising
                   (Plane.set_y (Plane.targetY p1
                                 + sin M (Plane.x p1 * 0.02) * 20) p1)).
    { split; [exact Ht|]. intros _.
      cbn [Plane.y Plane.set_y Plane.targetY p1 Plane.set_x].
      pose proof (sin_le_1 (Plane.x p1 * 0.02)) as Hs.
      lra. }
    split_ifs; (split; [exact Hr|]); cbn [planes set_planes].
    + rewrite splice1_writeAt. now apply Forall_splice1.
    + now apply Forall_writeAt.
Qed.

Lemma spawnPlanes_sky (d : Draws) (s : State) :
  unit (planeAltitude d) -> clearSky s -> clearSky (spawnPlanes d s).
Proof.
  intros [Ha0 Ha1] [Hr Hp]. unfold spawnPlanes.
  split_ifs; try (now split); (split; [exact Hr|]);
    cbn [planes set_planes map seq]; apply Forall_app; (split; [exact Hp|]);
    repeat (first [apply Forall_nil | apply Forall_cons]);
    (split; cbn [Plane.targetY Plane.y Plane.destroyed];
     [|intros _]; unfold GAME_WIDTH; lra).
Qed.

Lemma inLane_low (ts : list Tower.t) (ps : list TowerPosition.t) :
  Forall2 inLane ts ps -> Forall (fun t => 450 <= Tower.y t) ts.
Proof.
  intros H. induction H as [|t p ts ps (_ & Hy & _) _ IH]; constructor; auto.
Qed.

Lemma standing_low (s : State) (target : Point.t) :
  Forall2 inLane (towers s) TOWER_POSITIONS ->
  Forall (fun c => 450 <= City.y c) (cities s) ->
  In target (standing s) -> 450 <= Point.y target.
Proof.
  intros Ht Hc Hin. apply inLane_low in Ht.
  rewrite Forall_forall in Ht, Hc.
  unfold standing in Hin. apply in_app_or in Hin.
  destruct Hin as [Hin|Hin]; apply in_map_iff in Hin;
    destruct Hin as (x & <- & Hx); apply filter_In in Hx;
    destruct Hx as [Hx _]; cbn [Point.y]; auto.
Qed.

Lemma spawnRocket_sky (d : Draws) (s : State) :
  Forall2 inLane (towers s) TOWER_POSITIONS ->
  Forall (fun c => 450 <= City.y c) (cities s) ->
  clearSky s -> clearSky (stateOf (spawnRocket M d s)).
Proof.
  intros Hlane Hcity H. unfold spawnRocket.
  destruct (Qltb _ (rocketRoll d)); [exact H|].
  set (activePlanes := filter (fun ip => active (snd ip)) (indexed (planes s))).
  destruct (Nat.eqb (List.length activePlanes) 0); [exact H|].
  destruct (item activePlanes _) as [[i plane]|] eqn:Hitem; [|exact H].
  apply item_In in Hitem. apply filter_In in Hitem.
  destruct Hitem as [Hidx Hact]. apply indexed_In in Hidx.
  cbn [snd] in Hact. unfold active in Hact. apply negb_true_iff in Hact.
  destruct (Qltb (now d - Plane.lastFired plane) _); [exact H|].
  destruct (@stored_cruising s i plane H Hidx) as [Hty Hy]. specialize (Hy Hact).
  set (s1 := set_planes
               (writeAt i (Plane.set_lastFired (now d) plane) (planes s)) s).
  assert (H1 : clearSky s1).
  { destruct H as [Hr Hp]. split; [exact Hr|]. cbn [planes s1 set_planes].
    apply Forall_writeAt; [|exact Hp]. split; [exact Hty|]. intros _.
    exact Hy. }
  change (map (fun c => Point.mk (City.x c) (City.y c))
            (filter (fun c => negb (City.destroyed c)) (cities s1))
          ++ map (fun t => Point.mk (Tower.x t) (Tower.y t))
               (filter (fun t => negb (Tower.destroyed t)) (towers s1)))
    with (standing s).
  destruct (Nat.eqb (List.length (standing s)) 0); [exact H1|].
  destruct (item (standing s) _) as [target|] eqn:Htar; [|exact H1].
  apply item_In in Htar.
  pose proof (standing_low s target Hlane Hcity Htar) as Hlow.
  destruct H1 as [Hr Hp]. cbn [stateOf]. split; [|exact Hp].
  cbn [rockets set_rockets]. apply Forall_snoc; [exact Hr|].
  unfold aloft.
  cbn [Rocket.current Rocket.target Point.y Plane.y Plane.set_lastFired].
  lra.
Qed.

Lemma click_sky (e : Click) (s : State) :
  clearSky s -> clearSky (stateOf (handleCanvasClick M e s)).
Proof.
  intros H. unfold handleCanvasClick.
  destruct (negb _); [exact H|].
  destruct (canvasRef e) as [canvas|]; [|exact H].
  destruct (clientPoint (event e)) as [client|]; [|exact H].
  destruct (toWorld canvas client). unfold fire.
  destruct (closestTower _ 0 (towers s) None) as [[[i t] dist]|]; exact H.
Qed.

Lemma step_cities_low (s : State) (c : Command) :
  Forall (fun c => 450 <= City.y c) (cities s) ->
  Forall (fun c => 450 <= City.y c) (cities (step M s c)).
Proof.
  apply Forall2_Forall.
  eapply Forall2_impl;
    [|apply (@step_cities_rel M (fun a b => City.y b = City.y a))].
  - intros a b Hab Ha. cbv beta in Hab. now rewrite Hab.
  - reflexivity.
  - intros a b c' H1 H2. congruence.
  - intros p c'. unfold hitCity. split_ifs; reflexivity.
Qed.

Lemma update_sky (d : Draws) (s : State) :
  unit (planeAltitude d) ->
  Forall2 inLane (towers (stateOf (update M d s))) TOWER_POSITIONS ->
  Forall (fun c => 450 <= City.y c) (cities (stateOf (update M d s))) ->
  clearSky s -> clearSky (stateOf (update M d s)).
Proof.
  intros Halt. unfold update.
  set (s3 := updateExplosions M (updateMissiles M d (updateRockets M d s))).
  set (s4 := checkProgress s3).
  intros Hlane Hcity H.
  assert (H3 : clearSky s3).
  { apply updateExplosions_sky, updateMissiles_sky.
    apply (forEach_keeps rockets (rocketBody M d) clearSky); [|exact H].
    intros. now apply rocketBody_sky. }
  assert (H4 : clearSky s4).
  { pose proof (checkProgress_frame s3) as Hc. cbv zeta in Hc.
    apply (@clearSky_same s3); [unfold s4; congruence ..|exact H3]. }
  pose proof (updatePlayerFormation_frame s4) as Hf. cbv zeta in Hf.
  assert (H5 : clearSky (stateOf (updatePlayerFormation s4))).
  { apply (@clearSky_same s4); [congruence ..|exact H4]. }
  destruct (updatePlayerFormation s4) as [s5|s5]; cbn [andThen stateOf] in *;
    [|exact H5].
  unfold updateSky in *.
  set (s6 := spawnMeteor M d s5) in *.
  assert (H6 : clearSky s6).
  { apply (@clearSky_same s5); [| |exact H5];
      unfold s6, spawnMeteor; split_ifs; reflexivity. }
  set (s7 := forEach meteors meteorBody s6) in *.
  assert (H7 : clearSky s7).
  { assert (E : (rockets s7, planes s7) = (rockets s6, planes s6)).
    { apply (forEach_frame meteors meteorBody
               (fun s => (rockets s, planes s))). apply meteorBody_air. }
    apply (@clearSky_same s6); [congruence ..|exact H6]. }
  set (s8 := forEach planes (planeBody M) s7) in *.
  assert (H8 : clearSky s8).
  { apply (forEach_keeps_at planes (planeBody M) clearSky); [|exact H7].
    intros. now apply planeBody_sky. }
  pose proof (@spawnPlanes_sky d s8 Halt H8) as H9.
  set (s9 := spawnPlanes d s8) in *.
  pose proof (spawnRocket_ground M d s9) as Hg. unfold ground in Hg.
  apply spawnRocket_sky; [| |exact H9].
  - replace (towers s9) with (towers (stateOf (spawnRocket M d s9)))
      by congruence. exact Hlane.
  - replace (cities s9) with (cities (stateOf (spawnRocket M d s9)))
      by congruence. exact Hcity.
Qed.

Lemma step_safe (s : State) (c : Command) :
  fairMove (Play c) -> safe s -> safe (step M s c).
Proof.
  intros Hfair (Hr & Hp & Hlane & Hcity).
  pose proof (@step_inLane M s c Hlane) as Hlane'.
  pose proof (@step_cities_low s c Hcity) as Hcity'.
  assert (Hsky : clearSky (step M s c)).
  { destruct c as [d|e]; cbn [step] in *.
    - unfold gameLoop in *.
      destruct (GameStatus_eqb (status s) PLAYING); [|now split].
      apply update_sky; auto. now split.
    - apply click_sky. now split. }
  destruct Hsky as [Hr' Hp']. repeat split; assumption.
Qed.

Lemma reset_safe (s : State) : safe (startGame s) /\ safe (nextLevel s).
Proof.
  split; (split; [constructor|]); (split; [constructor|]); split;
    unfold startGame, nextLevel, initGame;
    cbn [towers cities set_status set_level set_rockets set_missiles
         set_explosions set_cities set_towers set_meteors set_planes
         set_formationTimer set_currentFormation set_score set_scoreRef];
    unfold TOWER_POSITIONS, CITY_POSITIONS; cbn [map];
    repeat constructor;
    cbn [Tower.x Tower.y TowerPosition.x City.y CityPosition.y];
    try reflexivity; try (vm_compute; discriminate).
Qed.

Lemma session_safe (ms : list Move) :
  forall s, Forall fairMove ms -> safe s -> safe (session M ms s).
Proof.
  induction ms as [|m ms IH]; intros s Hfair Hs; cbn [session fold_left];
    [exact Hs|].
  inversion Hfair as [|? ? Hm Hms]; subst.
  apply IH; [exact Hms|]. destruct m as [c| |]; cbn [act].
  - now apply step_safe.
  - exact (proj1 (reset_safe s)).
  - exact (proj2 (reset_safe s)).
Qed.

(** Whatever is played from a start of the game (frames, clicks,
    restarts, level-ups), every rocket in the store is above its
    target: rockets start at a plane, at height 260 or higher up, aim
    at a city or tower, at height 450 or lower down, and the loop that
    moves a rocket down to its target removes it. *)
Lemma rockets_stay_aloft (ms : list Move) (s0 : State) :
  Forall fairMove ms ->
  Forall aloft (rockets (session M ms (startGame s0))).
Proof.
  intros Hfair.
  now destruct (@session_safe ms (startGame s0) Hfair
                  (proj1 (reset_safe s0))) as [H _].
Qed.

End BoundedSine.








